(** * The Mbox of the Alpha 21264 emulator (DECaxp): load/store queues,
      store-to-load forwarding, cache probing and initialisation.

    The development embeds the C functions of [AXP_21264_Mbox.c]
    ([AXP_21264_Mbox_GetLQSlot], [AXP_21264_Mbox_GetSQSlot],
    [AXP_21264_Mbox_ReadMem], [AXP_21264_Mbox_WriteMem],
    [AXP_21264_Mbox_TryCaches], [AXP_21264_Mbox_LQ_Init],
    [AXP_21264_Mbox_Init]) and the store-conditional instructions of
    [AXP_21264_Ebox_LoadStore.c] ([AXP_STL_C], [AXP_STQ_C]) as Rocq
    functions over an explicit machine state.

    Conventions.
    - C unsigned integers are [Z] with the wrap-around written out
      ([u8], [u32], [u64]).
    - C arrays are lists read with [!!] and written with [alter]; an
      index outside the array is undefined behaviour in C and makes the
      embedded function return [None].
    - Pointers to instruction descriptors are addresses into a heap
      [instrs]; [None] is the NULL pointer.  Dereferencing NULL or a
      dangling address returns [None].
    - The host is little-endian.  The bytes of the host address space
      that are not part of the structures above are the map [memory];
      a read through an integer used as a pointer reads [memory] and
      returns [None] where no byte is mapped.
    - The mutexes and the condition variable are not modelled: every
      function is embedded at the granularity of one critical section.
    - Functions of the repository that the translation unit only calls
      (DTB translation, cache probes, MAF/IOWB, Ibox events) are outside
      the files embedded here.  Their results are parameters of the
      development and every call is recorded, in program order, in the
      [calls] log of the machine state.  What a callee that is handed
      the CPU writes into it (the Dcache and its tags, the MAF) is not
      computed: the log stands for it, and the statements about a run
      that makes such a call speak of the log, the queues and the
      instruction descriptors only. *)

From Stdlib Require Import ZArith Lia Bool.
From stdpp Require Import base option list gmap.

Local Open Scope Z_scope.

(** ** Machine integers *)

Definition u8 (z : Z) : Z := z mod 2 ^ 8.
Definition u32 (z : Z) : Z := z mod 2 ^ 32.
Definition u64 (z : Z) : Z := z mod 2 ^ 64.

(** [for (ii = lo; ii < hi; ii++) body]: [n] iterations from [ii]. *)
Fixpoint iterate_from {A : Type} (n : nat) (ii : Z) (body : Z -> A -> A) (a : A) : A :=
  match n with
  | O => a
  | S n' => iterate_from n' (ii + 1) body (body ii a)
  end.

Definition for_range {A : Type} (lo hi : Z) (body : Z -> A -> A) (a : A) : A :=
  iterate_from (Z.to_nat (hi - lo)) lo body a.

(** The same loop with a body that can fail. *)
Fixpoint iterate_fromM {A : Type} (n : nat) (ii : Z) (body : Z -> A -> option A)
    (a : A) : option A :=
  match n with
  | O => Some a
  | S n' => a' ← body ii a; iterate_fromM n' (ii + 1) body a'
  end.

Definition for_rangeM {A : Type} (lo hi : Z) (body : Z -> A -> option A) (a : A)
  : option A :=
  iterate_fromM (Z.to_nat (hi - lo)) lo body a.

(** Little-endian host: the [n] low bytes of a 64-bit object are the
    bytes at its [n] lowest addresses. *)
Definition low_bytes (n : Z) (v : Z) : Z := v mod 2 ^ (8 * n).

(** [*(uN * ) &dest = v]: overwrite the [n] low bytes of [dest]. *)
Definition write_low (n : Z) (dest v : Z) : Z :=
  dest - low_bytes n dest + low_bytes n v.

(** Read [n] bytes at host address [addr], little-endian; [None] when a
    byte is not mapped. *)
Fixpoint load_bytes (mem : gmap Z Z) (addr : Z) (n : nat) : option Z :=
  match n with
  | O => Some 0
  | S n' =>
      b ← mem !! addr;
      r ← load_bytes mem (addr + 1) n';
      Some (u8 b + 2 ^ 8 * r)
  end.

(** ** Enumerations named by the source *)

(** States of a load- or store-queue entry. *)
Inductive AXP_MBOX_QUEUE_STATE : Type :=
  | QNotInUse
  | Assigned
  | Initial
  | LQReadPending
  | LQReadable
  | LQComplete
  | SQWritePending
  | SQComplete.

(** States of an instruction descriptor. *)
Inductive AXP_INS_STATE : Type :=
  | Executing
  | WaitingForCompletion
  | WaitingRetirement.

Inductive AXP_EXCEPTIONS : Type :=
  | NoException.

(** The opcodes the load path distinguishes; every other opcode is
    carried by its number. *)
Inductive AXP_OPCODE : Type :=
  | LDA | LDAH | LDBU | LDQ_U | LDW_U | HW_LD
  | LDF | LDG | LDS | LDT
  | LDL | LDQ | LDL_L | LDQ_L
  | OtherOpcode (n : Z).

(** Kinds of a miss-address-file entry. *)
Inductive AXP_MAF_TYPE : Type :=
  | MAFNotInUse
  | LDx
  | OtherMAF (n : Z).

Inductive AXP_CBOX_RQ : Type :=
  | NOPcmd
  | OtherCmd (n : Z).

Inductive AXP_CBOX_RSP : Type :=
  | NOPsysdc
  | OtherSysdc (n : Z).

Inductive AXP_CACHE_STATE : Type :=
  | Invalid
  | OtherCacheState (n : Z).

(** Access kind handed to the translation. *)
Inductive AXP_ACCESS : Type :=
  | Read
  | OtherAccess (n : Z).

(** ** Structures *)

(** The instruction descriptor, owned by the Ibox and referenced by
    address from the queue entries. *)
Module Ins.
Record t : Type := mk {
  uniqueID : Z;
  opcode : AXP_OPCODE;
  pc : Z;
  aDest : Z;
  src1v : Z;
  displacement : Z;
  destv : Z;
  len_stall : Z;
  lockFlagPending : bool;
  lockPhysAddrPending : Z;
  lockVirtAddrPending : Z;
  clearLockPending : bool;
  state : AXP_INS_STATE
}.

Definition set_destv (v : Z) (i : t) : t :=
  mk (uniqueID i) (opcode i) (pc i) (aDest i) (src1v i) (displacement i)
     v (len_stall i) (lockFlagPending i) (lockPhysAddrPending i)
     (lockVirtAddrPending i) (clearLockPending i) (state i).

Definition set_len_stall (v : Z) (i : t) : t :=
  mk (uniqueID i) (opcode i) (pc i) (aDest i) (src1v i) (displacement i)
     (destv i) v (lockFlagPending i) (lockPhysAddrPending i)
     (lockVirtAddrPending i) (clearLockPending i) (state i).

Definition set_clearLockPending (b : bool) (i : t) : t :=
  mk (uniqueID i) (opcode i) (pc i) (aDest i) (src1v i) (displacement i)
     (destv i) (len_stall i) (lockFlagPending i) (lockPhysAddrPending i)
     (lockVirtAddrPending i) b (state i).

Definition set_state (s : AXP_INS_STATE) (i : t) : t :=
  mk (uniqueID i) (opcode i) (pc i) (aDest i) (src1v i) (displacement i)
     (destv i) (len_stall i) (lockFlagPending i) (lockPhysAddrPending i)
     (lockVirtAddrPending i) (clearLockPending i) s.
End Ins.

(** An address of an instruction descriptor; [None] is NULL. *)
Definition instr_ptr : Type := option Z.

(** One entry of the load queue or of the store queue
    ([AXP_MBOX_QUEUE]). *)
Module Q.
Record t : Type := mk {
  value : Z;
  virtAddress : Z;
  physAddress : Z;
  len : Z;
  instr : instr_ptr;
  state : AXP_MBOX_QUEUE_STATE;
  IOflag : bool;
  lockCond : bool
}.

Definition set_value (v : Z) (e : t) : t :=
  mk v (virtAddress e) (physAddress e) (len e) (instr e) (state e)
     (IOflag e) (lockCond e).
Definition set_virtAddress (v : Z) (e : t) : t :=
  mk (value e) v (physAddress e) (len e) (instr e) (state e)
     (IOflag e) (lockCond e).
Definition set_physAddress (v : Z) (e : t) : t :=
  mk (value e) (virtAddress e) v (len e) (instr e) (state e)
     (IOflag e) (lockCond e).
Definition set_len (v : Z) (e : t) : t :=
  mk (value e) (virtAddress e) (physAddress e) v (instr e) (state e)
     (IOflag e) (lockCond e).
Definition set_instr (p : instr_ptr) (e : t) : t :=
  mk (value e) (virtAddress e) (physAddress e) (len e) p (state e)
     (IOflag e) (lockCond e).
Definition set_state (s : AXP_MBOX_QUEUE_STATE) (e : t) : t :=
  mk (value e) (virtAddress e) (physAddress e) (len e) (instr e) s
     (IOflag e) (lockCond e).
Definition set_IOflag (b : bool) (e : t) : t :=
  mk (value e) (virtAddress e) (physAddress e) (len e) (instr e) (state e)
     b (lockCond e).
Definition set_lockCond (b : bool) (e : t) : t :=
  mk (value e) (virtAddress e) (physAddress e) (len e) (instr e) (state e)
     (IOflag e) b.
End Q.

(** A Dcache block. *)
Module DC.
Record t : Type := mk {
  data : list Z;
  physTag : Z;
  valid : bool;
  dirty : bool;
  shared : bool;
  modified : bool;
  set_0_1 : bool;
  locked : bool;
  state : AXP_CACHE_STATE
}.
End DC.

(** A duplicate-tag entry. *)
Module DTAG.
Record t : Type := mk {
  physTag : Z;
  ctagIndex : Z;
  ctagSet : Z;
  valid : bool
}.
End DTAG.

(** A translation-buffer entry. *)
Module TLB.
Record t : Type := mk {
  virtAddr : Z;
  physAddr : Z;
  matchMask : Z;
  keepMask : Z;
  kre : Z; ere : Z; sre : Z; ure : Z;
  kwe : Z; ewe : Z; swe : Z; uwe : Z;
  faultOnRead : Z;
  faultOnWrite : Z;
  faultOnExecute : Z;
  res_1 : Z;
  asn : Z;
  _asm : bool;
  valid : bool
}.
End TLB.

(** A miss-address-file entry (the fields the Mbox writes). *)
Module MAF.
Record t : Type := mk {
  type : AXP_MAF_TYPE;
  rq : AXP_CBOX_RQ;
  rsp : AXP_CBOX_RSP;
  pa : Z;
  complete : bool
}.
End MAF.

(** ** The Mbox internal processor registers *)

Module DTB_TAG.
Record t : Type := mk { res_1 : Z; va : Z; res_2 : Z }.
End DTB_TAG.

Module DTB_PTE.
Record t : Type := mk {
  res_1 : Z; pa : Z; res_2 : Z;
  uwe : Z; swe : Z; ewe : Z; kwe : Z;
  ure : Z; sre : Z; ere : Z; kre : Z;
  res_3 : Z; gh : Z; _asm : Z; res_4 : Z;
  fow : Z; _for : Z; res_5 : Z
}.
End DTB_PTE.

Module DTB_ALTMODE.
Record t : Type := mk { alt_mode : Z; res : Z }.
End DTB_ALTMODE.

Module DTB_IS.
Record t : Type := mk { res_1 : Z; inval_itb : Z; res_2 : Z }.
End DTB_IS.

Module DTB_ASN.
Record t : Type := mk { res_1 : Z; asn : Z; res_2 : Z }.
End DTB_ASN.

Module MM_STAT.
Record t : Type := mk {
  res : Z; dc_tag_perr : Z; opcodes : Z;
  fow : Z; _for : Z; acv : Z; wr : Z
}.
End MM_STAT.

Module M_CTL.
Record t : Type := mk { res_1 : Z; spe : Z; res_2 : Z }.
End M_CTL.

Module DC_CTL.
Record t : Type := mk {
  dcdat_err_en : Z; dctag_par_en : Z;
  f_bad_decc : Z; f_bad_tpar : Z; f_hit : Z;
  set_en : Z
}.
End DC_CTL.

(** [Mbox_Init] assigns [tperr_p1] twice and no other parity field. *)
Module DC_STAT.
Record t : Type := mk {
  res : Z; seo : Z; ecc_err_ld : Z; ecc_err_st : Z; tperr_p1 : Z
}.
End DC_STAT.

Module VA_CTL.
Record t : Type := mk { b_endian : Z }.
End VA_CTL.

(** ** The CPU aggregate (the parts the Mbox and the store-conditional
    instructions read or write) *)

Module CPU.
Record t : Type := mk {
  dCache : list (list DC.t);
  dtag : list (list DTAG.t);
  lq : list Q.t;
  lqNext : Z;
  sq : list Q.t;
  sqNext : Z;
  dtb : list TLB.t;
  nextDTB : Z;
  maf : list MAF.t;
  tbMissOutstanding : bool;
  dtbTag0 : DTB_TAG.t;
  dtbTag1 : DTB_TAG.t;
  dtbPte0 : DTB_PTE.t;
  dtbPte1 : DTB_PTE.t;
  dtbAltMode : DTB_ALTMODE.t;
  dtbIs0 : DTB_IS.t;
  dtbIs1 : DTB_IS.t;
  dtbAsn0 : DTB_ASN.t;
  dtbAsn1 : DTB_ASN.t;
  mmStat : MM_STAT.t;
  mCtl : M_CTL.t;
  dcCtl : DC_CTL.t;
  dcStat : DC_STAT.t;
  lockFlag : bool;
  vaCtl : VA_CTL.t
}.

Definition set_lq (v : list Q.t) (c : t) : t :=
  mk (dCache c) (dtag c) v (lqNext c) (sq c) (sqNext c) (dtb c) (nextDTB c)
     (maf c) (tbMissOutstanding c) (dtbTag0 c) (dtbTag1 c) (dtbPte0 c)
     (dtbPte1 c) (dtbAltMode c) (dtbIs0 c) (dtbIs1 c) (dtbAsn0 c) (dtbAsn1 c)
     (mmStat c) (mCtl c) (dcCtl c) (dcStat c) (lockFlag c) (vaCtl c).

Definition set_lqNext (v : Z) (c : t) : t :=
  mk (dCache c) (dtag c) (lq c) v (sq c) (sqNext c) (dtb c) (nextDTB c)
     (maf c) (tbMissOutstanding c) (dtbTag0 c) (dtbTag1 c) (dtbPte0 c)
     (dtbPte1 c) (dtbAltMode c) (dtbIs0 c) (dtbIs1 c) (dtbAsn0 c) (dtbAsn1 c)
     (mmStat c) (mCtl c) (dcCtl c) (dcStat c) (lockFlag c) (vaCtl c).

Definition set_sq (v : list Q.t) (c : t) : t :=
  mk (dCache c) (dtag c) (lq c) (lqNext c) v (sqNext c) (dtb c) (nextDTB c)
     (maf c) (tbMissOutstanding c) (dtbTag0 c) (dtbTag1 c) (dtbPte0 c)
     (dtbPte1 c) (dtbAltMode c) (dtbIs0 c) (dtbIs1 c) (dtbAsn0 c) (dtbAsn1 c)
     (mmStat c) (mCtl c) (dcCtl c) (dcStat c) (lockFlag c) (vaCtl c).

Definition set_sqNext (v : Z) (c : t) : t :=
  mk (dCache c) (dtag c) (lq c) (lqNext c) (sq c) v (dtb c) (nextDTB c)
     (maf c) (tbMissOutstanding c) (dtbTag0 c) (dtbTag1 c) (dtbPte0 c)
     (dtbPte1 c) (dtbAltMode c) (dtbIs0 c) (dtbIs1 c) (dtbAsn0 c) (dtbAsn1 c)
     (mmStat c) (mCtl c) (dcCtl c) (dcStat c) (lockFlag c) (vaCtl c).
End CPU.

(** ** Calls that leave the embedded files

    One constructor per function the Mbox calls and whose body is not
    part of the embedded files; the arguments are those of the call
    site, without the [cpu] pointer. *)
Inductive ext_call : Type :=
  | Call_va2pa (va pc : Z) (useDTB : bool) (acc : AXP_ACCESS)
  | Call_Dcache_Status (va pa : Z)
  | Call_Bcache_Status (pa : Z)
  | Call_CopyBcacheToDcache (va pa : Z)
  | Call_DcacheRead (va pa len : Z)
  | Call_Add_MAF (type : AXP_MAF_TYPE) (pa entry : Z) (data : option Z) (len : Z)
  | Call_Add_IOWB (pa entry : Z) (data : option Z) (len : Z)
  | Call_Ibox_Event (fault pc va : Z) (opcode : AXP_OPCODE) (reg : Z)
      (write self : bool).

(** ** The machine: the CPU aggregate, the instruction descriptors it
    points to, the rest of the host address space (bytes by address)
    and the log of calls that left the embedded files (oldest first). *)
Module M.
Record t : Type := mk {
  cpu : CPU.t;
  instrs : gmap Z Ins.t;
  memory : gmap Z Z;
  calls : list ext_call
}.

Definition set_cpu (c : CPU.t) (m : t) : t :=
  mk c (instrs m) (memory m) (calls m).
Definition set_instrs (i : gmap Z Ins.t) (m : t) : t :=
  mk (cpu m) i (memory m) (calls m).
Definition call (e : ext_call) (m : t) : t :=
  mk (cpu m) (instrs m) (memory m) (calls m ++ [e]).
End M.

(** [p->field] for an instruction pointer. *)
Definition deref (m : M.t) (p : instr_ptr) : option Ins.t :=
  a ← p; M.instrs m !! a.

(** [p->field = ...] for an instruction pointer. *)
Definition store_instr (m : M.t) (p : instr_ptr) (f : Ins.t -> Ins.t)
  : option M.t :=
  a ← p; i ← M.instrs m !! a;
  Some (M.set_instrs (<[a := f i]> (M.instrs m)) m).

(** [&cpu->lq[entry]] read and written back. *)
Definition get_lq (m : M.t) (entry : Z) : option Q.t :=
  if 0 <=? entry then CPU.lq (M.cpu m) !! Z.to_nat entry else None.

Definition get_sq (m : M.t) (ii : Z) : option Q.t :=
  if 0 <=? ii then CPU.sq (M.cpu m) !! Z.to_nat ii else None.

Definition upd_lq (entry : Z) (f : Q.t -> Q.t) (m : M.t) : M.t :=
  M.set_cpu (CPU.set_lq (alter f (Z.to_nat entry) (CPU.lq (M.cpu m))) (M.cpu m)) m.

Definition upd_sq (entry : Z) (f : Q.t -> Q.t) (m : M.t) : M.t :=
  M.set_cpu (CPU.set_sq (alter f (Z.to_nat entry) (CPU.sq (M.cpu m))) (M.cpu m)) m.

(** ** Parameters *)

(** Constants and macros of headers that are not among the embedded
    files. *)
Class Constants : Type := {
  AXP_MBOX_QUEUE_LEN : Z;
  AXP_CACHE_ENTRIES : Z;
  AXP_2_WAY_CACHE : Z;
  AXP_DCACHE_DATA_LEN : Z;
  AXP_TB_LEN : Z;
  AXP_21264_MAF_LEN : Z;
  AXP_MBOX_ALTMODE_KERNEL : Z;
  AXP_21264_CACHE_HIT : Z;
  AXP_HW_LD_LONGWORD : Z;
  AXP_21264_IS_IO_ADDR : Z -> bool;
  AXP_BIG_ENDIAN_LONG : Z -> Z
}.

(** Results of the functions the Mbox calls outside the embedded files,
    as functions of the machine at the call (its [calls] log included).
    [AXP_va2pa] gives the physical address, the [_asm] flag and the
    fault code; [AXP_DcacheRead] gives its return value and the content
    of the 64-bit object its output pointer refers to after the call. *)
Class Externals : Type := {
  AXP_va2pa : M.t -> Z -> Z -> bool -> AXP_ACCESS -> Z * bool * Z;
  AXP_Dcache_Status : M.t -> Z -> Z -> Z;
  AXP_21264_Bcache_Status : M.t -> Z -> Z;
  AXP_DcacheRead : M.t -> Z -> Z -> Z -> bool * Z
}.

Section Mbox.

Context {K : Constants} {X : Externals}.

(** ** Queue slot allocation *)

(** [AXP_21264_Mbox_GetLQSlot]: the return value and the CPU after the
    call. *)
Definition AXP_21264_Mbox_GetLQSlot (cpu : CPU.t) : Z * CPU.t :=
  let retVal := u32 AXP_MBOX_QUEUE_LEN in
  if CPU.lqNext cpu <? u32 AXP_MBOX_QUEUE_LEN then
    let retVal := CPU.lqNext cpu in
    let cpu := CPU.set_lqNext (u32 (CPU.lqNext cpu + 1)) cpu in
    let cpu :=
      CPU.set_lq (alter (Q.set_state Assigned) (Z.to_nat retVal) (CPU.lq cpu)) cpu in
    (retVal, cpu)
  else (retVal, cpu).

(** [AXP_21264_Mbox_GetSQSlot]. *)
Definition AXP_21264_Mbox_GetSQSlot (cpu : CPU.t) : Z * CPU.t :=
  let retVal := u32 AXP_MBOX_QUEUE_LEN in
  if CPU.sqNext cpu <? u32 AXP_MBOX_QUEUE_LEN then
    let retVal := CPU.sqNext cpu in
    let cpu := CPU.set_sqNext (u32 (CPU.sqNext cpu + 1)) cpu in
    let cpu :=
      CPU.set_sq (alter (Q.set_state Assigned) (Z.to_nat retVal) (CPU.sq cpu)) cpu in
    (retVal, cpu)
  else (retVal, cpu).

(** [AXP_21264_Mbox_ReadMem]: publish a load in slot [slot]. *)
Definition AXP_21264_Mbox_ReadMem (m : M.t) (instr : instr_ptr) (slot virtAddr : Z)
  : option M.t :=
  _ ← get_lq m slot;
  let m := upd_lq slot (Q.set_virtAddress virtAddr) m in
  let m := upd_lq slot (Q.set_instr instr) m in
  let m := upd_lq slot (Q.set_state Initial) m in
  Some m.

(** [AXP_21264_Mbox_WriteMem]: publish a store in slot [slot]. *)
Definition AXP_21264_Mbox_WriteMem (m : M.t) (instr : instr_ptr)
    (slot virtAddr value : Z) : option M.t :=
  _ ← get_sq m slot;
  let m := upd_sq slot (Q.set_value value) m in
  let m := upd_sq slot (Q.set_virtAddress virtAddr) m in
  let m := upd_sq slot (Q.set_instr instr) m in
  let m := upd_sq slot (Q.set_state Initial) m in
  Some m.

(** ** Store-to-load forwarding and cache probing *)

(** The store-queue states [AXP_21264_Mbox_TryCaches] looks deeper at. *)
Definition sq_in_process (s : AXP_MBOX_QUEUE_STATE) : bool :=
  match s with
  | Initial | SQWritePending | SQComplete => true
  | _ => false
  end.

(** The body of the loop over the store queue.  The accumulator is the
    pair of locals [(olderStore, nextOlderStore)]; [nextOlderStore] is
    read only once [olderStore] is true. *)
Definition scan_body (m : M.t) (lqEntry : Q.t) (ii : Z) (acc : bool * Z)
  : option (bool * Z) :=
  let '(olderStore, nextOlderStore) := acc in
  sqe ← get_sq m ii;
  if sq_in_process (Q.state sqe) then
    if (Q.virtAddress lqEntry =? Q.virtAddress sqe)
       && (Q.len lqEntry <=? Q.len sqe) then
      li ← deref m (Q.instr lqEntry);
      si ← deref m (Q.instr sqe);
      if Ins.uniqueID li <? Ins.uniqueID si then
        if olderStore then
          nx ← get_sq m nextOlderStore;
          ni ← deref m (Q.instr nx);
          if Ins.uniqueID si >? Ins.uniqueID ni
          then Some (olderStore, u8 ii)
          else Some acc
        else Some (true, u8 ii)
      else Some acc
    else Some acc
  else Some acc.

(** The loop [for (ii = 0; ii < AXP_MBOX_QUEUE_LEN; ii++)]. *)
Definition scan_sq (m : M.t) (lqEntry : Q.t) : option (bool * Z) :=
  for_rangeM 0 AXP_MBOX_QUEUE_LEN (scan_body m lqEntry) (false, 0).

(** The [switch (lqEntry->len)] of the forwarding branch.  Width 1 reads
    the low byte of the store's [value] field; widths 2, 4 and 8 read
    through the [value] taken as an address. *)
Definition forward_value (m : M.t) (len : Z) (sqe : Q.t) (destv : Z) : option Z :=
  if len =? 1 then Some (write_low 1 destv (low_bytes 1 (Q.value sqe)))
  else if len =? 2 then
    v ← load_bytes (M.memory m) (Q.value sqe) 2; Some (write_low 2 destv v)
  else if len =? 4 then
    v ← load_bytes (M.memory m) (Q.value sqe) 4; Some (write_low 4 destv v)
  else if len =? 8 then
    v ← load_bytes (M.memory m) (Q.value sqe) 8; Some (write_low 8 destv v)
  else Some destv.

(** [AXP_21264_Mbox_TryCaches].  The local [cacheStatus] is a [u8]:
    what the two status functions return is truncated to 8 bits before
    it is compared with [AXP_21264_CACHE_HIT]. *)
Definition AXP_21264_Mbox_TryCaches (m : M.t) (entry : Z) : option M.t :=
  let entry := u8 entry in
  lqEntry ← get_lq m entry;
  '(olderStore, nextOlderStore) ← scan_sq m lqEntry;
  if negb olderStore then
    let va := Q.virtAddress lqEntry in
    let pa := Q.physAddress lqEntry in
    let cacheStatus := u8 (AXP_Dcache_Status m va pa) in
    let m := M.call (Call_Dcache_Status va pa) m in
    let '(m, DcHit) :=
      if negb (cacheStatus =? AXP_21264_CACHE_HIT) then
        let cacheStatus := u8 (AXP_21264_Bcache_Status m pa) in
        let m := M.call (Call_Bcache_Status pa) m in
        if negb (cacheStatus =? AXP_21264_CACHE_HIT) then
          (M.call (Call_Add_MAF LDx pa entry None (Q.len lqEntry)) m, false)
        else
          (M.call (Call_CopyBcacheToDcache va pa) m, true)
      else (m, true) in
    if DcHit then
      m ← store_instr m (Q.instr lqEntry) (Ins.set_destv 0);
      let '(retVal, v) := AXP_DcacheRead m va pa (Q.len lqEntry) in
      let m := M.call (Call_DcacheRead va pa (Q.len lqEntry)) m in
      m ← store_instr m (Q.instr lqEntry) (Ins.set_destv v);
      Some (upd_lq entry (Q.set_state LQComplete) m)
    else Some m
  else
    m ← store_instr m (Q.instr lqEntry) (Ins.set_destv 0);
    sqe ← get_sq m nextOlderStore;
    v ← forward_value m (Q.len lqEntry) sqe 0;
    m ← store_instr m (Q.instr lqEntry) (Ins.set_destv v);
    Some (upd_lq entry (Q.set_state LQComplete) m).

(** The [switch (lqEntry->instr->opcode)] of [AXP_21264_Mbox_LQ_Init].
    The [HW_LD] case assigns [AXP_HW_LD_LONGWORD] to [len_stall] and
    tests the assigned value. *)
Definition set_load_len (m : M.t) (entry : Z) (lqEntry : Q.t) (ins : Ins.t)
  : option M.t :=
  match Ins.opcode ins with
  | LDBU => Some (upd_lq entry (Q.set_len 1) m)
  | LDW_U => Some (upd_lq entry (Q.set_len 2) m)
  | LDF | LDS | LDL | LDL_L => Some (upd_lq entry (Q.set_len 4) m)
  | LDA | LDAH | LDQ_U | LDG | LDT | LDQ | LDQ_L =>
      Some (upd_lq entry (Q.set_len 8) m)
  | HW_LD =>
      m ← store_instr m (Q.instr lqEntry) (Ins.set_len_stall AXP_HW_LD_LONGWORD);
      if negb (AXP_HW_LD_LONGWORD =? 0)
      then Some (upd_lq entry (Q.set_len 4) m)
      else Some (upd_lq entry (Q.set_len 8) m)
  | OtherOpcode _ => Some m
  end.

(** [AXP_21264_Mbox_LQ_Init]. *)
Definition AXP_21264_Mbox_LQ_Init (m : M.t) (entry : Z) : option M.t :=
  let entry := u8 entry in
  lqEntry ← get_lq m entry;
  ins ← deref m (Q.instr lqEntry);
  m ← set_load_len m entry lqEntry ins;
  lqEntry ← get_lq m entry;
  ins ← deref m (Q.instr lqEntry);
  let va := Q.virtAddress lqEntry in
  let '(pa, _asm, fault) := AXP_va2pa m va (Ins.pc ins) true Read in
  let m := M.call (Call_va2pa va (Ins.pc ins) true Read) m in
  let m := upd_lq entry (Q.set_physAddress pa) m in
  if negb (pa =? 0) then
    let IOflag := AXP_21264_IS_IO_ADDR pa in
    let m := upd_lq entry (Q.set_IOflag IOflag) m in
    let m := upd_lq entry (Q.set_state LQReadPending) m in
    if negb IOflag then AXP_21264_Mbox_TryCaches m entry
    else Some (M.call (Call_Add_IOWB pa entry None (Q.len lqEntry)) m)
  else
    Some (M.call (Call_Ibox_Event fault (Ins.pc ins) va (Ins.opcode ins)
                    (Ins.aDest ins) false false) m).

End Mbox.

(** ** Initialisation *)

Section Mbox_Init.

Context {K : Constants}.

(** The body of the loop over the Dcache: [memset] of the first
    [AXP_DCACHE_DATA_LEN] bytes of the block and the status fields. *)
Definition init_dcache_blk (b : DC.t) : DC.t :=
  DC.mk (replicate (Z.to_nat AXP_DCACHE_DATA_LEN) 0
           ++ drop (Z.to_nat AXP_DCACHE_DATA_LEN) (DC.data b))
        0 false false false false false false Invalid.

Definition init_dtag_blk (d : DTAG.t) : DTAG.t :=
  DTAG.mk 0 AXP_CACHE_ENTRIES AXP_2_WAY_CACHE false.

(** The body of the loops over LQ and SQ; [len] and [physAddress] are
    not assigned. *)
Definition init_queue_entry (e : Q.t) : Q.t :=
  let e := Q.set_value 0 e in
  let e := Q.set_virtAddress 0 e in
  let e := Q.set_instr None e in
  let e := Q.set_state QNotInUse e in
  let e := Q.set_IOflag false e in
  Q.set_lockCond false e.

Definition init_tlb (e : TLB.t) : TLB.t :=
  TLB.mk 0 0 0 0 0 0 0 0 0 0 0 0 0 0 0 0 0 false false.

Definition init_maf (e : MAF.t) : MAF.t :=
  MAF.mk MAFNotInUse NOPcmd NOPsysdc 0 false.

(** [for (ii = lo; ii < hi; ii++) a[ii] = f(a[ii])]. *)
Definition init_array {A : Type} (lo hi : Z) (f : A -> A) (a : list A) : list A :=
  for_range lo hi (fun ii => alter f (Z.to_nat ii)) a.

(** [for (ii = lo; ii < hi; ii++) for (jj = 0; jj < ways; jj++)
      a[ii][jj] = f(a[ii][jj])]. *)
Definition init_array2 {A : Type} (lo hi ways : Z) (f : A -> A)
    (a : list (list A)) : list (list A) :=
  for_range lo hi
    (fun ii => for_range 0 ways
                 (fun jj => alter (alter f (Z.to_nat jj)) (Z.to_nat ii))) a.

(** [AXP_21264_Mbox_Init]: the return value and the CPU after the call.
    Both cache loops start at index 1. *)
Definition AXP_21264_Mbox_Init (cpu : CPU.t) : bool * CPU.t :=
  let retVal := false in
  let dCache :=
    init_array2 1 AXP_CACHE_ENTRIES AXP_2_WAY_CACHE init_dcache_blk (CPU.dCache cpu) in
  let dtag :=
    init_array2 1 AXP_CACHE_ENTRIES AXP_2_WAY_CACHE init_dtag_blk (CPU.dtag cpu) in
  let lq := init_array 0 AXP_MBOX_QUEUE_LEN init_queue_entry (CPU.lq cpu) in
  let lqNext := 0 in
  let sq := init_array 0 AXP_MBOX_QUEUE_LEN init_queue_entry (CPU.sq cpu) in
  let sqNext := 0 in
  let dtb := init_array 0 AXP_TB_LEN init_tlb (CPU.dtb cpu) in
  let nextDTB := 0 in
  let maf := init_array 0 AXP_21264_MAF_LEN init_maf (CPU.maf cpu) in
  let tbMissOutstanding := false in
  let dtbTag0 := DTB_TAG.mk 0 0 0 in
  let dtbTag1 := DTB_TAG.mk 0 0 0 in
  let dtbPte0 := DTB_PTE.mk 0 0 0 0 0 0 0 0 0 0 0 0 0 0 0 0 0 0 in
  let dtbPte1 := DTB_PTE.mk 0 0 0 0 0 0 0 0 0 0 0 0 0 0 0 0 0 0 in
  let dtbAltMode := DTB_ALTMODE.mk AXP_MBOX_ALTMODE_KERNEL 0 in
  let dtbIs0 := DTB_IS.mk 0 0 0 in
  let dtbIs1 := DTB_IS.mk 0 0 0 in
  let dtbAsn0 := DTB_ASN.mk 0 0 0 in
  let dtbAsn1 := DTB_ASN.mk 0 0 0 in
  let mmStat := MM_STAT.mk 0 0 0 0 0 0 0 in
  let mCtl := M_CTL.mk 0 0 0 in
  let dcCtl := DC_CTL.mk 0 0 0 0 0 3 in
  let dcStat := DC_STAT.mk 0 0 0 0 0 in
  (retVal,
   CPU.mk dCache dtag lq lqNext sq sqNext dtb nextDTB maf tbMissOutstanding
     dtbTag0 dtbTag1 dtbPte0 dtbPte1 dtbAltMode dtbIs0 dtbIs1 dtbAsn0 dtbAsn1
     mmStat mCtl dcCtl dcStat (CPU.lockFlag cpu) (CPU.vaCtl cpu)).

(** The allocator operations, for runs between two resets. *)
Inductive alloc_op : Type :=
  | AllocLQ
  | AllocSQ.

Definition alloc_step (op : alloc_op) (cpu : CPU.t) : CPU.t :=
  match op with
  | AllocLQ => snd (AXP_21264_Mbox_GetLQSlot cpu)
  | AllocSQ => snd (AXP_21264_Mbox_GetSQSlot cpu)
  end.

Definition alloc_run (ops : list alloc_op) (cpu : CPU.t) : CPU.t :=
  foldl (fun c op => alloc_step op c) cpu ops.

End Mbox_Init.

(** ** Store-conditional instructions of the Ebox *)

Section Ebox.

Context {K : Constants}.

(** [AXP_STL_C].  [va] and [vaPrime] are locals; the assignment
    [(vaPrime) = instr->src1v] of the source changes the local only. *)
Definition AXP_STL_C (m : M.t) (instr : instr_ptr)
  : option (AXP_EXCEPTIONS * M.t) :=
  let retVal := NoException in
  i ← deref m instr;
  let va := u64 (Ins.src1v i + Ins.displacement i) in
  let vaPrime := va in
  let vaPrime :=
    if VA_CTL.b_endian (CPU.vaCtl (M.cpu m)) =? 1
    then AXP_BIG_ENDIAN_LONG va else vaPrime in
  m ← (if CPU.lockFlag (M.cpu m) then
         let vaPrime := Ins.src1v i in
         store_instr m instr (Ins.set_destv 1)
       else store_instr m instr (Ins.set_destv 0));
  m ← store_instr m instr (Ins.set_clearLockPending true);
  m ← store_instr m instr (Ins.set_state WaitingRetirement);
  Some (retVal, m).

(** [AXP_STQ_C]. *)
Definition AXP_STQ_C (m : M.t) (instr : instr_ptr)
  : option (AXP_EXCEPTIONS * M.t) :=
  let retVal := NoException in
  i ← deref m instr;
  let va := u64 (Ins.src1v i + Ins.displacement i) in
  m ← (if CPU.lockFlag (M.cpu m) then
         let va := Ins.src1v i in
         store_instr m instr (Ins.set_destv 1)
       else store_instr m instr (Ins.set_destv 0));
  m ← store_instr m instr (Ins.set_clearLockPending true);
  m ← store_instr m instr (Ins.set_state WaitingRetirement);
  Some (retVal, m).

(** A store is performed between [m] and [m'] when anything but the
    instruction descriptors differs: a queue entry or another field of
    the CPU aggregate, a byte of memory, or a call into the memory
    pipeline. *)
Definition store_performed (m m' : M.t) : Prop :=
  M.cpu m' <> M.cpu m \/ M.memory m' <> M.memory m \/ M.calls m' <> M.calls m.

End Ebox.

(** ** Well-formedness and specification predicates *)

Section Predicates.

Context {K : Constants}.

(** Queue indices travel as [u8] through the Mbox. *)
Definition queue_len_ok : Prop := 0 < AXP_MBOX_QUEUE_LEN <= 256.

(** The queue arrays have [AXP_MBOX_QUEUE_LEN] entries and the two
    next-indices are values of their unsigned type. *)
Definition cpu_wf (cpu : CPU.t) : Prop :=
  length (CPU.lq cpu) = Z.to_nat AXP_MBOX_QUEUE_LEN
  /\ length (CPU.sq cpu) = Z.to_nat AXP_MBOX_QUEUE_LEN
  /\ 0 <= CPU.lqNext cpu < 2 ^ 32
  /\ 0 <= CPU.sqNext cpu < 2 ^ 32.

Definition lq_full (cpu : CPU.t) : Prop := AXP_MBOX_QUEUE_LEN <= CPU.lqNext cpu.
Definition sq_full (cpu : CPU.t) : Prop := AXP_MBOX_QUEUE_LEN <= CPU.sqNext cpu.

(** The three assignments both store-conditionals make to the
    descriptor. *)
Definition stc_result (lockFlag : bool) (i : Ins.t) : Ins.t :=
  Ins.set_state WaitingRetirement
    (Ins.set_clearLockPending true
       (Ins.set_destv (if lockFlag then 1 else 0) i)).

(** Every store-queue entry the loop of [AXP_21264_Mbox_TryCaches]
    looks deeper at points to a descriptor. *)
Definition sq_ptrs_ok (m : M.t) : bool :=
  forallb (fun sqe => negb (sq_in_process (Q.state sqe))
                      || bool_decide (is_Some (deref m (Q.instr sqe))))
          (CPU.sq (M.cpu m)).

(** The test the loop of [AXP_21264_Mbox_TryCaches] applies: store-queue
    entry [ii], whose instruction has [uniqueID] [u], passes it for the
    load [L].  The age comparison reads
    [lqEntry->instr->uniqueID < cpu->sq[ii].instr->uniqueID]. *)
Definition code_forwards_from (m : M.t) (L : Q.t) (ii : Z) (u : Z) : Prop :=
  exists sqe li si,
    get_sq m ii = Some sqe
    /\ deref m (Q.instr L) = Some li
    /\ deref m (Q.instr sqe) = Some si
    /\ sq_in_process (Q.state sqe) = true
    /\ Q.virtAddress sqe = Q.virtAddress L
    /\ Q.len L <= Q.len sqe
    /\ Ins.uniqueID li < Ins.uniqueID si
    /\ u = Ins.uniqueID si.

(** The forwarding predicate of the specification: the store is the
    older one, [S.instr.uniqueID < L.instr.uniqueID]. *)
Definition spec_forwards_from (m : M.t) (L : Q.t) (ii : Z) (u : Z) : Prop :=
  exists sqe li si,
    get_sq m ii = Some sqe
    /\ deref m (Q.instr L) = Some li
    /\ deref m (Q.instr sqe) = Some si
    /\ sq_in_process (Q.state sqe) = true
    /\ Q.virtAddress sqe = Q.virtAddress L
    /\ Q.len L <= Q.len sqe
    /\ Ins.uniqueID si < Ins.uniqueID li
    /\ u = Ins.uniqueID si.

(** What holds of the locals [(olderStore, nextOlderStore)] after the
    loop has visited the entries below [k]. *)
Definition scan_inv (m : M.t) (L : Q.t) (k : Z) (acc : bool * Z) : Prop :=
  let '(olderStore, nextOlderStore) := acc in
  (olderStore = true ->
   0 <= nextOlderStore < k
   /\ exists un, code_forwards_from m L nextOlderStore un
        /\ forall j uj, 0 <= j < k -> code_forwards_from m L j uj -> uj <= un)
  /\ (olderStore = false ->
      forall j uj, 0 <= j < k -> ~ code_forwards_from m L j uj).

End Predicates.

Section Predicates_ext.

Context {K : Constants} {X : Externals}.

(** From the machine [mc], the hit path of [AXP_21264_Mbox_TryCaches]
    for the load [L] in slot [entry] leads to [m']: [destv] is cleared,
    [AXP_DcacheRead] is called for the load's width and what it
    delivers is in [destv], and the entry is [LQComplete]. *)
Definition dcache_read_into (entry : Z) (L : Q.t) (mc m' : M.t) : Prop :=
  exists m0,
    store_instr mc (Q.instr L) (Ins.set_destv 0) = Some m0
    /\ M.calls m' =
         M.calls mc ++ [Call_DcacheRead (Q.virtAddress L) (Q.physAddress L) (Q.len L)]
    /\ Ins.destv <$> deref m' (Q.instr L) =
         Some (snd (AXP_DcacheRead m0 (Q.virtAddress L) (Q.physAddress L) (Q.len L)))
    /\ Q.state <$> get_lq m' entry = Some LQComplete.

End Predicates_ext.

(** ** Concrete configurations

    The constants as the 21264 emulator configures them (32-entry
    queues, 512 two-way Dcache sets of 64 bytes, 128 DTB entries, 8 MAF
    entries), and small machines on which the functions are run. *)

Definition K21264 : Constants := {|
  AXP_MBOX_QUEUE_LEN := 32;
  AXP_CACHE_ENTRIES := 512;
  AXP_2_WAY_CACHE := 2;
  AXP_DCACHE_DATA_LEN := 64;
  AXP_TB_LEN := 128;
  AXP_21264_MAF_LEN := 8;
  AXP_MBOX_ALTMODE_KERNEL := 0;
  AXP_21264_CACHE_HIT := 1;
  AXP_HW_LD_LONGWORD := 0;
  AXP_21264_IS_IO_ADDR := fun pa => Z.testbit pa 43;
  AXP_BIG_ENDIAN_LONG := fun va => Z.lxor va 4
|}.

Definition empty_entry : Q.t := Q.mk 0 0 0 0 None QNotInUse false false.

Definition zero_blk : DC.t :=
  DC.mk (replicate 64 0) 0 false false false false false false Invalid.

Definition zero_dtag : DTAG.t := DTAG.mk 0 512 2 false.

Definition zero_tlb : TLB.t :=
  TLB.mk 0 0 0 0 0 0 0 0 0 0 0 0 0 0 0 0 0 false false.

Definition zero_maf : MAF.t := MAF.mk MAFNotInUse NOPcmd NOPsysdc 0 false.

(** A CPU with the given queues and next-indices and everything else
    cleared. *)
Definition cpu_with (lq : list Q.t) (lqNext : Z) (sq : list Q.t) (sqNext : Z)
    (lockFlag : bool) : CPU.t :=
  CPU.mk (replicate 512 [zero_blk; zero_blk]) (replicate 512 [zero_dtag; zero_dtag])
    lq lqNext sq sqNext (replicate 128 zero_tlb) 0 (replicate 8 zero_maf) false
    (DTB_TAG.mk 0 0 0) (DTB_TAG.mk 0 0 0)
    (DTB_PTE.mk 0 0 0 0 0 0 0 0 0 0 0 0 0 0 0 0 0 0)
    (DTB_PTE.mk 0 0 0 0 0 0 0 0 0 0 0 0 0 0 0 0 0 0)
    (DTB_ALTMODE.mk 0 0) (DTB_IS.mk 0 0 0) (DTB_IS.mk 0 0 0)
    (DTB_ASN.mk 0 0 0) (DTB_ASN.mk 0 0 0) (MM_STAT.mk 0 0 0 0 0 0 0)
    (M_CTL.mk 0 0 0) (DC_CTL.mk 0 0 0 0 0 3) (DC_STAT.mk 0 0 0 0 0)
    lockFlag (VA_CTL.mk 0).

(** [n] entries: the given ones, then unused ones. *)
Definition queue_of (es : list Q.t) : list Q.t :=
  es ++ replicate (32 - length es) empty_entry.

(** An instruction descriptor in state [Executing]. *)
Definition ins_of (uid : Z) (op : AXP_OPCODE) (pc src1v : Z) : Ins.t :=
  Ins.mk uid op pc 1 src1v 0 0 0 false 0 0 false Executing.

(** A CPU whose queues are both full, and one with room in both. *)
Definition cpu_full : CPU.t :=
  cpu_with (queue_of []) 32 (queue_of []) 32 false.

Definition cpu_room : CPU.t :=
  cpu_with (queue_of []) 3 (queue_of []) 5 false.

(** A machine about to execute a store-conditional: the lock flag is
    set and the descriptor of the instruction is at address 256. *)
Definition m_stc : M.t :=
  M.mk (cpu_with (queue_of []) 0 (queue_of []) 0 true)
       {[ 256 := ins_of 7 (OtherOpcode 46) 8192 4096 ]} ∅ [].

(** External results that do not depend on the machine: the
    translation maps every address to [pa_of va] with fault code
    [fault], the Dcache and the Bcache answer [ds] and [bs], and a
    Dcache read delivers [rd]. *)
Definition X_const (pa_of : Z -> Z) (fault ds bs rd : Z) : Externals := {|
  AXP_va2pa := fun _ va _ _ _ => (pa_of va, false, fault);
  AXP_Dcache_Status := fun _ _ _ => ds;
  AXP_21264_Bcache_Status := fun _ _ => bs;
  AXP_DcacheRead := fun _ _ _ _ => (true, rd)
|}.

(** Every translation faults (physical address 0, fault code 3). *)
Definition X_fault : Externals := X_const (fun _ => 0) 3 0 0 0.

(** Identity translation, both caches miss. *)
Definition X_miss : Externals := X_const (fun va => va) 0 0 0 0.

(** Identity translation, the Dcache hits and delivers 119. *)
Definition X_hit : Externals := X_const (fun va => va) 0 1 0 119.

(** Identity translation, the Dcache misses, the Bcache hits and the
    read delivers 119. *)
Definition X_bhit : Externals := X_const (fun va => va) 0 0 1 119.

(** Identity translation, a Dcache status of 257, which the [u8] local
    [cacheStatus] holds as 1; the read delivers 119. *)
Definition X_wrap : Externals := X_const (fun va => va) 0 257 0 119.

(** A published load of a quadword at 20480, not yet initialised. *)
Definition m_fault : M.t :=
  M.mk (cpu_with (queue_of [Q.mk 0 20480 0 0 (Some 256) Initial false false]) 1
          (queue_of []) 0 false)
       {[ 256 := ins_of 4 LDQ 8192 20480 ]} ∅ [].

(** A translated memory load of a quadword, no store in flight. *)
Definition m_miss : M.t :=
  M.mk (cpu_with (queue_of [Q.mk 0 24576 24576 8 (Some 256) LQReadPending false false]) 1
          (queue_of []) 0 false)
       {[ 256 := ins_of 4 LDQ 8192 24576 ]} ∅ [].

(** A byte load with [uniqueID] 11 and a byte store to the same
    address whose [uniqueID] is [suid]. *)
Definition m_pair (suid : Z) : M.t :=
  M.mk (cpu_with (queue_of [Q.mk 0 4096 4096 1 (Some 256) LQReadPending false false]) 1
          (queue_of [Q.mk 171 4096 4096 1 (Some 512) Initial false false]) 1 false)
       {[ 256 := ins_of 11 LDBU 8192 4096; 512 := ins_of suid (OtherOpcode 14) 8188 4096 ]}
       ∅ [].

(** Byte stores of 1, 2 and 3 with [uniqueID] 5, 7 and 9 to address
    8192, and a byte load of that address with [uniqueID] 10. *)
Definition m_three : M.t :=
  M.mk (cpu_with (queue_of [Q.mk 0 8192 8192 1 (Some 256) LQReadPending false false]) 1
          (queue_of [Q.mk 1 8192 8192 1 (Some 512) Initial false false;
                     Q.mk 2 8192 8192 1 (Some 768) Initial false false;
                     Q.mk 3 8192 8192 1 (Some 1024) Initial false false]) 3 false)
       {[ 256 := ins_of 10 LDBU 8192 8192;
          512 := ins_of 5 (OtherOpcode 14) 8180 8192;
          768 := ins_of 7 (OtherOpcode 14) 8184 8192;
          1024 := ins_of 9 (OtherOpcode 14) 8188 8192 ]}
       ∅ [].

(** A word load with [uniqueID] 1 and a word store of 4660 (0x1234) to
    the same address with [uniqueID] 2; host memory is [mem]. *)
Definition m_wide (mem : gmap Z Z) : M.t :=
  M.mk (cpu_with (queue_of [Q.mk 0 4096 4096 2 (Some 256) LQReadPending false false]) 1
          (queue_of [Q.mk 4660 4096 4096 2 (Some 512) Initial false false]) 1 false)
       {[ 256 := ins_of 1 LDW_U 8192 4096; 512 := ins_of 2 (OtherOpcode 13) 8196 4096 ]}
       mem [].

(** Host memory holding the bytes 0xEF, 0xBE at addresses 4660, 4661. *)
Definition mem_beef : gmap Z Z := {[ 4660 := 239; 4661 := 190 ]}.

(** A CPU that has run: block 0 of Dcache set 0 is valid and holds
    data. *)
Definition stale_blk : DC.t :=
  DC.mk (replicate 64 255) 77 true true false true false false (OtherCacheState 1).

Definition cpu_stale : CPU.t :=
  CPU.mk ([stale_blk; zero_blk] :: replicate 511 [stale_blk; stale_blk])
    (replicate 512 [zero_dtag; zero_dtag])
    (queue_of []) 7 (queue_of []) 9 (replicate 128 zero_tlb) 0
    (replicate 8 zero_maf) false
    (DTB_TAG.mk 0 0 0) (DTB_TAG.mk 0 0 0)
    (DTB_PTE.mk 0 0 0 0 0 0 0 0 0 0 0 0 0 0 0 0 0 0)
    (DTB_PTE.mk 0 0 0 0 0 0 0 0 0 0 0 0 0 0 0 0 0 0)
    (DTB_ALTMODE.mk 3 0) (DTB_IS.mk 0 0 0) (DTB_IS.mk 0 0 0)
    (DTB_ASN.mk 0 0 0) (DTB_ASN.mk 0 0 0) (MM_STAT.mk 0 0 0 0 0 0 0)
    (M_CTL.mk 0 0 0) (DC_CTL.mk 0 0 0 0 0 1) (DC_STAT.mk 0 0 0 0 0)
    false (VA_CTL.mk 0).


(** ** The remaining functions of the two files *)

(** Assignments to the lock fields of a descriptor. *)
Definition set_lockFlagPending (b : bool) (i : Ins.t) : Ins.t :=
  Ins.mk (Ins.uniqueID i) (Ins.opcode i) (Ins.pc i) (Ins.aDest i) (Ins.src1v i)
    (Ins.displacement i) (Ins.destv i) (Ins.len_stall i) b
    (Ins.lockPhysAddrPending i) (Ins.lockVirtAddrPending i)
    (Ins.clearLockPending i) (Ins.state i).

Definition set_lockPhysAddrPending (v : Z) (i : Ins.t) : Ins.t :=
  Ins.mk (Ins.uniqueID i) (Ins.opcode i) (Ins.pc i) (Ins.aDest i) (Ins.src1v i)
    (Ins.displacement i) (Ins.destv i) (Ins.len_stall i) (Ins.lockFlagPending i)
    v (Ins.lockVirtAddrPending i) (Ins.clearLockPending i) (Ins.state i).

Definition set_lockVirtAddrPending (v : Z) (i : Ins.t) : Ins.t :=
  Ins.mk (Ins.uniqueID i) (Ins.opcode i) (Ins.pc i) (Ins.aDest i) (Ins.src1v i)
    (Ins.displacement i) (Ins.destv i) (Ins.len_stall i) (Ins.lockFlagPending i)
    (Ins.lockPhysAddrPending i) v (Ins.clearLockPending i) (Ins.state i).

(** Macros of the Ebox headers that are not among the embedded files. *)
Class Ebox_macros : Type := {
  AXP_LDAH_MULT : Z;
  AXP_BIG_ENDIAN_BYTE : Z -> Z;
  AXP_BIG_ENDIAN_WORD : Z -> Z;
  AXP_ZEXT_BYTE : Z -> Z;
  AXP_ZEXT_WORD : Z -> Z;
  AXP_SEXT_LONG : Z -> Z;
  AXP_BYTE_MASK : Z -> Z;
  AXP_WORD_MASK : Z -> Z;
  AXP_LONG_MASK : Z -> Z
}.

(** The functions [AXP_21264_Mbox_Process_Q] calls and whose bodies are
    not among the embedded files, as transformers of the machine that
    can fail. *)
Class Scheduler_callees : Type := {
  AXP_21264_Mbox_LQ_Complete : M.t -> Z -> option M.t;
  AXP_21264_Mbox_SQ_Init : M.t -> Z -> option M.t;
  AXP_21264_Mbox_SQ_Pending : M.t -> Z -> option M.t;
  AXP_21264_Mbox_SQ_Complete : M.t -> Z -> option M.t
}.

Section Ebox_LoadStore.

Context {K : Constants} {E : Ebox_macros}.

(** The effective address [instr->src1v + instr->displacement] as a
    64-bit unsigned value. *)
Definition effective_va (i : Ins.t) : Z :=
  u64 (Ins.src1v i + Ins.displacement i).

(** The tail every function shares: mark the instruction ready to be
    retired and return [retVal]. *)
Definition retire (m : M.t) (instr : instr_ptr) (retVal : AXP_EXCEPTIONS)
  : option (AXP_EXCEPTIONS * M.t) :=
  m ← store_instr m instr (Ins.set_state WaitingRetirement);
  Some (retVal, m).

(** [AXP_LDA]. *)
Definition AXP_LDA (m : M.t) (instr : instr_ptr) : option (AXP_EXCEPTIONS * M.t) :=
  i ← deref m instr;
  m ← store_instr m instr (Ins.set_destv (u64 (Ins.src1v i + Ins.displacement i)));
  retire m instr NoException.

(** [AXP_LDAH]. *)
Definition AXP_LDAH (m : M.t) (instr : instr_ptr) : option (AXP_EXCEPTIONS * M.t) :=
  i ← deref m instr;
  m ← store_instr m instr
        (Ins.set_destv (u64 (Ins.src1v i + Ins.displacement i * AXP_LDAH_MULT)));
  retire m instr NoException.

(** [AXP_LDBU]: the address itself, zero-extended from a byte, stands
    for the value loaded. *)
Definition AXP_LDBU (m : M.t) (instr : instr_ptr) : option (AXP_EXCEPTIONS * M.t) :=
  let retVal := NoException in
  i ← deref m instr;
  let va := effective_va i in
  let vaPrime := va in
  let vaPrime :=
    if VA_CTL.b_endian (CPU.vaCtl (M.cpu m)) =? 1
    then AXP_BIG_ENDIAN_BYTE va else vaPrime in
  m ← store_instr m instr (Ins.set_destv (u64 (AXP_ZEXT_BYTE vaPrime)));
  retire m instr retVal.

(** [AXP_LDWU]. *)
Definition AXP_LDWU (m : M.t) (instr : instr_ptr) : option (AXP_EXCEPTIONS * M.t) :=
  let retVal := NoException in
  i ← deref m instr;
  let va := effective_va i in
  let vaPrime := va in
  let vaPrime :=
    if VA_CTL.b_endian (CPU.vaCtl (M.cpu m)) =? 1
    then AXP_BIG_ENDIAN_WORD va else vaPrime in
  m ← store_instr m instr (Ins.set_destv (u64 (AXP_ZEXT_WORD vaPrime)));
  retire m instr retVal.

(** [AXP_LDL]. *)
Definition AXP_LDL (m : M.t) (instr : instr_ptr) : option (AXP_EXCEPTIONS * M.t) :=
  let retVal := NoException in
  i ← deref m instr;
  let va := effective_va i in
  let vaPrime := va in
  let vaPrime :=
    if VA_CTL.b_endian (CPU.vaCtl (M.cpu m)) =? 1
    then AXP_BIG_ENDIAN_LONG va else vaPrime in
  m ← store_instr m instr (Ins.set_destv (u64 (AXP_SEXT_LONG vaPrime)));
  retire m instr retVal.

(** [AXP_LDQ]. *)
Definition AXP_LDQ (m : M.t) (instr : instr_ptr) : option (AXP_EXCEPTIONS * M.t) :=
  let retVal := NoException in
  i ← deref m instr;
  let va := effective_va i in
  m ← store_instr m instr (Ins.set_destv va);
  retire m instr retVal.

(** [AXP_LDQ_U]: [~0x7] is the [int] -8, converted to 64 bits by the
    [&]. *)
Definition AXP_LDQ_U (m : M.t) (instr : instr_ptr) : option (AXP_EXCEPTIONS * M.t) :=
  let retVal := NoException in
  i ← deref m instr;
  let va := Z.land (effective_va i) (u64 (Z.lnot 7)) in
  m ← store_instr m instr (Ins.set_destv va);
  retire m instr retVal.

(** [AXP_LDL_L]: the virtual address is recorded as the physical lock
    address too. *)
Definition AXP_LDL_L (m : M.t) (instr : instr_ptr) : option (AXP_EXCEPTIONS * M.t) :=
  let retVal := NoException in
  i ← deref m instr;
  let va := effective_va i in
  let vaPrime := va in
  let vaPrime :=
    if VA_CTL.b_endian (CPU.vaCtl (M.cpu m)) =? 1
    then AXP_BIG_ENDIAN_LONG va else vaPrime in
  m ← store_instr m instr (set_lockFlagPending true);
  m ← store_instr m instr (set_lockPhysAddrPending va);
  m ← store_instr m instr (set_lockVirtAddrPending va);
  m ← store_instr m instr (Ins.set_destv (u64 (AXP_SEXT_LONG vaPrime)));
  retire m instr retVal.

(** [AXP_LDQ_L]: the quadword variant also goes through
    [AXP_SEXT_LONG]. *)
Definition AXP_LDQ_L (m : M.t) (instr : instr_ptr) : option (AXP_EXCEPTIONS * M.t) :=
  let retVal := NoException in
  i ← deref m instr;
  let va := effective_va i in
  m ← store_instr m instr (set_lockFlagPending true);
  m ← store_instr m instr (set_lockPhysAddrPending va);
  m ← store_instr m instr (set_lockVirtAddrPending va);
  m ← store_instr m instr (Ins.set_destv (u64 (AXP_SEXT_LONG va)));
  retire m instr retVal.

(** [AXP_STB]: the masked register value is assigned to the local
    [vaPrime]. *)
Definition AXP_STB (m : M.t) (instr : instr_ptr) : option (AXP_EXCEPTIONS * M.t) :=
  let retVal := NoException in
  i ← deref m instr;
  let va := effective_va i in
  let vaPrime := va in
  let vaPrime :=
    if VA_CTL.b_endian (CPU.vaCtl (M.cpu m)) =? 1
    then AXP_BIG_ENDIAN_BYTE va else vaPrime in
  let vaPrime := AXP_BYTE_MASK (Ins.src1v i) in
  retire m instr retVal.

(** [AXP_STW]. *)
Definition AXP_STW (m : M.t) (instr : instr_ptr) : option (AXP_EXCEPTIONS * M.t) :=
  let retVal := NoException in
  i ← deref m instr;
  let va := effective_va i in
  let vaPrime := va in
  let vaPrime :=
    if VA_CTL.b_endian (CPU.vaCtl (M.cpu m)) =? 1
    then AXP_BIG_ENDIAN_WORD va else vaPrime in
  let vaPrime := AXP_WORD_MASK (Ins.src1v i) in
  retire m instr retVal.

(** [AXP_STL]. *)
Definition AXP_STL (m : M.t) (instr : instr_ptr) : option (AXP_EXCEPTIONS * M.t) :=
  let retVal := NoException in
  i ← deref m instr;
  let va := effective_va i in
  let vaPrime := va in
  let vaPrime :=
    if VA_CTL.b_endian (CPU.vaCtl (M.cpu m)) =? 1
    then AXP_BIG_ENDIAN_LONG va else vaPrime in
  let vaPrime := AXP_LONG_MASK (Ins.src1v i) in
  retire m instr retVal.

(** [AXP_STQ]. *)
Definition AXP_STQ (m : M.t) (instr : instr_ptr) : option (AXP_EXCEPTIONS * M.t) :=
  let retVal := NoException in
  i ← deref m instr;
  let va := effective_va i in
  let va := Ins.src1v i in
  retire m instr retVal.

(** [AXP_STQ_U]. *)
Definition AXP_STQ_U (m : M.t) (instr : instr_ptr) : option (AXP_EXCEPTIONS * M.t) :=
  let retVal := NoException in
  i ← deref m instr;
  let va := Z.land (effective_va i) (u64 (Z.lnot 7)) in
  let va := Ins.src1v i in
  retire m instr retVal.

(** The plain stores, by name. *)
Inductive plain_store : Type :=
  | STB | STW | STL | STQ | STQ_U.

Definition run_store (s : plain_store) : M.t -> instr_ptr -> option (AXP_EXCEPTIONS * M.t) :=
  match s with
  | STB => AXP_STB
  | STW => AXP_STW
  | STL => AXP_STL
  | STQ => AXP_STQ
  | STQ_U => AXP_STQ_U
  end.

(** The loads, by name. *)
Inductive ebox_load : Type :=
  | E_LDA | E_LDAH | E_LDBU | E_LDWU | E_LDL | E_LDQ | E_LDQ_U | E_LDL_L | E_LDQ_L.

Definition run_load (l : ebox_load) : M.t -> instr_ptr -> option (AXP_EXCEPTIONS * M.t) :=
  match l with
  | E_LDA => AXP_LDA
  | E_LDAH => AXP_LDAH
  | E_LDBU => AXP_LDBU
  | E_LDWU => AXP_LDWU
  | E_LDL => AXP_LDL
  | E_LDQ => AXP_LDQ
  | E_LDQ_U => AXP_LDQ_U
  | E_LDL_L => AXP_LDL_L
  | E_LDQ_L => AXP_LDQ_L
  end.

End Ebox_LoadStore.

Section Scheduler.

Context {K : Constants} {X : Externals} {C : Scheduler_callees}.

(** [AXP_21264_Mbox_LQ_Pending]: the body is a comment and a return. *)
Definition AXP_21264_Mbox_LQ_Pending (m : M.t) (entry : Z) : option M.t :=
  Some m.

(** The body of the first loop of [AXP_21264_Mbox_Process_Q]. *)
Definition Process_Q_lq (ii : Z) (m : M.t) : option M.t :=
  e ← get_lq m ii;
  m ← match Q.state e with
      | Initial => AXP_21264_Mbox_LQ_Init m ii
      | LQReadPending => AXP_21264_Mbox_LQ_Pending m ii
      | _ => Some m
      end;
  e ← get_lq m ii;
  match Q.state e with
  | LQComplete => AXP_21264_Mbox_LQ_Complete m ii
  | _ => Some m
  end.

(** The body of the second loop: the store-queue states are matched
    against [Initial], [LQReadPending] and [LQReadable]. *)
Definition Process_Q_sq (ii : Z) (m : M.t) : option M.t :=
  e ← get_sq m ii;
  match Q.state e with
  | Initial => AXP_21264_Mbox_SQ_Init m ii
  | LQReadPending => AXP_21264_Mbox_SQ_Pending m ii
  | LQReadable => AXP_21264_Mbox_SQ_Complete m ii
  | _ => Some m
  end.

(** [AXP_21264_Mbox_Process_Q]. *)
Definition AXP_21264_Mbox_Process_Q (m : M.t) : option M.t :=
  m ← for_rangeM 0 (u32 AXP_MBOX_QUEUE_LEN) Process_Q_lq m;
  for_rangeM 0 (u32 AXP_MBOX_QUEUE_LEN) Process_Q_sq m.

(** No entry has a state one of the two loops acts on. *)
Definition lq_idle (s : AXP_MBOX_QUEUE_STATE) : bool :=
  match s with
  | Initial | LQComplete => false
  | _ => true
  end.

Definition sq_idle (s : AXP_MBOX_QUEUE_STATE) : bool :=
  match s with
  | Initial | LQReadPending | LQReadable => false
  | _ => true
  end.

Definition nothing_actionable (m : M.t) : bool :=
  forallb (fun e => lq_idle (Q.state e)) (CPU.lq (M.cpu m))
  && forallb (fun e => sq_idle (Q.state e)) (CPU.sq (M.cpu m)).

End Scheduler.

Section More_predicates.

Context {K : Constants}.

(** One call of the allocator [op]: the return value and the CPU. *)
Definition alloc_ret (op : alloc_op) (cpu : CPU.t) : Z * CPU.t :=
  match op with
  | AllocLQ => AXP_21264_Mbox_GetLQSlot cpu
  | AllocSQ => AXP_21264_Mbox_GetSQSlot cpu
  end.

(** [n] calls in a row of the same allocator: the return values in
    order and the CPU after the last call. *)
Fixpoint alloc_n (op : alloc_op) (n : nat) (cpu : CPU.t) : list Z * CPU.t :=
  match n with
  | O => ([], cpu)
  | S n' =>
      let '(r, cpu1) := alloc_ret op cpu in
      let '(rs, cpu2) := alloc_n op n' cpu1 in
      (r :: rs, cpu2)
  end.

(** The queue and the next-index an allocator works on. *)
Definition queue_of_op (op : alloc_op) (cpu : CPU.t) : list Q.t :=
  match op with AllocLQ => CPU.lq cpu | AllocSQ => CPU.sq cpu end.

Definition next_of_op (op : alloc_op) (cpu : CPU.t) : Z :=
  match op with AllocLQ => CPU.lqNext cpu | AllocSQ => CPU.sqNext cpu end.

(** The number of calls of the allocator [op] in a run. *)
Fixpoint calls_of (op : alloc_op) (ops : list alloc_op) : Z :=
  match ops with
  | [] => 0
  | o :: ops' =>
      match op, o with
      | AllocLQ, AllocLQ | AllocSQ, AllocSQ => 1 + calls_of op ops'
      | _, _ => calls_of op ops'
      end
  end.

(** The slots of the queue below [next] are [Assigned] and the slots
    from [next] to the end of the queue are [QNotInUse]. *)
Definition allocated_prefix (q : list Q.t) (next : Z) : Prop :=
  forall ii : nat,
    Z.of_nat ii < AXP_MBOX_QUEUE_LEN ->
    Q.state <$> q !! ii =
      Some (if Z.of_nat ii <? next then Assigned else QNotInUse).

(** What a call for the load-queue slot [entry] that leads from [m] to
    [m'] leaves of the queues and the descriptors: the store queue and
    both next-indices are as before, so is every other load-queue
    slot; the slot itself is as before or differs in its state only,
    which is then [LQComplete]; every descriptor is as before, except
    that the one the slot points to may hold a new [destv]; the call
    log has only grown. *)
Definition load_entry_frame (entry : Z) (m m' : M.t) : Prop :=
  CPU.sq (M.cpu m') = CPU.sq (M.cpu m)
  /\ CPU.lqNext (M.cpu m') = CPU.lqNext (M.cpu m)
  /\ CPU.sqNext (M.cpu m') = CPU.sqNext (M.cpu m)
  /\ (exists cs, M.calls m' = M.calls m ++ cs)
  /\ (forall j, j <> entry -> get_lq m' j = get_lq m j)
  /\ exists L L',
       get_lq m entry = Some L
       /\ get_lq m' entry = Some L'
       /\ (L' = L \/ L' = Q.set_state LQComplete L)
       /\ forall a i, M.instrs m !! a = Some i ->
            exists i', M.instrs m' !! a = Some i'
                       /\ (i' = i \/ (Q.instr L = Some a
                                      /\ exists v, i' = Ins.set_destv v i)).

(** No store-queue entry is in a state the forwarding loop looks
    deeper at. *)
Definition no_store_in_process (m : M.t) : bool :=
  forallb (fun e => negb (sq_in_process (Q.state e))) (CPU.sq (M.cpu m)).

(** The widths the load path uses. *)
Definition load_width_ok (n : Z) : Prop := n = 1 \/ n = 2 \/ n = 4 \/ n = 8.

End More_predicates.

Section Repeated_passes.

Context {K : Constants} {X : Externals}.

(** [n] calls in a row of [AXP_21264_Mbox_LQ_Init] for one entry, as
    successive passes of the scheduler make them while the entry stays
    [Initial]. *)
Fixpoint LQ_Init_times (n : nat) (m : M.t) (entry : Z) : option M.t :=
  match n with
  | O => Some m
  | S n' => m1 ← AXP_21264_Mbox_LQ_Init m entry; LQ_Init_times n' m1 entry
  end.

End Repeated_passes.

(** One choice of the Ebox macros and of the scheduler's callees, for
    the concrete runs below. *)
Definition E21264 : Ebox_macros := {|
  AXP_LDAH_MULT := 65536;
  AXP_BIG_ENDIAN_BYTE := fun va => Z.lxor va 7;
  AXP_BIG_ENDIAN_WORD := fun va => Z.lxor va 6;
  AXP_ZEXT_BYTE := fun v => Z.land v 255;
  AXP_ZEXT_WORD := fun v => Z.land v 65535;
  AXP_SEXT_LONG := fun v => if Z.testbit v 31 then Z.lor v (2 ^ 64 - 2 ^ 32)
                            else Z.land v (2 ^ 32 - 1);
  AXP_BYTE_MASK := fun v => Z.land v 255;
  AXP_WORD_MASK := fun v => Z.land v 65535;
  AXP_LONG_MASK := fun v => Z.land v (2 ^ 32 - 1)
|}.

Definition C_free : Scheduler_callees := {|
  AXP_21264_Mbox_LQ_Complete := fun m ii => Some (upd_lq ii (Q.set_state QNotInUse) m);
  AXP_21264_Mbox_SQ_Init := fun m ii => Some (upd_sq ii (Q.set_state SQWritePending) m);
  AXP_21264_Mbox_SQ_Pending := fun m ii => Some m;
  AXP_21264_Mbox_SQ_Complete := fun m ii => Some (upd_sq ii (Q.set_state QNotInUse) m)
|}.

(** Translation into the I/O region: bit 43 of the physical address is
    set. *)
Definition X_io : Externals := X_const (fun va => va + 2 ^ 43) 0 0 0 0.

(** A machine with room in both queues and one descriptor. *)
Definition m_room : M.t :=
  M.mk cpu_room {[ 256 := ins_of 21 LDQ 8192 4099 ]} ∅ [].

(** A machine whose queues are both full. *)
Definition m_full : M.t :=
  M.mk cpu_full {[ 256 := ins_of 21 LDQ 8192 4099 ]} ∅ [].

(** A published [HW_LD] whose [len_stall] is 1. *)
Definition ins_hw : Ins.t :=
  Ins.mk 4 HW_LD 8192 1 20480 0 0 1 false 0 0 false Executing.

Definition m_hw : M.t :=
  M.mk (cpu_with (queue_of [Q.mk 0 20480 0 2 (Some 256) Initial false false]) 1
          (queue_of []) 0 false)
       {[ 256 := ins_hw ]} ∅ [].

(** The machines the concrete runs below end in. *)
Definition m_pair_done : M.t :=
  default (m_pair 12)
    (AXP_21264_Mbox_TryCaches (K := K21264) (X := X_hit) (m_pair 12) 0).

(** [m_miss] after one call of [AXP_21264_Mbox_TryCaches], with a
    Bcache that hits and with both caches missing. *)
Definition m_miss_read : M.t :=
  default m_miss (AXP_21264_Mbox_TryCaches (K := K21264) (X := X_bhit) m_miss 0).

Definition m_miss_maf : M.t :=
  default m_miss (AXP_21264_Mbox_TryCaches (K := K21264) (X := X_miss) m_miss 0).

Definition m_fault_done : M.t :=
  default m_fault (AXP_21264_Mbox_LQ_Init (K := K21264) (X := X_fault) m_fault 0).

Definition m_hw_done : M.t :=
  default m_hw (AXP_21264_Mbox_LQ_Init (K := K21264) (X := X_hit) m_hw 0).

(** The three byte stores of [m_three] ([uniqueID] 5, 9 and 7, in that
    queue order) with a load whose [uniqueID] is 4. *)
Definition m_three_younger : M.t :=
  M.mk (cpu_with (queue_of [Q.mk 0 8192 8192 1 (Some 256) LQReadPending false false]) 1
          (queue_of [Q.mk 1 8192 8192 1 (Some 512) Initial false false;
                     Q.mk 3 8192 8192 1 (Some 1024) SQWritePending false false;
                     Q.mk 2 8192 8192 1 (Some 768) SQComplete false false]) 3 false)
       {[ 256 := ins_of 4 LDBU 8192 8192;
          512 := ins_of 5 (OtherOpcode 14) 8180 8192;
          768 := ins_of 7 (OtherOpcode 14) 8184 8192;
          1024 := ins_of 9 (OtherOpcode 14) 8188 8192 ]}
       ∅ [].

(** * Properties *)

Section Allocator.

Context {K : Constants}.

Lemma u32_queue_len : queue_len_ok -> u32 AXP_MBOX_QUEUE_LEN = AXP_MBOX_QUEUE_LEN.
Proof. unfold queue_len_ok, u32. intros H. apply Z.mod_small. lia. Qed.

Lemma u32_small z : 0 <= z < 2 ^ 32 -> u32 z = z.
Proof. apply Z.mod_small. Qed.

Lemma alter_state_lookup (q : list Q.t) (i : nat) s :
  (i < length q)%nat -> Q.state <$> alter (Q.set_state s) i q !! i = Some s.
Proof.
  intros Hi. rewrite list_lookup_alter_eq.
  destruct (lookup_lt_is_Some_2 q i Hi) as [e ->]. reflexivity.
Qed.

(** What [AXP_21264_Mbox_GetLQSlot] does when a slot is left. *)
Lemma GetLQSlot_free cpu :
  queue_len_ok -> CPU.lqNext cpu < AXP_MBOX_QUEUE_LEN ->
  AXP_21264_Mbox_GetLQSlot cpu =
    (CPU.lqNext cpu,
     CPU.set_lq (alter (Q.set_state Assigned) (Z.to_nat (CPU.lqNext cpu)) (CPU.lq cpu))
       (CPU.set_lqNext (u32 (CPU.lqNext cpu + 1)) cpu)).
Proof.
  intros HK Hlt. unfold AXP_21264_Mbox_GetLQSlot.
  rewrite (u32_queue_len HK).
  destruct (Z.ltb_spec (CPU.lqNext cpu) AXP_MBOX_QUEUE_LEN); [reflexivity | lia].
Qed.

Lemma GetLQSlot_full cpu :
  queue_len_ok -> lq_full cpu ->
  AXP_21264_Mbox_GetLQSlot cpu = (AXP_MBOX_QUEUE_LEN, cpu).
Proof.
  unfold lq_full. intros HK Hge. unfold AXP_21264_Mbox_GetLQSlot.
  rewrite (u32_queue_len HK).
  destruct (Z.ltb_spec (CPU.lqNext cpu) AXP_MBOX_QUEUE_LEN); [lia | reflexivity].
Qed.

Lemma GetSQSlot_free cpu :
  queue_len_ok -> CPU.sqNext cpu < AXP_MBOX_QUEUE_LEN ->
  AXP_21264_Mbox_GetSQSlot cpu =
    (CPU.sqNext cpu,
     CPU.set_sq (alter (Q.set_state Assigned) (Z.to_nat (CPU.sqNext cpu)) (CPU.sq cpu))
       (CPU.set_sqNext (u32 (CPU.sqNext cpu + 1)) cpu)).
Proof.
  intros HK Hlt. unfold AXP_21264_Mbox_GetSQSlot.
  rewrite (u32_queue_len HK).
  destruct (Z.ltb_spec (CPU.sqNext cpu) AXP_MBOX_QUEUE_LEN); [reflexivity | lia].
Qed.

Lemma GetSQSlot_full cpu :
  queue_len_ok -> sq_full cpu ->
  AXP_21264_Mbox_GetSQSlot cpu = (AXP_MBOX_QUEUE_LEN, cpu).
Proof.
  unfold sq_full. intros HK Hge. unfold AXP_21264_Mbox_GetSQSlot.
  rewrite (u32_queue_len HK).
  destruct (Z.ltb_spec (CPU.sqNext cpu) AXP_MBOX_QUEUE_LEN); [lia | reflexivity].
Qed.

(** C6.  On a well-formed CPU, [AXP_21264_Mbox_GetLQSlot] and
    [AXP_21264_Mbox_GetSQSlot] each return either a slot index in
    [[0, AXP_MBOX_QUEUE_LEN)], in which case that slot's state is
    [Assigned] and the queue's next-index has grown by one, or the
    sentinel [AXP_MBOX_QUEUE_LEN]; the sentinel is returned exactly
    when the queue is full. *)
Theorem GetSlot_index_or_sentinel cpu :
  queue_len_ok -> cpu_wf cpu ->
  (let '(r, cpu') := AXP_21264_Mbox_GetLQSlot cpu in
   ((0 <= r < AXP_MBOX_QUEUE_LEN
     /\ Q.state <$> CPU.lq cpu' !! Z.to_nat r = Some Assigned
     /\ CPU.lqNext cpu' = CPU.lqNext cpu + 1)
    \/ r = AXP_MBOX_QUEUE_LEN)
   /\ (r = AXP_MBOX_QUEUE_LEN <-> lq_full cpu))
  /\
  (let '(r, cpu') := AXP_21264_Mbox_GetSQSlot cpu in
   ((0 <= r < AXP_MBOX_QUEUE_LEN
     /\ Q.state <$> CPU.sq cpu' !! Z.to_nat r = Some Assigned
     /\ CPU.sqNext cpu' = CPU.sqNext cpu + 1)
    \/ r = AXP_MBOX_QUEUE_LEN)
   /\ (r = AXP_MBOX_QUEUE_LEN <-> sq_full cpu)).
Proof.
  intros HK (Hlq & Hsq & Hln & Hsn).
  pose proof HK as HK'. unfold queue_len_ok in HK'.
  split.
  - destruct (Z.lt_ge_cases (CPU.lqNext cpu) AXP_MBOX_QUEUE_LEN) as [Hlt | Hge].
    + rewrite (GetLQSlot_free cpu HK Hlt). split.
      * left. split; [lia |]. split.
        -- simpl. apply alter_state_lookup. lia.
        -- simpl. apply u32_small. lia.
      * unfold lq_full. lia.
    + rewrite (GetLQSlot_full cpu HK Hge). split; [right; reflexivity |].
      unfold lq_full. tauto.
  - destruct (Z.lt_ge_cases (CPU.sqNext cpu) AXP_MBOX_QUEUE_LEN) as [Hlt | Hge].
    + rewrite (GetSQSlot_free cpu HK Hlt). split.
      * left. split; [lia |]. split.
        -- simpl. apply alter_state_lookup. lia.
        -- simpl. apply u32_small. lia.
      * unfold sq_full. lia.
    + rewrite (GetSQSlot_full cpu HK Hge). split; [right; reflexivity |].
      unfold sq_full. tauto.
Qed.

(** C10.  When a queue is full (its next-index equals
    [AXP_MBOX_QUEUE_LEN]), the allocator of that queue returns the
    sentinel and the CPU after the call is the CPU before it: neither
    the next-index nor any field of any queue entry is written. *)
Theorem GetSlot_full_unchanged cpu :
  queue_len_ok ->
  (CPU.lqNext cpu = AXP_MBOX_QUEUE_LEN ->
   AXP_21264_Mbox_GetLQSlot cpu = (AXP_MBOX_QUEUE_LEN, cpu))
  /\ (CPU.sqNext cpu = AXP_MBOX_QUEUE_LEN ->
      AXP_21264_Mbox_GetSQSlot cpu = (AXP_MBOX_QUEUE_LEN, cpu)).
Proof.
  intros HK. split; intros Heq.
  - apply GetLQSlot_full; [assumption | unfold lq_full; lia].
  - apply GetSQSlot_full; [assumption | unfold sq_full; lia].
Qed.

(** Each allocator leaves the other queue's next-index alone and never
    lowers its own; a next-index that is at most the queue length stays
    so. *)
Lemma alloc_step_next op cpu :
  queue_len_ok ->
  0 <= CPU.lqNext cpu <= AXP_MBOX_QUEUE_LEN ->
  0 <= CPU.sqNext cpu <= AXP_MBOX_QUEUE_LEN ->
  CPU.lqNext cpu <= CPU.lqNext (alloc_step op cpu) <= AXP_MBOX_QUEUE_LEN
  /\ CPU.sqNext cpu <= CPU.sqNext (alloc_step op cpu) <= AXP_MBOX_QUEUE_LEN.
Proof.
  intros HK Hl Hs. pose proof HK as HK'. unfold queue_len_ok in HK'.
  destruct op; simpl.
  - destruct (Z.lt_ge_cases (CPU.lqNext cpu) AXP_MBOX_QUEUE_LEN) as [Hlt | Hge].
    + rewrite (GetLQSlot_free cpu HK Hlt). simpl.
      rewrite u32_small by lia. lia.
    + rewrite (GetLQSlot_full cpu HK Hge). simpl. lia.
  - destruct (Z.lt_ge_cases (CPU.sqNext cpu) AXP_MBOX_QUEUE_LEN) as [Hlt | Hge].
    + rewrite (GetSQSlot_free cpu HK Hlt). simpl.
      rewrite u32_small by lia. lia.
    + rewrite (GetSQSlot_full cpu HK Hge). simpl. lia.
Qed.

Lemma alloc_run_next ops : forall cpu,
  queue_len_ok ->
  0 <= CPU.lqNext cpu <= AXP_MBOX_QUEUE_LEN ->
  0 <= CPU.sqNext cpu <= AXP_MBOX_QUEUE_LEN ->
  CPU.lqNext cpu <= CPU.lqNext (alloc_run ops cpu) <= AXP_MBOX_QUEUE_LEN
  /\ CPU.sqNext cpu <= CPU.sqNext (alloc_run ops cpu) <= AXP_MBOX_QUEUE_LEN.
Proof.
  induction ops as [| op ops IH]; intros cpu HK Hl Hs.
  - simpl. lia.
  - change (alloc_run (op :: ops) cpu) with (alloc_run ops (alloc_step op cpu)).
    destruct (alloc_step_next op cpu HK Hl Hs) as [Hl1 Hs1].
    destruct (IH (alloc_step op cpu) HK) as [Hl2 Hs2]; lia.
Qed.

Lemma alloc_run_app ops1 ops2 cpu :
  alloc_run (ops1 ++ ops2) cpu = alloc_run ops2 (alloc_run ops1 cpu).
Proof. unfold alloc_run. apply foldl_app. Qed.

(** C7.  [AXP_21264_Mbox_Init] sets [lqNext] and [sqNext] to 0, and in
    any run of allocator calls after it, both next-indices never
    decrease from one point of the run to a later one and never exceed
    [AXP_MBOX_QUEUE_LEN]. *)
Theorem next_index_monotone_bounded cpu ops1 ops2 :
  queue_len_ok ->
  let cpu0 := snd (AXP_21264_Mbox_Init cpu) in
  let cpu1 := alloc_run ops1 cpu0 in
  let cpu2 := alloc_run (ops1 ++ ops2) cpu0 in
  CPU.lqNext cpu0 = 0 /\ CPU.sqNext cpu0 = 0
  /\ CPU.lqNext cpu1 <= CPU.lqNext cpu2 <= AXP_MBOX_QUEUE_LEN
  /\ CPU.sqNext cpu1 <= CPU.sqNext cpu2 <= AXP_MBOX_QUEUE_LEN.
Proof.
  intros HK cpu0 cpu1 cpu2.
  pose proof HK as HK'. unfold queue_len_ok in HK'.
  assert (H0l : CPU.lqNext cpu0 = 0) by reflexivity.
  assert (H0s : CPU.sqNext cpu0 = 0) by reflexivity.
  split; [assumption |]. split; [assumption |].
  destruct (alloc_run_next ops1 cpu0 HK) as [Hl1 Hs1]; [lia | lia |].
  fold cpu1 in Hl1, Hs1.
  subst cpu2. rewrite alloc_run_app. fold cpu1.
  destruct (alloc_run_next ops2 cpu1 HK) as [Hl2 Hs2]; [lia | lia |].
  lia.
Qed.

(** Publishing a load or a store in an allocated slot records the
    address (and the value) and the descriptor and makes the entry
    [Initial]. *)
Lemma ReadMem_publishes m instr slot virtAddr L :
  get_lq m slot = Some L ->
  exists m',
    AXP_21264_Mbox_ReadMem m instr slot virtAddr = Some m'
    /\ get_lq m' slot =
         Some (Q.set_state Initial (Q.set_instr instr (Q.set_virtAddress virtAddr L))).
Proof.
  intros HL. unfold AXP_21264_Mbox_ReadMem. rewrite HL. simpl.
  eexists. split; [reflexivity |].
  unfold get_lq, upd_lq in *. simpl. destruct (0 <=? slot); [| discriminate].
  rewrite !list_lookup_alter_eq, HL. reflexivity.
Qed.

Lemma WriteMem_publishes m instr slot virtAddr value S :
  get_sq m slot = Some S ->
  exists m',
    AXP_21264_Mbox_WriteMem m instr slot virtAddr value = Some m'
    /\ get_sq m' slot =
         Some (Q.set_state Initial
                 (Q.set_instr instr (Q.set_virtAddress virtAddr (Q.set_value value S)))).
Proof.
  intros HS. unfold AXP_21264_Mbox_WriteMem. rewrite HS. simpl.
  eexists. split; [reflexivity |].
  unfold get_sq, upd_sq in *. simpl. destruct (0 <=? slot); [| discriminate].
  rewrite !list_lookup_alter_eq, HS. reflexivity.
Qed.

End Allocator.

(** ** Store-conditional *)

Section StoreConditional.

Context {K : Constants}.

Lemma deref_Some m p i :
  deref m p = Some i -> exists a, p = Some a /\ M.instrs m !! a = Some i.
Proof.
  unfold deref. destruct p as [a |]; simpl; [| discriminate].
  intros H. exists a. split; [reflexivity | exact H].
Qed.

Lemma store_instr_Some m a i f :
  M.instrs m !! a = Some i ->
  store_instr m (Some a) f = Some (M.set_instrs (<[a := f i]> (M.instrs m)) m).
Proof. intros H. unfold store_instr. simpl. rewrite H. reflexivity. Qed.

Lemma STx_C_eq m a i :
  M.instrs m !! a = Some i ->
  let m' := M.set_instrs (<[a := stc_result (CPU.lockFlag (M.cpu m)) i]> (M.instrs m)) m in
  AXP_STL_C m (Some a) = Some (NoException, m')
  /\ AXP_STQ_C m (Some a) = Some (NoException, m').
Proof.
  intros H m'. subst m'. unfold AXP_STL_C, AXP_STQ_C, deref, store_instr, stc_result.
  simpl. rewrite H. simpl.
  destruct (CPU.lockFlag (M.cpu m)); simpl;
    repeat (rewrite lookup_insert_eq; simpl);
    rewrite !insert_insert_eq; split; reflexivity.
Qed.

(** C9, as the code has it.  For a store-conditional ([AXP_STL_C] or
    [AXP_STQ_C]) on a valid descriptor: [destv] becomes 1 when the
    CPU's [lockFlag] is true and 0 otherwise, [clearLockPending]
    becomes true and the instruction state becomes [WaitingRetirement];
    in neither case is a store performed: the CPU aggregate, memory and
    the call log are as before, and so is every other descriptor. *)
Theorem store_conditional_result m p i :
  deref m p = Some i ->
  exists m' i',
    AXP_STL_C m p = Some (NoException, m')
    /\ AXP_STQ_C m p = Some (NoException, m')
    /\ deref m' p = Some i'
    /\ Ins.destv i' = (if CPU.lockFlag (M.cpu m) then 1 else 0)
    /\ Ins.clearLockPending i' = true
    /\ Ins.state i' = WaitingRetirement
    /\ ~ store_performed m m'
    /\ (forall q, q <> p -> deref m' q = deref m q).
Proof.
  intros Hd. destruct (deref_Some _ _ _ Hd) as (a & -> & Ha).
  destruct (STx_C_eq m a i Ha) as [HL HQ].
  eexists. exists (stc_result (CPU.lockFlag (M.cpu m)) i).
  split; [exact HL |]. split; [exact HQ |].
  split; [unfold deref; simpl; apply lookup_insert_eq |].
  split; [reflexivity |]. split; [reflexivity |]. split; [reflexivity |].
  split.
  - unfold store_performed. simpl. tauto.
  - intros [b |] Hq; [| reflexivity].
    unfold deref. simpl. apply lookup_insert_ne. congruence.
Qed.

End StoreConditional.

(** C9 at a concrete machine. *)
Lemma store_conditional_result_witness :
  exists m' i',
    AXP_STL_C (K := K21264) m_stc (Some 256) = Some (NoException, m')
    /\ AXP_STQ_C m_stc (Some 256) = Some (NoException, m')
    /\ deref m' (Some 256) = Some i'
    /\ Ins.destv i' = (if CPU.lockFlag (M.cpu m_stc) then 1 else 0)
    /\ Ins.clearLockPending i' = true
    /\ Ins.state i' = WaitingRetirement
    /\ ~ store_performed m_stc m'
    /\ (forall q, q <> Some 256 -> deref m' q = deref m_stc q).
Proof.
  apply (store_conditional_result (K := K21264) m_stc (Some 256)
           (ins_of 7 (OtherOpcode 46) 8192 4096)).
  reflexivity.
Defined.

(** C9 as stated fails: with the lock flag set, [AXP_STL_C] and
    [AXP_STQ_C] write 1 to [destv] and yet perform no store. *)
Lemma store_conditional_performs_no_store :
  CPU.lockFlag (M.cpu m_stc) = true
  /\ exists m',
      AXP_STL_C (K := K21264) m_stc (Some 256) = Some (NoException, m')
      /\ AXP_STQ_C m_stc (Some 256) = Some (NoException, m')
      /\ Ins.destv <$> deref m' (Some 256) = Some 1
      /\ ~ store_performed m_stc m'.
Proof.
  split; [reflexivity |].
  destruct (STx_C_eq (K := K21264) m_stc 256 (ins_of 7 (OtherOpcode 46) 8192 4096))
    as [HL HQ]; [reflexivity |].
  eexists. split; [exact HL |]. split; [exact HQ |].
  split.
  - unfold deref. simpl. rewrite lookup_insert_eq. reflexivity.
  - unfold store_performed. simpl. tauto.
Qed.

(** ** The scan of the store queue *)

Section Scan.

Context {K : Constants}.

(** A loop whose body keeps an invariant and never fails runs to its
    end and establishes the invariant there. *)
Lemma iterate_fromM_inv {A : Type} (P : Z -> A -> Prop) (body : Z -> A -> option A)
    (n : nat) : forall (ii : Z) (a : A),
  P ii a ->
  (forall j b, ii <= j < ii + Z.of_nat n -> P j b ->
     exists b', body j b = Some b' /\ P (j + 1) b') ->
  exists a', iterate_fromM n ii body a = Some a' /\ P (ii + Z.of_nat n) a'.
Proof.
  induction n as [| n IH]; intros ii a Ha Hstep.
  - exists a. simpl. rewrite Z.add_0_r. auto.
  - destruct (Hstep ii a) as (a1 & Hb & Ha1); [lia | assumption |].
    destruct (IH (ii + 1) a1 Ha1) as (a2 & Hrun & Ha2).
    + intros j b Hj Hp. apply Hstep; [lia | assumption].
    + exists a2. simpl. rewrite Hb. simpl. split; [exact Hrun |].
      replace (ii + Z.of_nat (S n)) with (ii + 1 + Z.of_nat n) by lia. exact Ha2.
Qed.

Lemma code_forwards_from_fun m L j u u' :
  code_forwards_from m L j u -> code_forwards_from m L j u' -> u = u'.
Proof.
  intros (s1 & l1 & i1 & G1 & _ & D1 & _ & _ & _ & _ & ->)
         (s2 & l2 & i2 & G2 & _ & D2 & _ & _ & _ & _ & ->).
  congruence.
Qed.

Lemma get_sq_in_range m ii :
  length (CPU.sq (M.cpu m)) = Z.to_nat AXP_MBOX_QUEUE_LEN ->
  0 <= ii < AXP_MBOX_QUEUE_LEN -> is_Some (get_sq m ii).
Proof.
  intros Hlen Hii. unfold get_sq.
  destruct (Z.leb_spec 0 ii); [| lia].
  apply lookup_lt_is_Some_2. lia.
Qed.

Lemma sq_ptrs_ok_lookup m ii sqe :
  sq_ptrs_ok m = true -> get_sq m ii = Some sqe ->
  sq_in_process (Q.state sqe) = true -> is_Some (deref m (Q.instr sqe)).
Proof.
  unfold sq_ptrs_ok, get_sq. intros Hall Hget Hin.
  destruct (0 <=? ii); [| discriminate].
  rewrite forallb_forall in Hall.
  assert (Hmem : In sqe (CPU.sq (M.cpu m))).
  { apply list_elem_of_In. eapply list_elem_of_lookup_2. exact Hget. }
  specialize (Hall sqe Hmem). rewrite Hin in Hall. simpl in Hall.
  apply bool_decide_eq_true in Hall. exact Hall.
Qed.

Lemma u8_small z : 0 <= z < 256 -> u8 z = z.
Proof. apply Z.mod_small. Qed.

(** One iteration keeps [scan_inv]. *)
Lemma scan_body_inv m L li k acc :
  queue_len_ok ->
  length (CPU.sq (M.cpu m)) = Z.to_nat AXP_MBOX_QUEUE_LEN ->
  sq_ptrs_ok m = true ->
  deref m (Q.instr L) = Some li ->
  0 <= k < AXP_MBOX_QUEUE_LEN ->
  scan_inv m L k acc ->
  exists acc', scan_body m L k acc = Some acc' /\ scan_inv m L (k + 1) acc'.
Proof.
  intros HK Hlen Hptr HL Hk Hinv.
  pose proof HK as HK'. unfold queue_len_ok in HK'.
  destruct acc as [found nx]. unfold scan_body.
  destruct (get_sq_in_range m k Hlen Hk) as [sqe Hsqe]. rewrite Hsqe. simpl.
  assert (Hkeep : (forall u, ~ code_forwards_from m L k u) ->
                  scan_inv m L (k + 1) (found, nx)).
  { intros Hno. destruct Hinv as [Ht Hf]. split.
    - intros E. destruct (Ht E) as (Hr & un & Hq & Hmax).
      split; [lia |]. exists un. split; [exact Hq |].
      intros j uj Hj Hc. destruct (Z.eq_dec j k) as [-> | Hne].
      + exfalso. exact (Hno _ Hc).
      + apply (Hmax j); [lia | exact Hc].
    - intros E j uj Hj Hc. destruct (Z.eq_dec j k) as [-> | Hne].
      + exact (Hno _ Hc).
      + apply (Hf E j uj); [lia | exact Hc]. }
  destruct (sq_in_process (Q.state sqe)) eqn:Hin.
  2:{ exists (found, nx). split; [reflexivity |]. apply Hkeep.
      intros u (s & l & i & G & _ & _ & P & _). congruence. }
  destruct (Z.eqb_spec (Q.virtAddress L) (Q.virtAddress sqe)) as [Hva | Hva]; simpl.
  2:{ exists (found, nx). split; [reflexivity |]. apply Hkeep.
      intros u (s & l & i & G & _ & _ & _ & V & _). congruence. }
  destruct (Z.leb_spec (Q.len L) (Q.len sqe)) as [Hlen' | Hlen']; simpl.
  2:{ exists (found, nx). split; [reflexivity |]. apply Hkeep.
      intros u (s & l & i & G & _ & _ & _ & _ & Le & _).
      assert (s = sqe) by congruence. subst s. lia. }
  rewrite HL. simpl.
  destruct (sq_ptrs_ok_lookup m k sqe Hptr Hsqe Hin) as [si Hsi]. rewrite Hsi. simpl.
  destruct (Z.ltb_spec (Ins.uniqueID li) (Ins.uniqueID si)) as [Hage | Hage].
  2:{ exists (found, nx). split; [reflexivity |]. apply Hkeep.
      intros u (s & l & i & G & Dl & Ds & _ & _ & _ & Lt & _).
      assert (s = sqe) by congruence. subst s.
      assert (l = li) by congruence. assert (i = si) by congruence. subst. lia. }
  assert (Hq : code_forwards_from m L k (Ins.uniqueID si)).
  { exists sqe, li, si. repeat (split; [first [assumption | congruence] |]). reflexivity. }
  destruct Hinv as [Ht Hf]. destruct found.
  - destruct (Ht eq_refl) as (Hr & un & Hqn & Hmax).
    pose proof Hqn as (sn & ln & ni & Gn & _ & Dn & _ & _ & _ & _ & Eun).
    rewrite Gn. simpl. rewrite Dn. simpl.
    destruct (Z.gtb_spec (Ins.uniqueID si) (Ins.uniqueID ni)) as [Hgt | Hle].
    + exists (true, u8 k). split; [reflexivity |].
      rewrite u8_small by lia. split; [| discriminate].
      intros _. split; [lia |]. exists (Ins.uniqueID si). split; [exact Hq |].
      intros j uj Hj Hc. destruct (Z.eq_dec j k) as [-> | Hne].
      * rewrite (code_forwards_from_fun _ _ _ _ _ Hc Hq). lia.
      * assert (uj <= un) by (apply (Hmax j); [lia | exact Hc]). lia.
    + exists (true, nx). split; [reflexivity |]. split; [| discriminate].
      intros _. split; [lia |]. exists un. split; [exact Hqn |].
      intros j uj Hj Hc. destruct (Z.eq_dec j k) as [-> | Hne].
      * rewrite (code_forwards_from_fun _ _ _ _ _ Hc Hq). lia.
      * apply (Hmax j); [lia | exact Hc].
  - exists (true, u8 k). split; [reflexivity |].
    rewrite u8_small by lia. split; [| discriminate].
    intros _. split; [lia |]. exists (Ins.uniqueID si). split; [exact Hq |].
    intros j uj Hj Hc. destruct (Z.eq_dec j k) as [-> | Hne].
    + rewrite (code_forwards_from_fun _ _ _ _ _ Hc Hq). lia.
    + exfalso. apply (Hf eq_refl j uj); [lia | exact Hc].
Qed.

(** The loop over the store queue returns, and its locals satisfy
    [scan_inv] for the whole queue. *)
Lemma scan_sq_spec m L li :
  queue_len_ok ->
  length (CPU.sq (M.cpu m)) = Z.to_nat AXP_MBOX_QUEUE_LEN ->
  sq_ptrs_ok m = true ->
  deref m (Q.instr L) = Some li ->
  exists acc, scan_sq m L = Some acc /\ scan_inv m L AXP_MBOX_QUEUE_LEN acc.
Proof.
  intros HK Hlen Hptr HL.
  pose proof HK as HK'. unfold queue_len_ok in HK'.
  unfold scan_sq, for_rangeM.
  destruct (iterate_fromM_inv (scan_inv m L) (scan_body m L)
              (Z.to_nat (AXP_MBOX_QUEUE_LEN - 0)) 0 (false, 0))
    as (acc & Hrun & Hinv).
  - split; [discriminate |]. intros _ j uj Hj. lia.
  - intros j b Hj Hb. apply (scan_body_inv m L li); try assumption. lia.
  - exists acc. split; [exact Hrun |].
    replace (0 + Z.of_nat (Z.to_nat (AXP_MBOX_QUEUE_LEN - 0)))
      with AXP_MBOX_QUEUE_LEN in Hinv by lia.
    exact Hinv.
Qed.

End Scan.

(** ** Cache probing and forwarding *)

Section TryCaches.

Context {K : Constants} {X : Externals}.

Lemma get_lq_upd_lq m entry f L :
  get_lq m entry = Some L -> get_lq (upd_lq entry f m) entry = Some (f L).
Proof.
  unfold get_lq, upd_lq. simpl. destruct (0 <=? entry); [| discriminate].
  intros H. rewrite list_lookup_alter_eq, H. reflexivity.
Qed.

Lemma get_lq_cpu m m' entry :
  M.cpu m' = M.cpu m -> get_lq m' entry = get_lq m entry.
Proof. unfold get_lq. intros ->. reflexivity. Qed.

(** The hit path from a machine [mc] on which the load's descriptor is
    valid. *)
Lemma read_path m mc entry L li :
  get_lq m entry = Some L ->
  M.cpu mc = M.cpu m -> M.instrs mc = M.instrs m ->
  deref m (Q.instr L) = Some li ->
  exists m',
    (m0 ← store_instr mc (Q.instr L) (Ins.set_destv 0);
     let '(retVal, v) :=
       AXP_DcacheRead m0 (Q.virtAddress L) (Q.physAddress L) (Q.len L) in
     let m1 := M.call (Call_DcacheRead (Q.virtAddress L) (Q.physAddress L) (Q.len L)) m0 in
     m2 ← store_instr m1 (Q.instr L) (Ins.set_destv v);
     Some (upd_lq entry (Q.set_state LQComplete) m2)) = Some m'
    /\ dcache_read_into entry L mc m'.
Proof.
  intros HL Hcpu Hins Hd.
  destruct (deref_Some _ _ _ Hd) as (a & Ha & Hi). rewrite Ha.
  rewrite <- Hins in Hi.
  rewrite (store_instr_Some mc a li _ Hi). simpl.
  destruct (AXP_DcacheRead _ _ _ _) as [retVal v] eqn:Hread.
  unfold store_instr. simpl. rewrite lookup_insert_eq. simpl.
  eexists. split; [reflexivity |].
  unfold dcache_read_into. rewrite Ha.
  eexists. split; [apply (store_instr_Some mc a li _ Hi) |].
  split; [reflexivity |]. split.
  - unfold deref. simpl. rewrite lookup_insert_eq. simpl. rewrite Hread. reflexivity.
  - erewrite get_lq_upd_lq; [reflexivity |].
    rewrite <- HL. apply get_lq_cpu. simpl. exact Hcpu.
Qed.

(** C5.  For a load-queue entry in [LQReadPending] with [IOflag] false
    for which the scan of the store queue finds no forwarding store,
    [AXP_21264_Mbox_TryCaches] returns and: it asks the Dcache first;
    on a Dcache miss it asks the Bcache; on a Bcache hit it copies the
    line to the Dcache, then reads the load's width into [destv] and
    makes the entry [LQComplete]; on a miss in both it adds a MAF entry
    with kind [LDx], the physical address, the slot index and the
    width, and the entry stays [LQReadPending].  Hit and miss are
    decided on the status as the [u8] local [cacheStatus] holds it. *)
Theorem TryCaches_probes_caches m entry L li nx :
  0 <= entry < 256 ->
  get_lq m entry = Some L ->
  Q.state L = LQReadPending ->
  Q.IOflag L = false ->
  deref m (Q.instr L) = Some li ->
  scan_sq m L = Some (false, nx) ->
  let va := Q.virtAddress L in
  let pa := Q.physAddress L in
  let m1 := M.call (Call_Dcache_Status va pa) m in
  let m2 := M.call (Call_Bcache_Status pa) m1 in
  let m3 := M.call (Call_CopyBcacheToDcache va pa) m2 in
  exists m',
    AXP_21264_Mbox_TryCaches m entry = Some m'
    /\ (u8 (AXP_Dcache_Status m va pa) = AXP_21264_CACHE_HIT ->
        dcache_read_into entry L m1 m')
    /\ (u8 (AXP_Dcache_Status m va pa) <> AXP_21264_CACHE_HIT ->
        u8 (AXP_21264_Bcache_Status m1 pa) = AXP_21264_CACHE_HIT ->
        dcache_read_into entry L m3 m')
    /\ (u8 (AXP_Dcache_Status m va pa) <> AXP_21264_CACHE_HIT ->
        u8 (AXP_21264_Bcache_Status m1 pa) <> AXP_21264_CACHE_HIT ->
        M.calls m' = M.calls m2 ++ [Call_Add_MAF LDx pa entry None (Q.len L)]
        /\ Q.state <$> get_lq m' entry = Some LQReadPending
        /\ M.instrs m' = M.instrs m).
Proof.
  intros He HL Hst Hio Hd Hscan va pa m1 m2 m3.
  unfold AXP_21264_Mbox_TryCaches. rewrite (u8_small entry He).
  rewrite HL. simpl. rewrite Hscan. simpl.
  fold va pa m1.
  destruct (Z.eqb_spec (u8 (AXP_Dcache_Status m va pa)) AXP_21264_CACHE_HIT)
    as [Hd1 | Hd1]; simpl.
  - destruct (read_path m m1 entry L li HL eq_refl eq_refl Hd) as (m' & Hrun & Hres).
    exists m'. split; [exact Hrun |].
    split; [intros _; exact Hres |]. split; intros Hne; contradiction.
  - fold m2.
    destruct (Z.eqb_spec (u8 (AXP_21264_Bcache_Status m1 pa)) AXP_21264_CACHE_HIT)
      as [Hb | Hb]; simpl.
    + destruct (read_path m m3 entry L li HL eq_refl eq_refl Hd) as (m' & Hrun & Hres).
      exists m'. split; [exact Hrun |].
      split; [intros E; contradiction |].
      split; [intros _ _; exact Hres |]. intros _ Hne. contradiction.
    + eexists. split; [reflexivity |].
      split; [intros E; contradiction |].
      split; [intros _ E; contradiction |].
      intros _ _. split; [reflexivity |]. split; [| reflexivity].
      rewrite <- Hst. unfold get_lq in *. simpl. rewrite HL. reflexivity.
Qed.

(** The forwarding branch: what [AXP_21264_Mbox_TryCaches] does once
    the scan has selected the store-queue entry [nx]. *)
Lemma TryCaches_forward m entry L li nx sqe v :
  0 <= entry < 256 ->
  get_lq m entry = Some L ->
  deref m (Q.instr L) = Some li ->
  scan_sq m L = Some (true, nx) ->
  get_sq m nx = Some sqe ->
  forward_value m (Q.len L) sqe 0 = Some v ->
  exists m',
    AXP_21264_Mbox_TryCaches m entry = Some m'
    /\ Ins.destv <$> deref m' (Q.instr L) = Some v
    /\ Q.state <$> get_lq m' entry = Some LQComplete
    /\ M.calls m' = M.calls m.
Proof.
  intros He HL Hd Hscan Hsq Hv.
  unfold AXP_21264_Mbox_TryCaches. rewrite (u8_small entry He).
  rewrite HL. simpl. rewrite Hscan. simpl.
  destruct (deref_Some _ _ _ Hd) as (a & Ha & Hi). rewrite Ha.
  rewrite (store_instr_Some m a li _ Hi). simpl.
  change (get_sq (M.set_instrs (<[a:=Ins.set_destv 0 li]> (M.instrs m)) m) nx)
    with (get_sq m nx).
  rewrite Hsq. simpl.
  change (forward_value (M.set_instrs (<[a:=Ins.set_destv 0 li]> (M.instrs m)) m))
    with (forward_value m).
  rewrite Hv. simpl.
  unfold store_instr. simpl. rewrite lookup_insert_eq. simpl.
  eexists. split; [reflexivity |]. split.
  - unfold deref. simpl. rewrite lookup_insert_eq. reflexivity.
  - split; [| reflexivity].
    erewrite get_lq_upd_lq; [reflexivity |].
    rewrite <- HL. apply get_lq_cpu. reflexivity.
Qed.

(** When the loop selects a store-queue entry, that entry is in one of
    the states [Initial], [SQWritePending], [SQComplete], has the
    load's virtual address and at least its width, and its instruction
    has a [uniqueID] greater than the load's; no entry that passes the
    loop's test has a greater [uniqueID]. *)
Lemma scan_sq_selected m L li nx :
  queue_len_ok ->
  length (CPU.sq (M.cpu m)) = Z.to_nat AXP_MBOX_QUEUE_LEN ->
  sq_ptrs_ok m = true ->
  deref m (Q.instr L) = Some li ->
  scan_sq m L = Some (true, nx) ->
  exists sqe si,
    get_sq m nx = Some sqe
    /\ deref m (Q.instr sqe) = Some si
    /\ sq_in_process (Q.state sqe) = true
    /\ Q.virtAddress sqe = Q.virtAddress L
    /\ Q.len L <= Q.len sqe
    /\ Ins.uniqueID li < Ins.uniqueID si
    /\ forall j uj, 0 <= j < AXP_MBOX_QUEUE_LEN ->
         code_forwards_from m L j uj -> uj <= Ins.uniqueID si.
Proof.
  intros HK Hlen Hptr Hd Hscan.
  destruct (scan_sq_spec m L li HK Hlen Hptr Hd) as (acc & Hrun & Hinv).
  rewrite Hscan in Hrun. injection Hrun as <-.
  destruct Hinv as [Ht _]. destruct (Ht eq_refl) as (Hr & un & Hq & Hmax).
  destruct Hq as (sqe & l & si & G & Dl & Ds & P & V & Le & Lt & ->).
  assert (l = li) by congruence. subst l.
  exists sqe, si. repeat (split; [assumption |]). exact Hmax.
Qed.

(** When the loop selects nothing, no entry of the store queue passes
    its test. *)
Lemma scan_sq_none m L li nx :
  queue_len_ok ->
  length (CPU.sq (M.cpu m)) = Z.to_nat AXP_MBOX_QUEUE_LEN ->
  sq_ptrs_ok m = true ->
  deref m (Q.instr L) = Some li ->
  scan_sq m L = Some (false, nx) ->
  forall j uj, 0 <= j < AXP_MBOX_QUEUE_LEN -> ~ code_forwards_from m L j uj.
Proof.
  intros HK Hlen Hptr Hd Hscan.
  destruct (scan_sq_spec m L li HK Hlen Hptr Hd) as (acc & Hrun & Hinv).
  rewrite Hscan in Hrun. injection Hrun as <-.
  destruct Hinv as [_ Hf]. exact (Hf eq_refl).
Qed.

(** C1 on the code.  Whenever the loop of [AXP_21264_Mbox_TryCaches]
    selects a store-queue entry [S] as the forwarding source of a load
    [L], [S] is in state [Initial], [SQWritePending] or [SQComplete],
    has [L]'s virtual address and at least [L]'s width, and
    [L.instr.uniqueID < S.instr.uniqueID]: the age test is the reverse
    of [S.instr.uniqueID < L.instr.uniqueID]. *)
Theorem forward_source_age_reversed m L li nx :
  queue_len_ok ->
  length (CPU.sq (M.cpu m)) = Z.to_nat AXP_MBOX_QUEUE_LEN ->
  sq_ptrs_ok m = true ->
  deref m (Q.instr L) = Some li ->
  scan_sq m L = Some (true, nx) ->
  exists S si,
    get_sq m nx = Some S
    /\ deref m (Q.instr S) = Some si
    /\ (Q.state S = Initial \/ Q.state S = SQWritePending \/ Q.state S = SQComplete)
    /\ Q.virtAddress S = Q.virtAddress L
    /\ Q.len S >= Q.len L
    /\ Ins.uniqueID li < Ins.uniqueID si
    /\ ~ Ins.uniqueID si < Ins.uniqueID li.
Proof.
  intros HK Hlen Hptr Hd Hscan.
  destruct (scan_sq_selected m L li nx HK Hlen Hptr Hd Hscan)
    as (S & si & G & Ds & P & V & Le & Lt & _).
  exists S, si. split; [exact G |]. split; [exact Ds |].
  split.
  - destruct (Q.state S); simpl in P; try discriminate; auto.
  - split; [exact V |]. split; [lia |]. split; [exact Lt | lia].
Qed.

(** Width 1 copies the low byte of the store's [value]. *)
Lemma forward_value_byte m S :
  forward_value m 1 S 0 = Some (low_bytes 1 (Q.value S)).
Proof.
  unfold forward_value, write_low, low_bytes.
  change (1 =? 1) with true. cbv iota.
  change (2 ^ (8 * 1)) with 256.
  rewrite Z.mod_0_l by lia. rewrite Z.mod_mod by lia. reflexivity.
Qed.

(** A forwarded byte load receives the low byte of the selected
    store's [value], the other bytes of [destv] are zero, and the entry
    becomes [LQComplete]. *)
Lemma TryCaches_forward_byte m entry L li nx S :
  0 <= entry < 256 ->
  get_lq m entry = Some L ->
  deref m (Q.instr L) = Some li ->
  scan_sq m L = Some (true, nx) ->
  get_sq m nx = Some S ->
  Q.len L = 1 ->
  exists m',
    AXP_21264_Mbox_TryCaches m entry = Some m'
    /\ Ins.destv <$> deref m' (Q.instr L) = Some (Q.value S mod 256)
    /\ Q.state <$> get_lq m' entry = Some LQComplete.
Proof.
  intros He HL Hd Hscan HS Hlen.
  destruct (TryCaches_forward m entry L li nx S (low_bytes 1 (Q.value S))
              He HL Hd Hscan HS) as (m' & Hrun & Hv & Hst & _).
  - rewrite Hlen. apply forward_value_byte.
  - exists m'. split; [exact Hrun |]. split; [exact Hv | exact Hst].
Qed.

(** Widths 2, 4 and 8 read host memory at the address held in the
    store's [value]; the bytes of [value] itself are not copied. *)
Lemma forward_value_wide m S :
  forward_value m 2 S 0 = (v ← load_bytes (M.memory m) (Q.value S) 2; Some (write_low 2 0 v))
  /\ forward_value m 4 S 0 = (v ← load_bytes (M.memory m) (Q.value S) 4; Some (write_low 4 0 v))
  /\ forward_value m 8 S 0 = (v ← load_bytes (M.memory m) (Q.value S) 8; Some (write_low 8 0 v)).
Proof. repeat split. Qed.

End TryCaches.

(** ** Translation faults in [AXP_21264_Mbox_LQ_Init] *)

Section LQ_Init.

Context {K : Constants} {X : Externals}.

(** The width switch returns, and leaves alone the call log, the
    entry's address, state and descriptor pointer, and the descriptor's
    [pc], [opcode] and [aDest]. *)
Lemma set_load_len_spec m entry L ins :
  get_lq m entry = Some L ->
  deref m (Q.instr L) = Some ins ->
  exists m1 L1 ins1,
    set_load_len m entry L ins = Some m1
    /\ M.calls m1 = M.calls m
    /\ get_lq m1 entry = Some L1
    /\ Q.virtAddress L1 = Q.virtAddress L
    /\ Q.state L1 = Q.state L
    /\ Q.instr L1 = Q.instr L
    /\ deref m1 (Q.instr L) = Some ins1
    /\ Ins.pc ins1 = Ins.pc ins
    /\ Ins.opcode ins1 = Ins.opcode ins
    /\ Ins.aDest ins1 = Ins.aDest ins.
Proof.
  intros HL Hd.
  assert (Hupd : forall n, exists m1 L1 ins1,
             Some (upd_lq entry (Q.set_len n) m) = Some m1
             /\ M.calls m1 = M.calls m
             /\ get_lq m1 entry = Some L1
             /\ Q.virtAddress L1 = Q.virtAddress L
             /\ Q.state L1 = Q.state L
             /\ Q.instr L1 = Q.instr L
             /\ deref m1 (Q.instr L) = Some ins1
             /\ Ins.pc ins1 = Ins.pc ins
             /\ Ins.opcode ins1 = Ins.opcode ins
             /\ Ins.aDest ins1 = Ins.aDest ins).
  { intros n. exists (upd_lq entry (Q.set_len n) m), (Q.set_len n L), ins.
    split; [reflexivity |]. split; [reflexivity |].
    split; [apply get_lq_upd_lq; exact HL |].
    repeat (split; [reflexivity |]). split; [exact Hd |].
    repeat split. }
  unfold set_load_len.
  destruct (Ins.opcode ins) eqn:Hop; try apply Hupd.
  - destruct (deref_Some _ _ _ Hd) as (a & Ha & Hi). rewrite Ha.
    rewrite (store_instr_Some m a ins _ Hi). simpl.
    set (m0 := M.set_instrs _ m).
    assert (HL0 : get_lq m0 entry = Some L) by exact HL.
    assert (Hd0 : deref m0 (Some a) = Some (Ins.set_len_stall AXP_HW_LD_LONGWORD ins)).
    { unfold deref, m0. simpl. apply lookup_insert_eq. }
    destruct (negb (AXP_HW_LD_LONGWORD =? 0)).
    + exists (upd_lq entry (Q.set_len 4) m0), (Q.set_len 4 L),
        (Ins.set_len_stall AXP_HW_LD_LONGWORD ins).
      split; [reflexivity |]. split; [reflexivity |].
      split; [apply get_lq_upd_lq; exact HL0 |].
      repeat (split; [first [reflexivity | exact Ha | exact Hd0] |]).
      split; [exact Hop | reflexivity].
    + exists (upd_lq entry (Q.set_len 8) m0), (Q.set_len 8 L),
        (Ins.set_len_stall AXP_HW_LD_LONGWORD ins).
      split; [reflexivity |]. split; [reflexivity |].
      split; [apply get_lq_upd_lq; exact HL0 |].
      repeat (split; [first [reflexivity | exact Ha | exact Hd0] |]).
      split; [exact Hop | reflexivity].
  - exists m, L, ins. repeat (split; [first [reflexivity | assumption] |]).
    reflexivity.
Qed.

(** C4, as the code has it.  When the translation of a load's virtual
    address returns physical address 0 (the sign of a translation fault
    [AXP_21264_Mbox_LQ_Init] tests), the Mbox calls
    [AXP_21264_Ibox_Event] with the fault, the PC, the virtual address,
    the opcode and the destination register, right after the
    translation, and returns; the state of the load-queue entry is the
    one it had on entry. *)
Theorem LQ_Init_fault_raises_event m entry L ins m1 asm fault :
  0 <= entry < 256 ->
  get_lq m entry = Some L ->
  deref m (Q.instr L) = Some ins ->
  set_load_len m entry L ins = Some m1 ->
  AXP_va2pa m1 (Q.virtAddress L) (Ins.pc ins) true Read = (0, asm, fault) ->
  exists m',
    AXP_21264_Mbox_LQ_Init m entry = Some m'
    /\ M.calls m' =
         M.calls m ++
           [Call_va2pa (Q.virtAddress L) (Ins.pc ins) true Read;
            Call_Ibox_Event fault (Ins.pc ins) (Q.virtAddress L)
              (Ins.opcode ins) (Ins.aDest ins) false false]
    /\ Q.state <$> get_lq m' entry = Some (Q.state L)
    /\ Q.physAddress <$> get_lq m' entry = Some 0.
Proof.
  intros He HL Hd Hlen Hva.
  destruct (set_load_len_spec m entry L ins HL Hd)
    as (m1' & L1 & ins1 & Hlen' & Hc & HL1 & Eva & Est & Ein & Hd1 & Epc & Eop & Ead).
  rewrite Hlen in Hlen'. injection Hlen' as <-.
  unfold AXP_21264_Mbox_LQ_Init. rewrite (u8_small entry He).
  rewrite HL. simpl. rewrite Hd. simpl. rewrite Hlen. simpl.
  rewrite HL1. simpl. rewrite Ein, Hd1. simpl.
  rewrite Eva, Epc, Hva. simpl.
  eexists. split; [reflexivity |]. simpl.
  rewrite Hc, Eop, Ead, <- app_assoc. split; [reflexivity |].
  rewrite <- Est.
  assert (G : get_lq
                (M.call (Call_Ibox_Event fault (Ins.pc ins) (Q.virtAddress L)
                           (Ins.opcode ins) (Ins.aDest ins) false false)
                   (upd_lq entry (Q.set_physAddress 0)
                      (M.call (Call_va2pa (Q.virtAddress L) (Ins.pc ins) true Read) m1)))
                entry = Some (Q.set_physAddress 0 L1)).
  { rewrite <- (get_lq_upd_lq m1 entry (Q.set_physAddress 0) L1 HL1). reflexivity. }
  rewrite G. split; reflexivity.
Qed.

End LQ_Init.

(** ** Initialisation *)

Section Init.

Context {K : Constants}.

(** An array loop that rewrites [a[ii]] with [f] touches exactly the
    indices it runs over. *)
Lemma iterate_alter_lookup {A : Type} (f : A -> A) (n : nat) :
  forall (ii : Z) (a : list A) (i : nat),
    0 <= ii ->
    iterate_from n ii (fun k => alter f (Z.to_nat k)) a !! i =
      if decide (ii <= Z.of_nat i < ii + Z.of_nat n) then f <$> a !! i else a !! i.
Proof.
  induction n as [| n IH]; intros ii a i Hii.
  - simpl. destruct (decide _); [lia | reflexivity].
  - simpl iterate_from. rewrite IH by lia.
    destruct (decide (i = Z.to_nat ii)) as [-> | Hne].
    + rewrite list_lookup_alter_eq.
      destruct (decide (ii + 1 <= _ < _)); [lia |].
      destruct (decide (ii <= _ < _)); [reflexivity | lia].
    + rewrite list_lookup_alter_ne by congruence.
      destruct (decide (ii + 1 <= _ < _)), (decide (ii <= _ < _));
        first [reflexivity | lia].
Qed.

Lemma init_array_lookup {A : Type} (lo hi : Z) (f : A -> A) (a : list A) (i : nat) :
  0 <= lo ->
  init_array lo hi f a !! i =
    if decide (lo <= Z.of_nat i < hi) then f <$> a !! i else a !! i.
Proof.
  intros Hlo. unfold init_array, for_range. rewrite iterate_alter_lookup by lia.
  destruct (decide (lo <= _ < lo + _)), (decide (lo <= _ < hi));
    first [reflexivity | lia].
Qed.

Lemma iterate_from_ext {A : Type} (f g : Z -> A -> A) (n : nat) :
  forall ii a, (forall k b, f k b = g k b) ->
               iterate_from n ii f a = iterate_from n ii g a.
Proof.
  induction n as [| n IH]; intros ii a H; simpl; [reflexivity |].
  rewrite H. apply IH, H.
Qed.

(** The inner loop over the ways of one set rewrites that set's row. *)
Lemma iterate_alter_row {A : Type} (f : A -> A) (r : nat) (n : nat) :
  forall (jj : Z) (a : list (list A)),
    iterate_from n jj (fun k => alter (alter f (Z.to_nat k)) r) a =
      alter (iterate_from n jj (fun k => alter f (Z.to_nat k))) r a.
Proof.
  induction n as [| n IH]; intros jj a; simpl.
  - symmetry. apply list_alter_id. reflexivity.
  - rewrite IH. rewrite list_alter_alter_eq. reflexivity.
Qed.

Lemma init_array2_lookup {A : Type} (lo hi ways : Z) (f : A -> A)
    (a : list (list A)) (i : nat) :
  0 <= lo ->
  init_array2 lo hi ways f a !! i =
    if decide (lo <= Z.of_nat i < hi)
    then init_array 0 ways f <$> a !! i else a !! i.
Proof.
  intros Hlo. unfold init_array2.
  rewrite <- (init_array_lookup lo hi (init_array 0 ways f) a i Hlo).
  unfold init_array at 1. unfold for_range at 1 3. f_equal.
  apply iterate_from_ext. intros k b.
  unfold init_array, for_range. apply iterate_alter_row.
Qed.

(** C8 on the code: [AXP_21264_Mbox_Init] leaves the blocks of Dcache
    set 0 and the duplicate tags of set 0 as they were; both cache
    loops start at index 1.  Neither way of set 0 is zeroed or marked
    [Invalid]. *)
Theorem Mbox_Init_skips_set_0 (cpu : CPU.t) :
  CPU.dCache (snd (AXP_21264_Mbox_Init cpu)) !! 0%nat = CPU.dCache cpu !! 0%nat
  /\ CPU.dtag (snd (AXP_21264_Mbox_Init cpu)) !! 0%nat = CPU.dtag cpu !! 0%nat.
Proof.
  unfold AXP_21264_Mbox_Init. simpl.
  rewrite !init_array2_lookup by lia.
  split; (destruct (decide _); [lia | reflexivity]).
Qed.

(** What [AXP_21264_Mbox_Init] does reset: every way of every Dcache
    set and duplicate tag from index 1 on, every LQ and SQ slot, every
    DTB entry, every MAF slot, the next-indices and the registers. *)
Lemma Mbox_Init_resets (cpu : CPU.t) :
  let cpu' := snd (AXP_21264_Mbox_Init cpu) in
  fst (AXP_21264_Mbox_Init cpu) = false
  /\ (forall ii jj : nat,
        1 <= Z.of_nat ii < AXP_CACHE_ENTRIES -> Z.of_nat jj < AXP_2_WAY_CACHE ->
        (CPU.dCache cpu' !! ii ≫= (.!! jj))
          = init_dcache_blk <$> (CPU.dCache cpu !! ii ≫= (.!! jj)))
  /\ (forall ii jj : nat,
        1 <= Z.of_nat ii < AXP_CACHE_ENTRIES -> Z.of_nat jj < AXP_2_WAY_CACHE ->
        (CPU.dtag cpu' !! ii ≫= (.!! jj))
          = init_dtag_blk <$> (CPU.dtag cpu !! ii ≫= (.!! jj)))
  /\ (forall ii : nat, Z.of_nat ii < AXP_MBOX_QUEUE_LEN ->
        CPU.lq cpu' !! ii = init_queue_entry <$> CPU.lq cpu !! ii)
  /\ (forall ii : nat, Z.of_nat ii < AXP_MBOX_QUEUE_LEN ->
        CPU.sq cpu' !! ii = init_queue_entry <$> CPU.sq cpu !! ii)
  /\ (forall ii : nat, Z.of_nat ii < AXP_TB_LEN ->
        CPU.dtb cpu' !! ii = init_tlb <$> CPU.dtb cpu !! ii)
  /\ (forall ii : nat, Z.of_nat ii < AXP_21264_MAF_LEN ->
        CPU.maf cpu' !! ii = init_maf <$> CPU.maf cpu !! ii)
  /\ CPU.lqNext cpu' = 0 /\ CPU.sqNext cpu' = 0
  /\ DC_CTL.set_en (CPU.dcCtl cpu') = 3
  /\ DTB_ALTMODE.alt_mode (CPU.dtbAltMode cpu') = AXP_MBOX_ALTMODE_KERNEL.
Proof.
  assert (H2 : forall (A : Type) (f : A -> A) (a : list (list A)) (ii jj : nat),
             1 <= Z.of_nat ii < AXP_CACHE_ENTRIES -> Z.of_nat jj < AXP_2_WAY_CACHE ->
             (init_array2 1 AXP_CACHE_ENTRIES AXP_2_WAY_CACHE f a !! ii ≫= (.!! jj))
             = f <$> (a !! ii ≫= (.!! jj))).
  { intros A f a ii jj Hi Hj. rewrite init_array2_lookup by lia.
    destruct (decide _); [| lia].
    destruct (a !! ii) as [row |]; simpl; [| reflexivity].
    rewrite init_array_lookup by lia. destruct (decide _); [reflexivity | lia]. }
  assert (H1 : forall (A : Type) (f : A -> A) (a : list A) (hi : Z) (ii : nat),
             Z.of_nat ii < hi -> init_array 0 hi f a !! ii = f <$> a !! ii).
  { intros A f a hi ii Hi. rewrite init_array_lookup by lia.
    destruct (decide _); [reflexivity | lia]. }
  simpl. split; [reflexivity |].
  split; [intros; apply H2; assumption |].
  split; [intros; apply H2; assumption |].
  split; [intros; apply H1; assumption |].
  split; [intros; apply H1; assumption |].
  split; [intros; apply H1; assumption |].
  split; [intros; apply H1; assumption |].
  repeat split.
Qed.

(** The reset values the loops write. *)
Lemma init_values (b : DC.t) (d : DTAG.t) (e : Q.t) (t : TLB.t) (f : MAF.t) :
  DC.state (init_dcache_blk b) = Invalid
  /\ DC.valid (init_dcache_blk b) = false
  /\ take (Z.to_nat AXP_DCACHE_DATA_LEN) (DC.data (init_dcache_blk b))
       = replicate (Z.to_nat AXP_DCACHE_DATA_LEN) 0
  /\ DTAG.valid (init_dtag_blk d) = false
  /\ Q.state (init_queue_entry e) = QNotInUse
  /\ TLB.valid (init_tlb t) = false
  /\ MAF.type (init_maf f) = MAFNotInUse.
Proof.
  repeat (split; [reflexivity |]).
  split; [| repeat split].
  simpl. rewrite take_app_length'; [reflexivity | symmetry; apply length_replicate].
Qed.

End Init.

(** * The theorems at concrete machines *)

(** C6 at a CPU with room in both queues (next-indices 3 and 5). *)
Lemma GetSlot_index_or_sentinel_witness :
  (let '(r, cpu') := AXP_21264_Mbox_GetLQSlot (K := K21264) cpu_room in
   ((0 <= r < 32
     /\ Q.state <$> CPU.lq cpu' !! Z.to_nat r = Some Assigned
     /\ CPU.lqNext cpu' = CPU.lqNext cpu_room + 1)
    \/ r = 32)
   /\ (r = 32 <-> lq_full (K := K21264) cpu_room))
  /\
  (let '(r, cpu') := AXP_21264_Mbox_GetSQSlot (K := K21264) cpu_room in
   ((0 <= r < 32
     /\ Q.state <$> CPU.sq cpu' !! Z.to_nat r = Some Assigned
     /\ CPU.sqNext cpu' = CPU.sqNext cpu_room + 1)
    \/ r = 32)
   /\ (r = 32 <-> sq_full (K := K21264) cpu_room)).
Proof.
  apply (GetSlot_index_or_sentinel (K := K21264) cpu_room).
  - unfold queue_len_ok. simpl. lia.
  - unfold cpu_wf. simpl. repeat split; lia.
Defined.

(** C10 at a CPU whose queues are both full. *)
Lemma GetSlot_full_unchanged_witness :
  (CPU.lqNext cpu_full = 32 ->
   AXP_21264_Mbox_GetLQSlot (K := K21264) cpu_full = (32, cpu_full))
  /\ (CPU.sqNext cpu_full = 32 ->
      AXP_21264_Mbox_GetSQSlot (K := K21264) cpu_full = (32, cpu_full)).
Proof.
  apply (GetSlot_full_unchanged (K := K21264) cpu_full).
  unfold queue_len_ok. simpl. lia.
Defined.

(** C7 at a used CPU: reset, then two allocations, then one more. *)
Lemma next_index_monotone_bounded_witness :
  let cpu0 := snd (AXP_21264_Mbox_Init (K := K21264) cpu_stale) in
  let cpu1 := alloc_run (K := K21264) [AllocLQ; AllocSQ] cpu0 in
  let cpu2 := alloc_run (K := K21264) ([AllocLQ; AllocSQ] ++ [AllocLQ]) cpu0 in
  CPU.lqNext cpu0 = 0 /\ CPU.sqNext cpu0 = 0
  /\ CPU.lqNext cpu1 <= CPU.lqNext cpu2 <= 32
  /\ CPU.sqNext cpu1 <= CPU.sqNext cpu2 <= 32.
Proof.
  apply (next_index_monotone_bounded (K := K21264) cpu_stale [AllocLQ; AllocSQ] [AllocLQ]).
  unfold queue_len_ok. simpl. lia.
Defined.

(** C4 at a load whose translation faults. *)
Lemma LQ_Init_fault_raises_event_witness :
  exists m',
    AXP_21264_Mbox_LQ_Init (K := K21264) (X := X_fault) m_fault 0 = Some m'
    /\ M.calls m' =
         M.calls m_fault ++
           [Call_va2pa 20480 8192 true Read;
            Call_Ibox_Event 3 8192 20480 LDQ 1 false false]
    /\ Q.state <$> get_lq m' 0 = Some Initial
    /\ Q.physAddress <$> get_lq m' 0 = Some 0.
Proof.
  apply (LQ_Init_fault_raises_event (K := K21264) (X := X_fault) m_fault 0
           (Q.mk 0 20480 0 0 (Some 256) Initial false false)
           (ins_of 4 LDQ 8192 20480)
           (upd_lq 0 (Q.set_len 8) m_fault) false 3).
  - lia.
  - reflexivity.
  - reflexivity.
  - reflexivity.
  - reflexivity.
Defined.

(** C4 as stated fails: after the fault the entry is still [Initial],
    not [QNotInUse]. *)
Lemma LQ_Init_fault_keeps_entry :
  exists m',
    AXP_21264_Mbox_LQ_Init (K := K21264) (X := X_fault) m_fault 0 = Some m'
    /\ M.calls m' =
         [Call_va2pa 20480 8192 true Read;
          Call_Ibox_Event 3 8192 20480 LDQ 1 false false]
    /\ Q.state <$> get_lq m' 0 = Some Initial
    /\ Q.state <$> get_lq m' 0 <> Some QNotInUse.
Proof.
  eexists. split; [vm_compute; reflexivity |].
  split; [reflexivity |]. split; [reflexivity |]. discriminate.
Qed.

(** C5 at a load that misses in both caches. *)

(** C5 at a quadword load with no store in flight, on each path: the
    Dcache hits; the Dcache answers 257, which the [u8] local holds as
    a hit; the Dcache misses and the Bcache hits; both miss. *)
Lemma TryCaches_probes_caches_witness :
  let L := Q.mk 0 24576 24576 8 (Some 256) LQReadPending false false in
  let m1 := M.call (Call_Dcache_Status 24576 24576) m_miss in
  let m2 := M.call (Call_Bcache_Status 24576) m1 in
  let m3 := M.call (Call_CopyBcacheToDcache 24576 24576) m2 in
  (exists m',
     AXP_21264_Mbox_TryCaches (K := K21264) (X := X_hit) m_miss 0 = Some m'
     /\ dcache_read_into (X := X_hit) 0 L m1 m')
  /\ (exists m',
        AXP_21264_Mbox_TryCaches (K := K21264) (X := X_wrap) m_miss 0 = Some m'
        /\ dcache_read_into (X := X_wrap) 0 L m1 m')
  /\ (exists m',
        AXP_21264_Mbox_TryCaches (K := K21264) (X := X_bhit) m_miss 0 = Some m'
        /\ dcache_read_into (X := X_bhit) 0 L m3 m')
  /\ (exists m',
        AXP_21264_Mbox_TryCaches (K := K21264) (X := X_miss) m_miss 0 = Some m'
        /\ M.calls m' = M.calls m2 ++ [Call_Add_MAF LDx 24576 0 None 8]
        /\ Q.state <$> get_lq m' 0 = Some LQReadPending
        /\ M.instrs m' = M.instrs m_miss).
Proof.
  intros L m1 m2 m3.
  split; [| split; [| split]].
  - destruct (TryCaches_probes_caches (K := K21264) (X := X_hit) m_miss 0 L
                (ins_of 4 LDQ 8192 24576) 0) as (m' & Hrun & Hhit & _).
    + lia.
    + reflexivity.
    + reflexivity.
    + reflexivity.
    + reflexivity.
    + vm_compute. reflexivity.
    + exists m'. split; [exact Hrun |]. apply Hhit. reflexivity.
  - destruct (TryCaches_probes_caches (K := K21264) (X := X_wrap) m_miss 0 L
                (ins_of 4 LDQ 8192 24576) 0) as (m' & Hrun & Hhit & _).
    + lia.
    + reflexivity.
    + reflexivity.
    + reflexivity.
    + reflexivity.
    + vm_compute. reflexivity.
    + exists m'. split; [exact Hrun |]. apply Hhit. reflexivity.
  - destruct (TryCaches_probes_caches (K := K21264) (X := X_bhit) m_miss 0 L
                (ins_of 4 LDQ 8192 24576) 0) as (m' & Hrun & _ & Hbhit & _).
    + lia.
    + reflexivity.
    + reflexivity.
    + reflexivity.
    + reflexivity.
    + vm_compute. reflexivity.
    + exists m'. split; [exact Hrun |]. apply Hbhit; [discriminate | reflexivity].
  - destruct (TryCaches_probes_caches (K := K21264) (X := X_miss) m_miss 0 L
                (ins_of 4 LDQ 8192 24576) 0) as (m' & Hrun & _ & _ & Hmiss).
    + lia.
    + reflexivity.
    + reflexivity.
    + reflexivity.
    + reflexivity.
    + vm_compute. reflexivity.
    + exists m'. split; [exact Hrun |]. apply Hmiss; discriminate.
Defined.

(** C1 at a load with [uniqueID] 11 and a store to the same address
    with [uniqueID] 12: the younger store is the forwarding source. *)
Lemma forward_source_age_reversed_witness :
  exists S si,
    get_sq (m_pair 12) 0 = Some S
    /\ deref (m_pair 12) (Q.instr S) = Some si
    /\ (Q.state S = Initial \/ Q.state S = SQWritePending \/ Q.state S = SQComplete)
    /\ Q.virtAddress S = 4096
    /\ Q.len S >= 1
    /\ 11 < Ins.uniqueID si
    /\ ~ Ins.uniqueID si < 11.
Proof.
  apply (forward_source_age_reversed (K := K21264) (m_pair 12)
           (Q.mk 0 4096 4096 1 (Some 256) LQReadPending false false)
           (ins_of 11 LDBU 8192 4096) 0).
  - unfold queue_len_ok. simpl. lia.
  - reflexivity.
  - vm_compute. reflexivity.
  - reflexivity.
  - vm_compute. reflexivity.
Defined.

(** The load with [uniqueID] 11 takes its value (171) from the store
    with [uniqueID] 12, without a cache access; from the store with
    [uniqueID] 10 it takes nothing and reads the Dcache instead. *)
Lemma forwards_from_younger_not_older :
  (exists m',
     AXP_21264_Mbox_TryCaches (K := K21264) (X := X_hit) (m_pair 12) 0 = Some m'
     /\ Ins.destv <$> deref m' (Some 256) = Some 171
     /\ Q.state <$> get_lq m' 0 = Some LQComplete
     /\ M.calls m' = [])
  /\ (exists m',
        AXP_21264_Mbox_TryCaches (K := K21264) (X := X_hit) (m_pair 10) 0 = Some m'
        /\ Ins.destv <$> deref m' (Some 256) = Some 119
        /\ M.calls m' = [Call_Dcache_Status 4096 4096; Call_DcacheRead 4096 4096 1]).
Proof.
  split; eexists; (split; [vm_compute; reflexivity |]); repeat split.
Qed.

(** C2 at three older stores to the load's address ([uniqueID] 5, 7
    and 9 against 10): each satisfies the forwarding predicate of the
    specification, the loop selects none of them, and the load's value
    (119) comes from the Dcache instead of the store with [uniqueID] 9
    (value 3). *)
Lemma youngest_older_store_not_selected :
  let L := Q.mk 0 8192 8192 1 (Some 256) LQReadPending false false in
  get_lq m_three 0 = Some L
  /\ spec_forwards_from m_three L 0 5
  /\ spec_forwards_from m_three L 1 7
  /\ spec_forwards_from m_three L 2 9
  /\ scan_sq (K := K21264) m_three L = Some (false, 0)
  /\ exists m',
       AXP_21264_Mbox_TryCaches (K := K21264) (X := X_hit) m_three 0 = Some m'
       /\ Ins.destv <$> deref m' (Some 256) = Some 119
       /\ M.calls m' = [Call_Dcache_Status 8192 8192; Call_DcacheRead 8192 8192 1].
Proof.
  intros L. split; [reflexivity |].
  assert (Hs : forall ii v a u pc,
             get_sq m_three ii = Some (Q.mk v 8192 8192 1 (Some a) Initial false false) ->
             M.instrs m_three !! a = Some (ins_of u (OtherOpcode 14) pc 8192) ->
             u < 10 -> spec_forwards_from m_three L ii u).
  { intros ii v a u pc G D Hu. eexists _, (ins_of 10 LDBU 8192 8192), _.
    split; [exact G |]. split; [reflexivity |]. split; [exact D |].
    split; [reflexivity |]. split; [reflexivity |]. split; [simpl; lia |].
    split; [simpl; lia | reflexivity]. }
  split; [apply (Hs 0 1 512 5 8180); [reflexivity | reflexivity | lia] |].
  split; [apply (Hs 1 2 768 7 8184); [reflexivity | reflexivity | lia] |].
  split; [apply (Hs 2 3 1024 9 8188); [reflexivity | reflexivity | lia] |].
  split; [vm_compute; reflexivity |].
  eexists. split; [vm_compute; reflexivity |]. split; reflexivity.
Qed.

(** C3 at a forwarded word load: the store's [value] is 4660 (0x1234),
    whose two low bytes are 4660; [destv] receives 48879 (0xBEEF), the
    two bytes host memory holds at address 4660.  When that address is
    not mapped the call does not return. *)
Lemma forward_word_reads_through_value :
  (exists m',
     AXP_21264_Mbox_TryCaches (K := K21264) (X := X_miss) (m_wide mem_beef) 0 = Some m'
     /\ Ins.destv <$> deref m' (Some 256) = Some 48879
     /\ Q.state <$> get_lq m' 0 = Some LQComplete)
  /\ Q.value <$> get_sq (m_wide mem_beef) 0 = Some 4660
  /\ low_bytes 2 4660 = 4660
  /\ AXP_21264_Mbox_TryCaches (K := K21264) (X := X_miss) (m_wide ∅) 0 = None.
Proof.
  split.
  - eexists. split; [vm_compute; reflexivity |]. split; reflexivity.
  - split; [reflexivity |]. split; [reflexivity |]. vm_compute. reflexivity.
Qed.

(** C8 at a CPU that has run: after [AXP_21264_Mbox_Init], block 0 of
    Dcache set 0 is the block it was, valid and with its data, while
    the blocks of set 1 are zeroed and [Invalid]. *)
Lemma Mbox_Init_keeps_stale_block :
  let cpu' := snd (AXP_21264_Mbox_Init (K := K21264) cpu_stale) in
  (CPU.dCache cpu' !! 0%nat ≫= (.!! 0%nat)) = Some stale_blk
  /\ DC.valid stale_blk = true
  /\ DC.state stale_blk <> Invalid
  /\ (CPU.dCache cpu' !! 1%nat ≫= (.!! 0%nat)) = Some zero_blk.
Proof.
  intros cpu'. split; [vm_compute; reflexivity |].
  split; [reflexivity |]. split; [discriminate |]. vm_compute. reflexivity.
Qed.

(** * Further properties of the code *)

(** ** Allocation and publication *)

Section Allocation_more.

Context {K : Constants}.

Lemma alloc_ret_free op cpu :
  queue_len_ok -> next_of_op op cpu < AXP_MBOX_QUEUE_LEN ->
  fst (alloc_ret op cpu) = next_of_op op cpu
  /\ next_of_op op (snd (alloc_ret op cpu)) = u32 (next_of_op op cpu + 1)
  /\ queue_of_op op (snd (alloc_ret op cpu)) =
       alter (Q.set_state Assigned) (Z.to_nat (next_of_op op cpu)) (queue_of_op op cpu).
Proof.
  intros HK Hlt. destruct op; simpl in *.
  - rewrite (GetLQSlot_free cpu HK Hlt). simpl. auto.
  - rewrite (GetSQSlot_free cpu HK Hlt). simpl. auto.
Qed.

Lemma alloc_ret_full op cpu :
  queue_len_ok -> AXP_MBOX_QUEUE_LEN <= next_of_op op cpu ->
  alloc_ret op cpu = (AXP_MBOX_QUEUE_LEN, cpu).
Proof.
  intros HK Hge. destruct op; simpl in *.
  - apply GetLQSlot_full; assumption.
  - apply GetSQSlot_full; assumption.
Qed.

(** Slots are handed out in order.  From a next-index [s], the [k]-th
    of [n] calls in a row of one allocator returns [s + k] while that
    is below the queue length and the sentinel afterwards; the
    next-index ends at [min (s + n) AXP_MBOX_QUEUE_LEN]. *)
Theorem alloc_n_in_order op (n : nat) : forall cpu,
  queue_len_ok ->
  0 <= next_of_op op cpu <= AXP_MBOX_QUEUE_LEN ->
  length (fst (alloc_n op n cpu)) = n
  /\ (forall k : nat, (k < n)%nat ->
        fst (alloc_n op n cpu) !! k =
          Some (Z.min (next_of_op op cpu + Z.of_nat k) AXP_MBOX_QUEUE_LEN))
  /\ next_of_op op (snd (alloc_n op n cpu)) =
       Z.min (next_of_op op cpu + Z.of_nat n) AXP_MBOX_QUEUE_LEN.
Proof.
  induction n as [| n IH]; intros cpu HK Hs.
  - simpl. split; [reflexivity |]. split; [intros k Hk; lia | lia].
  - pose proof HK as HK'. unfold queue_len_ok in HK'.
    simpl. destruct (alloc_ret op cpu) as [r cpu1] eqn:Hret.
    destruct (alloc_n op n cpu1) as [rs cpu2] eqn:Hrun.
    assert (Hr : r = Z.min (next_of_op op cpu) AXP_MBOX_QUEUE_LEN
                 /\ next_of_op op cpu1 =
                      Z.min (next_of_op op cpu + 1) AXP_MBOX_QUEUE_LEN).
    { destruct (Z.lt_ge_cases (next_of_op op cpu) AXP_MBOX_QUEUE_LEN) as [Hlt | Hge].
      - destruct (alloc_ret_free op cpu HK Hlt) as (E1 & E2 & _).
        rewrite Hret in E1, E2. simpl in E1, E2.
        rewrite E1, E2, u32_small by lia. lia.
      - rewrite (alloc_ret_full op cpu HK Hge) in Hret.
        injection Hret as <- <-. lia. }
    destruct Hr as [Er En].
    destruct (IH cpu1 HK) as (Hlen & Hk & Hnext); [lia |].
    rewrite Hrun in Hlen, Hk, Hnext. simpl in Hlen, Hk, Hnext.
    simpl. split; [lia |]. split.
    + intros [| k] Hlt; simpl.
      * rewrite Er. f_equal. lia.
      * rewrite Hk by lia. f_equal. lia.
    + rewrite Hnext. lia.
Qed.

(** An allocator writes its own next-index and the state of the slot
    it returns, and nothing else: the other queue, the other
    next-index and every other field of the CPU are as before, and
    every slot of its own queue keeps its address, value, width and
    descriptor pointer, the returned slot's included. *)
Theorem alloc_ret_frame op cpu :
  queue_len_ok ->
  let cpu' := snd (alloc_ret op cpu) in
  match op with
  | AllocLQ => CPU.set_lq (CPU.lq cpu) (CPU.set_lqNext (CPU.lqNext cpu) cpu') = cpu
  | AllocSQ => CPU.set_sq (CPU.sq cpu) (CPU.set_sqNext (CPU.sqNext cpu) cpu') = cpu
  end
  /\ forall (j : nat) (e' : Q.t),
       queue_of_op op cpu' !! j = Some e' ->
       exists e, queue_of_op op cpu !! j = Some e
                 /\ e' = Q.set_state (Q.state e') e
                 /\ (j <> Z.to_nat (fst (alloc_ret op cpu)) -> e' = e).
Proof.
  intros HK cpu'. subst cpu'.
  destruct (Z.lt_ge_cases (next_of_op op cpu) AXP_MBOX_QUEUE_LEN) as [Hlt | Hge].
  - destruct (alloc_ret_free op cpu HK Hlt) as (E1 & _ & E3). split.
    + destruct op; simpl in *.
      * rewrite (GetLQSlot_free cpu HK Hlt). destruct cpu; reflexivity.
      * rewrite (GetSQSlot_free cpu HK Hlt). destruct cpu; reflexivity.
    + intros j e'. rewrite E1, E3. intros Hj.
      destruct (decide (j = Z.to_nat (next_of_op op cpu))) as [-> | Hne].
      * rewrite list_lookup_alter_eq in Hj.
        destruct (queue_of_op op cpu !! Z.to_nat (next_of_op op cpu)) as [e |];
          [| discriminate].
        simpl in Hj. injection Hj as <-. exists e.
        split; [reflexivity |]. split; [destruct e; reflexivity | congruence].
      * rewrite list_lookup_alter_ne in Hj by congruence.
        exists e'. split; [exact Hj |]. split; [destruct e'; reflexivity | auto].
  - rewrite (alloc_ret_full op cpu HK Hge). simpl. split.
    + destruct op, cpu; reflexivity.
    + intros j e' Hj. exists e'. split; [exact Hj |].
      split; [destruct e'; reflexivity | auto].
Qed.

Lemma calls_of_nonneg op ops : 0 <= calls_of op ops.
Proof.
  induction ops as [| o ops IH]; simpl; [lia |].
  destruct op, o; lia.
Qed.

Lemma iterate_alter_length {A : Type} (f : A -> A) (n : nat) :
  forall (ii : Z) (a : list A),
    length (iterate_from n ii (fun k => alter f (Z.to_nat k)) a) = length a.
Proof.
  induction n as [| n IH]; intros ii a; simpl; [reflexivity |].
  rewrite IH. apply length_alter.
Qed.

(** The reset leaves every slot of a queue [QNotInUse]. *)
Lemma allocated_prefix_init (q : list Q.t) :
  length q = Z.to_nat AXP_MBOX_QUEUE_LEN ->
  allocated_prefix (init_array 0 AXP_MBOX_QUEUE_LEN init_queue_entry q) 0.
Proof.
  intros Hlen ii Hii. rewrite init_array_lookup by lia.
  destruct (decide _) as [Hin | Hout]; [| lia].
  destruct (lookup_lt_is_Some_2 q ii) as [e ->]; [lia |].
  destruct (Z.ltb_spec (Z.of_nat ii) 0); [lia | reflexivity].
Qed.

(** Handing out the slot at [next] extends the prefix by one. *)
Lemma allocated_prefix_step (q : list Q.t) (next : Z) :
  0 <= next < AXP_MBOX_QUEUE_LEN ->
  length q = Z.to_nat AXP_MBOX_QUEUE_LEN ->
  allocated_prefix q next ->
  allocated_prefix (alter (Q.set_state Assigned) (Z.to_nat next) q) (next + 1).
Proof.
  intros Hn Hlen Hp ii Hii.
  destruct (decide (ii = Z.to_nat next)) as [-> | Hne].
  - rewrite alter_state_lookup by lia.
    destruct (Z.ltb_spec (Z.of_nat (Z.to_nat next)) (next + 1)); [reflexivity | lia].
  - rewrite list_lookup_alter_ne by congruence. rewrite (Hp ii Hii).
    destruct (Z.ltb_spec (Z.of_nat ii) next), (Z.ltb_spec (Z.of_nat ii) (next + 1));
      first [reflexivity | lia].
Qed.

(** The state of both queues a run of allocator calls maintains. *)
Lemma alloc_step_prefix o c :
  queue_len_ok ->
  length (CPU.lq c) = Z.to_nat AXP_MBOX_QUEUE_LEN ->
  length (CPU.sq c) = Z.to_nat AXP_MBOX_QUEUE_LEN ->
  0 <= CPU.lqNext c <= AXP_MBOX_QUEUE_LEN ->
  0 <= CPU.sqNext c <= AXP_MBOX_QUEUE_LEN ->
  allocated_prefix (CPU.lq c) (CPU.lqNext c) ->
  allocated_prefix (CPU.sq c) (CPU.sqNext c) ->
  let c1 := alloc_step o c in
  length (CPU.lq c1) = Z.to_nat AXP_MBOX_QUEUE_LEN
  /\ length (CPU.sq c1) = Z.to_nat AXP_MBOX_QUEUE_LEN
  /\ allocated_prefix (CPU.lq c1) (CPU.lqNext c1)
  /\ allocated_prefix (CPU.sq c1) (CPU.sqNext c1)
  /\ forall op, next_of_op op c1 =
                  Z.min (next_of_op op c + calls_of op [o]) AXP_MBOX_QUEUE_LEN.
Proof.
  intros HK Hlq Hsq Hln Hsn Hpl Hps c1. subst c1.
  pose proof HK as HK'. unfold queue_len_ok in HK'.
  destruct o; simpl.
  - destruct (Z.lt_ge_cases (CPU.lqNext c) AXP_MBOX_QUEUE_LEN) as [Hlt | Hge].
    + rewrite (GetLQSlot_free c HK Hlt). simpl.
      rewrite length_alter, u32_small by lia.
      split; [exact Hlq |]. split; [exact Hsq |].
      split; [apply allocated_prefix_step; [lia | assumption ..] |].
      split; [exact Hps |]. intros []; simpl; lia.
    + rewrite (GetLQSlot_full c HK Hge). simpl.
      do 4 (split; [assumption |]). intros []; simpl; lia.
  - destruct (Z.lt_ge_cases (CPU.sqNext c) AXP_MBOX_QUEUE_LEN) as [Hlt | Hge].
    + rewrite (GetSQSlot_free c HK Hlt). simpl.
      rewrite length_alter, u32_small by lia.
      split; [exact Hlq |]. split; [exact Hsq |]. split; [exact Hpl |].
      split; [apply allocated_prefix_step; [lia | assumption ..] |].
      intros []; simpl; lia.
    + rewrite (GetSQSlot_full c HK Hge). simpl.
      do 4 (split; [assumption |]). intros []; simpl; lia.
Qed.

Lemma alloc_run_prefix ops : forall c,
  queue_len_ok ->
  length (CPU.lq c) = Z.to_nat AXP_MBOX_QUEUE_LEN ->
  length (CPU.sq c) = Z.to_nat AXP_MBOX_QUEUE_LEN ->
  0 <= CPU.lqNext c <= AXP_MBOX_QUEUE_LEN ->
  0 <= CPU.sqNext c <= AXP_MBOX_QUEUE_LEN ->
  allocated_prefix (CPU.lq c) (CPU.lqNext c) ->
  allocated_prefix (CPU.sq c) (CPU.sqNext c) ->
  forall op,
    next_of_op op (alloc_run ops c) =
      Z.min (next_of_op op c + calls_of op ops) AXP_MBOX_QUEUE_LEN
    /\ allocated_prefix (queue_of_op op (alloc_run ops c))
         (next_of_op op (alloc_run ops c)).
Proof.
  induction ops as [| o ops IH]; intros c HK Hlq Hsq Hln Hsn Hpl Hps op.
  - simpl. split; [destruct op; simpl; lia | destruct op; assumption].
  - change (alloc_run (o :: ops) c) with (alloc_run ops (alloc_step o c)).
    destruct (alloc_step_prefix o c HK Hlq Hsq Hln Hsn Hpl Hps)
      as (Hlq1 & Hsq1 & Hpl1 & Hps1 & Hn1).
    pose proof (Hn1 AllocLQ) as Hl1. pose proof (Hn1 AllocSQ) as Hs1.
    pose proof (calls_of_nonneg AllocLQ [o]) as Hc1.
    pose proof (calls_of_nonneg AllocSQ [o]) as Hc2.
    simpl next_of_op in Hl1, Hs1.
    destruct (IH (alloc_step o c) HK Hlq1 Hsq1) with (op := op)
      as [Hnext Hpre]; try assumption; try lia.
    split; [| exact Hpre].
    rewrite Hnext, (Hn1 op).
    pose proof (calls_of_nonneg op ops) as Hc3.
    assert (Hcons : calls_of op (o :: ops) = calls_of op [o] + calls_of op ops)
      by (destruct op, o; simpl; lia).
    rewrite Hcons.
    pose proof (calls_of_nonneg op [o]) as Hc4.
    assert (Hb : 0 <= next_of_op op c <= AXP_MBOX_QUEUE_LEN)
      by (destruct op; simpl; lia).
    lia.
Qed.

(** Between two resets each queue is an allocated prefix.  After
    [AXP_21264_Mbox_Init] and any sequence of calls of the two
    allocators, the next-index of a queue is the number of calls of its
    allocator, capped at [AXP_MBOX_QUEUE_LEN]; the slots below it are
    [Assigned] and the slots from it to the end of the queue are still
    [QNotInUse]. *)
Theorem allocated_prefix_invariant cpu ops op :
  queue_len_ok ->
  length (CPU.lq cpu) = Z.to_nat AXP_MBOX_QUEUE_LEN ->
  length (CPU.sq cpu) = Z.to_nat AXP_MBOX_QUEUE_LEN ->
  let c := alloc_run ops (snd (AXP_21264_Mbox_Init cpu)) in
  next_of_op op c = Z.min (calls_of op ops) AXP_MBOX_QUEUE_LEN
  /\ allocated_prefix (queue_of_op op c) (next_of_op op c).
Proof.
  intros HK Hlq Hsq c. subst c.
  pose proof HK as HK'. unfold queue_len_ok in HK'.
  destruct (alloc_run_prefix ops (snd (AXP_21264_Mbox_Init cpu)) HK) with (op := op)
    as [Hnext Hpre].
  - unfold AXP_21264_Mbox_Init, init_array, for_range. simpl.
    rewrite iterate_alter_length. exact Hlq.
  - unfold AXP_21264_Mbox_Init, init_array, for_range. simpl.
    rewrite iterate_alter_length. exact Hsq.
  - simpl. lia.
  - simpl. lia.
  - apply allocated_prefix_init, Hlq.
  - apply allocated_prefix_init, Hsq.
  - split; [| exact Hpre]. rewrite Hnext. destruct op; simpl; f_equal.
Qed.

End Allocation_more.

Section Publication.

Context {K : Constants} {X : Externals}.

(** Allocate, then publish.  With room in the load queue, the slot
    [AXP_21264_Mbox_GetLQSlot] returns accepts
    [AXP_21264_Mbox_ReadMem]; afterwards that slot is [Initial] with
    the given address and descriptor, every other load-queue slot is as
    before the allocation, and the next-index has grown by one.  The
    same holds for [AXP_21264_Mbox_GetSQSlot] and
    [AXP_21264_Mbox_WriteMem], with the value. *)
Theorem allocate_then_publish m instr virtAddr value :
  queue_len_ok -> cpu_wf (M.cpu m) ->
  (CPU.lqNext (M.cpu m) < AXP_MBOX_QUEUE_LEN ->
   let '(r, cpu') := AXP_21264_Mbox_GetLQSlot (M.cpu m) in
   exists m' e,
     AXP_21264_Mbox_ReadMem (M.set_cpu cpu' m) instr r virtAddr = Some m'
     /\ get_lq m' r = Some e
     /\ Q.state e = Initial /\ Q.virtAddress e = virtAddr /\ Q.instr e = instr
     /\ (forall j, j <> r -> get_lq m' j = get_lq m j)
     /\ CPU.lqNext (M.cpu m') = CPU.lqNext (M.cpu m) + 1)
  /\ (CPU.sqNext (M.cpu m) < AXP_MBOX_QUEUE_LEN ->
      let '(r, cpu') := AXP_21264_Mbox_GetSQSlot (M.cpu m) in
      exists m' e,
        AXP_21264_Mbox_WriteMem (M.set_cpu cpu' m) instr r virtAddr value = Some m'
        /\ get_sq m' r = Some e
        /\ Q.state e = Initial /\ Q.virtAddress e = virtAddr /\ Q.instr e = instr
        /\ Q.value e = value
        /\ (forall j, j <> r -> get_sq m' j = get_sq m j)
        /\ CPU.sqNext (M.cpu m') = CPU.sqNext (M.cpu m) + 1).
Proof.
  intros HK (Hlq & Hsq & Hln & Hsn).
  pose proof HK as HK'. unfold queue_len_ok in HK'.
  split; intros Hlt.
  - rewrite (GetLQSlot_free _ HK Hlt).
    destruct (lookup_lt_is_Some_2 (CPU.lq (M.cpu m)) (Z.to_nat (CPU.lqNext (M.cpu m))))
      as [e0 He0]; [lia |].
    unfold AXP_21264_Mbox_ReadMem, get_lq, upd_lq. simpl.
    destruct (Z.leb_spec 0 (CPU.lqNext (M.cpu m))); [| lia].
    rewrite !list_lookup_alter_eq, He0. simpl.
    eexists _, _. split; [reflexivity |]. simpl.
    rewrite !list_lookup_alter_eq, He0. simpl.
    split; [reflexivity |]. repeat (split; [reflexivity |]).
    split; [| rewrite u32_small by lia; reflexivity].
    intros j Hj. destruct (0 <=? j) eqn:Hj0; [| reflexivity].
    apply Z.leb_le in Hj0.
    rewrite !list_lookup_alter_ne by lia. reflexivity.
  - rewrite (GetSQSlot_free _ HK Hlt).
    destruct (lookup_lt_is_Some_2 (CPU.sq (M.cpu m)) (Z.to_nat (CPU.sqNext (M.cpu m))))
      as [e0 He0]; [lia |].
    unfold AXP_21264_Mbox_WriteMem, get_sq, upd_sq. simpl.
    destruct (Z.leb_spec 0 (CPU.sqNext (M.cpu m))); [| lia].
    rewrite !list_lookup_alter_eq, He0. simpl.
    eexists _, _. split; [reflexivity |]. simpl.
    rewrite !list_lookup_alter_eq, He0. simpl.
    split; [reflexivity |]. repeat (split; [reflexivity |]).
    split; [| rewrite u32_small by lia; reflexivity].
    intros j Hj. destruct (0 <=? j) eqn:Hj0; [| reflexivity].
    apply Z.leb_le in Hj0.
    rewrite !list_lookup_alter_ne by lia. reflexivity.
Qed.

(** The sentinel is not a slot.  When a queue is full, publishing into
    the value its allocator returns indexes the queue array one past
    its end: [AXP_21264_Mbox_ReadMem] and [AXP_21264_Mbox_WriteMem]
    do not check the slot. *)
Theorem publish_at_sentinel_out_of_bounds m instr virtAddr value :
  queue_len_ok -> cpu_wf (M.cpu m) ->
  (lq_full (M.cpu m) ->
   AXP_21264_Mbox_ReadMem m instr (fst (AXP_21264_Mbox_GetLQSlot (M.cpu m))) virtAddr
     = None)
  /\ (sq_full (M.cpu m) ->
      AXP_21264_Mbox_WriteMem m instr (fst (AXP_21264_Mbox_GetSQSlot (M.cpu m)))
        virtAddr value = None).
Proof.
  intros HK (Hlq & Hsq & _ & _).
  pose proof HK as HK'. unfold queue_len_ok in HK'.
  split; intros Hfull.
  - rewrite (GetLQSlot_full _ HK Hfull). simpl.
    unfold AXP_21264_Mbox_ReadMem, get_lq.
    destruct (0 <=? AXP_MBOX_QUEUE_LEN); [| reflexivity].
    rewrite lookup_ge_None_2 by lia. reflexivity.
  - rewrite (GetSQSlot_full _ HK Hfull). simpl.
    unfold AXP_21264_Mbox_WriteMem, get_sq.
    destruct (0 <=? AXP_MBOX_QUEUE_LEN); [| reflexivity].
    rewrite lookup_ge_None_2 by lia. reflexivity.
Qed.

End Publication.

(** ** More on forwarding and cache probing *)

Section TryCaches_more.

Context {K : Constants} {X : Externals}.

Lemma iterate_fromM_fixed {A : Type} (body : Z -> A -> option A) (a : A) (n : nat) :
  forall ii,
    (forall j, ii <= j < ii + Z.of_nat n -> body j a = Some a) ->
    iterate_fromM n ii body a = Some a.
Proof.
  induction n as [| n IH]; intros ii H; simpl; [reflexivity |].
  rewrite H by lia. simpl. apply IH. intros j Hj. apply H. lia.
Qed.

Lemma get_sq_elem m ii e : get_sq m ii = Some e -> In e (CPU.sq (M.cpu m)).
Proof.
  unfold get_sq. destruct (0 <=? ii); [| discriminate]. intros H.
  apply list_elem_of_In. eapply list_elem_of_lookup_2. exact H.
Qed.

Lemma get_lq_elem m ii e : get_lq m ii = Some e -> In e (CPU.lq (M.cpu m)).
Proof.
  unfold get_lq. destruct (0 <=? ii); [| discriminate]. intros H.
  apply list_elem_of_In. eapply list_elem_of_lookup_2. exact H.
Qed.

(** An iteration over an entry that is not in process leaves the
    locals alone. *)
Lemma scan_body_skip m L j acc :
  length (CPU.sq (M.cpu m)) = Z.to_nat AXP_MBOX_QUEUE_LEN ->
  no_store_in_process m = true ->
  0 <= j < AXP_MBOX_QUEUE_LEN ->
  scan_body m L j acc = Some acc.
Proof.
  intros Hlen Hno Hj. unfold scan_body. destruct acc as [found nx].
  destruct (get_sq_in_range m j Hlen Hj) as [e He].
  rewrite He. simpl.
  unfold no_store_in_process in Hno. rewrite forallb_forall in Hno.
  specialize (Hno e (get_sq_elem m j e He)).
  apply negb_true_iff in Hno. rewrite Hno. reflexivity.
Qed.

(** With no store in flight the loop finds nothing and dereferences
    nothing: when no store-queue entry is [Initial], [SQWritePending]
    or [SQComplete], the locals end as [(false, 0)] for every load,
    also for one whose descriptor pointer is NULL or dangling. *)
Theorem scan_sq_nothing_in_process m L :
  queue_len_ok ->
  length (CPU.sq (M.cpu m)) = Z.to_nat AXP_MBOX_QUEUE_LEN ->
  no_store_in_process m = true ->
  scan_sq m L = Some (false, 0).
Proof.
  intros HK Hlen Hno. pose proof HK as HK'. unfold queue_len_ok in HK'.
  unfold scan_sq, for_rangeM. apply iterate_fromM_fixed.
  intros j Hj. apply scan_body_skip; [exact Hlen | exact Hno | lia].
Qed.

(** The two shapes of the machine after
    [AXP_21264_Mbox_TryCaches]: only the call log has grown, or the
    entry is [LQComplete] and [destv] of its instruction is written. *)
Lemma TryCaches_normal_form m entry m' :
  AXP_21264_Mbox_TryCaches m entry = Some m' ->
  exists L cs,
    get_lq m (u8 entry) = Some L
    /\ (m' = M.mk (M.cpu m) (M.instrs m) (M.memory m) (M.calls m ++ cs)
        \/ exists a i v,
             Q.instr L = Some a /\ M.instrs m !! a = Some i
             /\ m' = upd_lq (u8 entry) (Q.set_state LQComplete)
                       (M.mk (M.cpu m) (<[a := Ins.set_destv v i]> (M.instrs m))
                          (M.memory m) (M.calls m ++ cs))).
Proof.
  unfold AXP_21264_Mbox_TryCaches.
  destruct (get_lq m (u8 entry)) as [L |] eqn:HL; simpl; [| discriminate].
  destruct (scan_sq m L) as [[found nx] |]; simpl; [| discriminate].
  assert (Hstore : forall mc v1 v2 cs1 cs2 mr,
             M.cpu mc = M.cpu m -> M.instrs mc = M.instrs m ->
             M.memory mc = M.memory m -> M.calls mc = M.calls m ++ cs1 ->
             (m0 ← store_instr mc (Q.instr L) (Ins.set_destv v1);
              m2 ← store_instr
                     (M.mk (M.cpu m0) (M.instrs m0) (M.memory m0) (M.calls m0 ++ cs2))
                     (Q.instr L) (Ins.set_destv v2);
              Some (upd_lq (u8 entry) (Q.set_state LQComplete) m2)) = Some mr ->
             exists a i, Q.instr L = Some a /\ M.instrs m !! a = Some i
               /\ mr = upd_lq (u8 entry) (Q.set_state LQComplete)
                         (M.mk (M.cpu m) (<[a := Ins.set_destv v2 i]> (M.instrs m))
                            (M.memory m) (M.calls m ++ (cs1 ++ cs2)))).
  { intros mc v1 v2 cs1 cs2 mr Ec Ei Em El.
    unfold store_instr. destruct (Q.instr L) as [a |]; simpl; [| discriminate].
    rewrite Ei. destruct (M.instrs m !! a) as [i |] eqn:Ha; simpl; [| discriminate].
    rewrite lookup_insert_eq. simpl. rewrite insert_insert_eq.
    intros [= <-]. exists a, i. split; [reflexivity |]. split; [exact Ha |].
    rewrite Ec, Em, El, <- app_assoc. reflexivity. }
  destruct found; simpl.
  - (* forwarding *)
    intros H. exists L, [].
    split; [reflexivity |]. right.
    destruct (store_instr m (Q.instr L) (Ins.set_destv 0)) as [m0 |] eqn:H0;
      simpl in H; [| discriminate].
    destruct (get_sq m0 nx) as [sqe |]; simpl in H; [| discriminate].
    destruct (forward_value m0 (Q.len L) sqe 0) as [v |]; simpl in H; [| discriminate].
    destruct (Hstore m 0 v [] [] m') as (a & i & Ea & Ei & ->);
      try reflexivity; [rewrite app_nil_r; reflexivity | |].
    + rewrite H0. simpl.
      replace (M.mk (M.cpu m0) (M.instrs m0) (M.memory m0) (M.calls m0 ++ []))
        with m0 by (destruct m0; simpl; rewrite app_nil_r; reflexivity).
      exact H.
    + exists a, i, v. auto.
  - (* cache probing *)
    set (va := Q.virtAddress L). set (pa := Q.physAddress L).
    destruct (Z.eqb_spec (u8 (AXP_Dcache_Status m va pa)) AXP_21264_CACHE_HIT)
      as [Hd | Hd]; simpl.
    + intros H. exists L.
      set (m1 := M.call (Call_Dcache_Status va pa) m) in *.
      destruct (store_instr m1 (Q.instr L) (Ins.set_destv 0)) as [m0 |] eqn:H0;
        simpl in H; [| discriminate].
      destruct (AXP_DcacheRead m0 va pa (Q.len L)) as [rv v] eqn:Hr.
      destruct (Hstore m1 0 v [Call_Dcache_Status va pa]
                  [Call_DcacheRead va pa (Q.len L)] m')
        as (a & i & Ea & Ei & ->); try reflexivity.
      * rewrite H0. simpl. exact H.
      * eexists. split; [reflexivity |]. right. exists a, i, v. auto.
    + set (m1 := M.call (Call_Dcache_Status va pa) m).
      destruct (Z.eqb_spec (u8 (AXP_21264_Bcache_Status m1 pa)) AXP_21264_CACHE_HIT)
        as [Hb | Hb]; simpl.
      * intros H. exists L.
        set (m3 := M.call (Call_CopyBcacheToDcache va pa)
                     (M.call (Call_Bcache_Status pa) m1)) in *.
        destruct (store_instr m3 (Q.instr L) (Ins.set_destv 0)) as [m0 |] eqn:H0;
          simpl in H; [| discriminate].
        destruct (AXP_DcacheRead m0 va pa (Q.len L)) as [rv v] eqn:Hr.
        destruct (Hstore m3 0 v
                    [Call_Dcache_Status va pa; Call_Bcache_Status pa;
                     Call_CopyBcacheToDcache va pa]
                    [Call_DcacheRead va pa (Q.len L)] m')
          as (a & i & Ea & Ei & ->); try reflexivity.
        -- subst m3 m1. simpl. rewrite <- !app_assoc. reflexivity.
        -- rewrite H0. simpl. exact H.
        -- eexists. split; [reflexivity |]. right. exists a, i, v. auto.
      * intros [= <-]. exists L. eexists. split; [reflexivity |]. left.
        subst m1. unfold M.call. simpl. rewrite <- !app_assoc. reflexivity.
Qed.

(** What [AXP_21264_Mbox_TryCaches] can change of the queues and the
    descriptors.  Whenever it returns, the store queue, both
    next-indices and the other load-queue entries are as before; the
    entry it was called for is as before or differs in its state only,
    then [LQComplete]; the descriptors are as before, except for
    [destv] of that entry's instruction; the call log has only grown.
    What [AXP_21264_CopyBcacheToDcache], [AXP_21264_Add_MAF] and
    [AXP_DcacheRead] write into the Dcache and the MAF is not part of
    the statement. *)
Theorem TryCaches_effect m entry m' :
  AXP_21264_Mbox_TryCaches m entry = Some m' ->
  load_entry_frame (u8 entry) m m'.
Proof.
  intros Hrun. unfold load_entry_frame.
  destruct (TryCaches_normal_form m entry m' Hrun) as (L & cs & HL & Hm').
  assert (Hu : 0 <= u8 entry) by (unfold u8; apply Z.mod_pos_bound; lia).
  destruct Hm' as [-> | (a & i & v & Ea & Ei & ->)]; simpl.
  - do 3 (split; [reflexivity |]).
    split; [exists cs; reflexivity |]. split; [reflexivity |].
    exists L, L. split; [exact HL |]. split; [exact HL |]. split; [left; reflexivity |].
    intros b ib Hb. exists ib. split; [exact Hb | left; reflexivity].
  - do 3 (split; [reflexivity |]).
    split; [exists cs; reflexivity |].
    split.
    + intros j Hj. unfold get_lq. simpl. destruct (Z.leb_spec 0 j); [| reflexivity].
      apply list_lookup_alter_ne. lia.
    + exists L, (Q.set_state LQComplete L). split; [exact HL |].
      split; [apply (get_lq_upd_lq _ (u8 entry) (Q.set_state LQComplete)); exact HL |].
      split; [right; reflexivity |].
      intros b ib Hb. destruct (decide (b = a)) as [-> | Hne].
      * exists (Ins.set_destv v i). split; [apply lookup_insert_eq |].
        right. split; [exact Ea |]. exists v. congruence.
      * exists ib. split; [rewrite lookup_insert_ne by congruence; exact Hb |].
        left. reflexivity.
Qed.

(** Forwarding makes no call into the cache hierarchy.  When the loop
    has selected a store and [AXP_21264_Mbox_TryCaches] returns, the
    call log is the one it was called with (no Dcache or Bcache probe,
    no read, no MAF entry) and the entry is [LQComplete]. *)
Theorem TryCaches_forward_calls_nothing m entry L nx m' :
  get_lq m (u8 entry) = Some L ->
  scan_sq m L = Some (true, nx) ->
  AXP_21264_Mbox_TryCaches m entry = Some m' ->
  M.calls m' = M.calls m
  /\ Q.state <$> get_lq m' (u8 entry) = Some LQComplete.
Proof.
  intros HL Hscan. unfold AXP_21264_Mbox_TryCaches.
  rewrite HL. simpl. rewrite Hscan. simpl.
  unfold store_instr.
  destruct (Q.instr L) as [a |]; simpl; [| discriminate].
  destruct (M.instrs m !! a) as [i |]; simpl; [| discriminate].
  match goal with |- context [get_sq ?mm nx] => change (get_sq mm nx) with (get_sq m nx) end.
  destruct (get_sq m nx) as [sqe |]; simpl; [| discriminate].
  match goal with |- context [forward_value ?mm] => destruct (forward_value mm (Q.len L) sqe 0) as [v |] end;
    simpl; [| discriminate].
  rewrite lookup_insert_eq. simpl. intros [= <-].
  split; [reflexivity |].
  erewrite get_lq_upd_lq; [reflexivity |]. exact HL.
Qed.

(** The loop keeps the greatest [uniqueID].  Among the store-queue
    entries that pass the loop's own test for a load (in process, same
    virtual address, at least the load's width, and
    [lqEntry->instr->uniqueID < cpu->sq[ii].instr->uniqueID]), the one
    selected has the greatest [uniqueID]; and a store is selected as
    soon as one entry passes. *)
Theorem scan_selects_greatest_passing m L li :
  queue_len_ok ->
  length (CPU.sq (M.cpu m)) = Z.to_nat AXP_MBOX_QUEUE_LEN ->
  sq_ptrs_ok m = true ->
  deref m (Q.instr L) = Some li ->
  exists found nx,
    scan_sq m L = Some (found, nx)
    /\ (found = true ->
        exists un, code_forwards_from m L nx un
          /\ forall j uj, 0 <= j < AXP_MBOX_QUEUE_LEN ->
               code_forwards_from m L j uj -> uj <= un)
    /\ (found = false <->
        forall j uj, 0 <= j < AXP_MBOX_QUEUE_LEN -> ~ code_forwards_from m L j uj).
Proof.
  intros HK Hlen Hptr Hd.
  destruct (scan_sq_spec m L li HK Hlen Hptr Hd) as ([found nx] & Hrun & Ht & Hf).
  exists found, nx. split; [exact Hrun |]. split.
  - intros E. destruct (Ht E) as (_ & un & Hq & Hmax). exists un. auto.
  - split; [exact Hf |].
    intros Hnone. destruct found; [| reflexivity].
    destruct (Ht eq_refl) as (Hr & un & Hq & _).
    exfalso. exact (Hnone nx un Hr Hq).
Qed.

End TryCaches_more.

(** ** More on [AXP_21264_Mbox_LQ_Init] *)

Section LQ_Init_more.

Context {K : Constants} {X : Externals}.

(** The width switch, case by case. *)
Lemma set_load_len_cases m entry L ins :
  get_lq m entry = Some L ->
  deref m (Q.instr L) = Some ins ->
  exists m1 L1 ins1,
    set_load_len m entry L ins = Some m1
    /\ get_lq m1 entry = Some L1
    /\ deref m1 (Q.instr L) = Some ins1
    /\ M.calls m1 = M.calls m
    /\ match Ins.opcode ins with
       | OtherOpcode _ => L1 = L /\ ins1 = ins
       | HW_LD =>
           L1 = Q.set_len (if AXP_HW_LD_LONGWORD =? 0 then 8 else 4) L
           /\ ins1 = Ins.set_len_stall AXP_HW_LD_LONGWORD ins
       | _ => load_width_ok (Q.len L1) /\ L1 = Q.set_len (Q.len L1) L /\ ins1 = ins
       end.
Proof.
  intros HL Hd.
  assert (Hupd : forall n, load_width_ok n ->
             exists m1 L1 ins1,
               Some (upd_lq entry (Q.set_len n) m) = Some m1
               /\ get_lq m1 entry = Some L1
               /\ deref m1 (Q.instr L) = Some ins1
               /\ M.calls m1 = M.calls m
               /\ load_width_ok (Q.len L1) /\ L1 = Q.set_len (Q.len L1) L /\ ins1 = ins).
  { intros n Hn. exists (upd_lq entry (Q.set_len n) m), (Q.set_len n L), ins.
    split; [reflexivity |]. split; [apply get_lq_upd_lq; exact HL |].
    split; [exact Hd |]. split; [reflexivity |]. split; [exact Hn |].
    split; reflexivity. }
  unfold set_load_len, load_width_ok in *.
  destruct (Ins.opcode ins) eqn:Hop;
    try (apply Hupd; lia).
  - destruct (deref_Some _ _ _ Hd) as (a & Ha & Hi). rewrite Ha.
    rewrite (store_instr_Some m a ins _ Hi). simpl.
    set (m0 := M.set_instrs _ m).
    destruct (Z.eqb_spec AXP_HW_LD_LONGWORD 0) as [E0 | E0]; simpl.
    + exists (upd_lq entry (Q.set_len 8) m0), (Q.set_len 8 L),
        (Ins.set_len_stall AXP_HW_LD_LONGWORD ins).
      split; [reflexivity |].
      split; [apply (get_lq_upd_lq m0); exact HL |].
      split; [unfold deref; simpl; apply lookup_insert_eq |].
      split; [reflexivity |]. split; reflexivity.
    + exists (upd_lq entry (Q.set_len 4) m0), (Q.set_len 4 L),
        (Ins.set_len_stall AXP_HW_LD_LONGWORD ins).
      split; [reflexivity |].
      split; [apply (get_lq_upd_lq m0); exact HL |].
      split; [unfold deref; simpl; apply lookup_insert_eq |].
      split; [reflexivity |]. split; reflexivity.
  - exists m, L, ins. repeat (split; [first [reflexivity | assumption] |]).
    reflexivity.
Qed.

(** Where the entry and its descriptor are once
    [AXP_21264_Mbox_LQ_Init] has returned: the entry has the width the
    switch gave it and the descriptor the [len_stall] the switch left. *)
Lemma LQ_Init_entry m entry L ins m' :
  0 <= entry < 256 ->
  get_lq m entry = Some L ->
  deref m (Q.instr L) = Some ins ->
  AXP_21264_Mbox_LQ_Init m entry = Some m' ->
  exists m1 L1 ins1 L' ins',
    set_load_len m entry L ins = Some m1
    /\ get_lq m1 entry = Some L1
    /\ deref m1 (Q.instr L) = Some ins1
    /\ get_lq m' entry = Some L'
    /\ Q.len L' = Q.len L1
    /\ deref m' (Q.instr L) = Some ins'
    /\ Ins.len_stall ins' = Ins.len_stall ins1.
Proof.
  intros He HL Hd.
  destruct (set_load_len_cases m entry L ins HL Hd)
    as (m1 & L1 & ins1 & Hset & HL1 & Hd1 & _ & Hcase).
  assert (Ein : Q.instr L1 = Q.instr L).
  { destruct (Ins.opcode ins);
      first [ destruct Hcase as (_ & Hc2 & _); rewrite Hc2; reflexivity
            | destruct Hcase as [Hc1 _]; rewrite Hc1; reflexivity ]. }
  unfold AXP_21264_Mbox_LQ_Init. rewrite (u8_small entry He).
  rewrite HL. simpl. rewrite Hd. simpl. rewrite Hset. simpl.
  rewrite HL1. simpl. rewrite Ein, Hd1. simpl.
  destruct (AXP_va2pa m1 (Q.virtAddress L1) (Ins.pc ins1) true Read) as [[pa asm] fault].
  set (m2 := upd_lq entry (Q.set_physAddress pa)
               (M.call (Call_va2pa (Q.virtAddress L1) (Ins.pc ins1) true Read) m1)).
  assert (HL2 : get_lq m2 entry = Some (Q.set_physAddress pa L1)).
  { subst m2. apply get_lq_upd_lq. exact HL1. }
  assert (Hd2 : deref m2 (Q.instr L) = Some ins1) by exact Hd1.
  destruct (Z.eqb_spec pa 0) as [Hpa | Hpa]; simpl.
  - intros [= <-]. exists m1, L1, ins1, (Q.set_physAddress pa L1), ins1.
    repeat (split; [first [assumption | reflexivity] |]). reflexivity.
  - set (m3 := upd_lq entry (Q.set_state LQReadPending)
                 (upd_lq entry (Q.set_IOflag (AXP_21264_IS_IO_ADDR pa)) m2)).
    assert (HL3 : get_lq m3 entry =
                  Some (Q.set_state LQReadPending
                          (Q.set_IOflag (AXP_21264_IS_IO_ADDR pa)
                             (Q.set_physAddress pa L1)))).
    { subst m3. apply get_lq_upd_lq, get_lq_upd_lq. exact HL2. }
    assert (Hd3 : deref m3 (Q.instr L) = Some ins1) by exact Hd1.
    destruct (AXP_21264_IS_IO_ADDR pa) eqn:Hio; simpl.
    + intros [= <-]. eexists m1, L1, ins1, _, ins1.
      repeat (split; [first [assumption | reflexivity | exact HL3] |]). reflexivity.
    + intros Htry.
      destruct (TryCaches_normal_form _ _ _ Htry) as (L3 & cs & G3 & Hm').
      rewrite (u8_small entry He) in G3, Hm'.
      fold m2 in G3, Hm'. fold m3 in G3, Hm'.
      rewrite HL3 in G3. injection G3 as <-.
      destruct Hm' as [-> | (a & i & v & Ea & Ei & ->)].
      * eexists m1, L1, ins1, _, ins1.
        repeat (split; [first [assumption | reflexivity | exact HL3] |]). reflexivity.
      * simpl in Ea.
        assert (i = ins1).
        { unfold deref in Hd3. rewrite <- Ein, Ea in Hd3.
          change (M.instrs m1 !! a = Some ins1) in Hd3.
          change (M.instrs m1 !! a = Some i) in Ei. congruence. }
        subst i.
        eexists m1, L1, ins1, _, (Ins.set_destv v ins1).
        split; [reflexivity |]. split; [assumption |]. split; [assumption |].
        split; [apply get_lq_upd_lq; exact HL3 |].
        split; [reflexivity |].
        split; [| reflexivity].
        unfold deref. rewrite <- Ein, Ea. simpl. apply lookup_insert_eq.
Qed.

(** The width of a load.  Whenever [AXP_21264_Mbox_LQ_Init] returns,
    the entry's width is 1, 2, 4 or 8 for each opcode the switch
    names; for any other opcode the switch has no case and the width
    is the one the slot held before, left from its previous use. *)
Theorem LQ_Init_width m entry L ins m' :
  0 <= entry < 256 ->
  get_lq m entry = Some L ->
  deref m (Q.instr L) = Some ins ->
  AXP_21264_Mbox_LQ_Init m entry = Some m' ->
  exists L',
    get_lq m' entry = Some L'
    /\ ((forall n, Ins.opcode ins <> OtherOpcode n) -> load_width_ok (Q.len L'))
    /\ (forall n, Ins.opcode ins = OtherOpcode n -> Q.len L' = Q.len L).
Proof.
  intros He HL Hd Hrun.
  destruct (LQ_Init_entry m entry L ins m' He HL Hd Hrun)
    as (m1 & L1 & ins1 & L' & ins' & Hset & HL1 & Hd1 & HL' & Elen & _).
  destruct (set_load_len_cases m entry L ins HL Hd)
    as (m1' & L1' & ins1' & Hset' & HL1' & _ & _ & Hcase).
  rewrite Hset in Hset'. injection Hset' as <-.
  rewrite HL1 in HL1'. injection HL1' as <-.
  exists L'. split; [exact HL' |]. rewrite Elen. split.
  - intros Hnamed.
    destruct (Ins.opcode ins) eqn:Hop; try (destruct Hcase as [Hw _]; exact Hw).
    + destruct Hcase as [-> _]. simpl. unfold load_width_ok.
      destruct (AXP_HW_LD_LONGWORD =? 0); lia.
    + exfalso. exact (Hnamed n eq_refl).
  - intros n Hop. rewrite Hop in Hcase. destruct Hcase as [-> _]. reflexivity.
Qed.

(** [HW_LD] ignores the instruction's [len_stall].  The condition of
    the [HW_LD] case is the assignment
    [lqEntry->instr->len_stall = AXP_HW_LD_LONGWORD]: whenever
    [AXP_21264_Mbox_LQ_Init] returns for an [HW_LD], the descriptor's
    [len_stall] is [AXP_HW_LD_LONGWORD] whatever it was, and the width
    is 4 if that constant is not zero and 8 if it is, the same for
    every [HW_LD]. *)
Theorem LQ_Init_HW_LD_width m entry L ins m' :
  0 <= entry < 256 ->
  get_lq m entry = Some L ->
  deref m (Q.instr L) = Some ins ->
  Ins.opcode ins = HW_LD ->
  AXP_21264_Mbox_LQ_Init m entry = Some m' ->
  exists L' ins',
    get_lq m' entry = Some L'
    /\ deref m' (Q.instr L) = Some ins'
    /\ Q.len L' = (if AXP_HW_LD_LONGWORD =? 0 then 8 else 4)
    /\ Ins.len_stall ins' = AXP_HW_LD_LONGWORD.
Proof.
  intros He HL Hd Hop Hrun.
  destruct (LQ_Init_entry m entry L ins m' He HL Hd Hrun)
    as (m1 & L1 & ins1 & L' & ins' & Hset & HL1 & Hd1 & HL' & Elen & Hd' & Els).
  destruct (set_load_len_cases m entry L ins HL Hd)
    as (m1' & L1' & ins1' & Hset' & HL1' & Hd1' & _ & Hcase).
  rewrite Hset in Hset'. injection Hset' as <-.
  rewrite HL1 in HL1'. injection HL1' as <-.
  rewrite Hd1 in Hd1'. injection Hd1' as <-.
  rewrite Hop in Hcase. destruct Hcase as [-> ->].
  exists L', ins'. split; [exact HL' |]. split; [exact Hd' |].
  split; [rewrite Elen; reflexivity | rewrite Els; reflexivity].
Qed.

(** A load from an I/O address.  When the translation gives a physical
    address that is not 0 and [AXP_21264_IS_IO_ADDR] holds of it,
    [AXP_21264_Mbox_LQ_Init] records the address, sets [IOflag],
    makes the entry [LQReadPending] and hands the load to the Cbox
    with [AXP_21264_Add_IOWB]; after the translation that is its only
    call, so neither cache is probed and the store queue is not
    searched. *)
Theorem LQ_Init_io_load m entry L ins m1 pa asm fault :
  0 <= entry < 256 ->
  get_lq m entry = Some L ->
  deref m (Q.instr L) = Some ins ->
  set_load_len m entry L ins = Some m1 ->
  AXP_va2pa m1 (Q.virtAddress L) (Ins.pc ins) true Read = (pa, asm, fault) ->
  pa <> 0 ->
  AXP_21264_IS_IO_ADDR pa = true ->
  exists m' L',
    AXP_21264_Mbox_LQ_Init m entry = Some m'
    /\ get_lq m' entry = Some L'
    /\ Q.state L' = LQReadPending
    /\ Q.IOflag L' = true
    /\ Q.physAddress L' = pa
    /\ M.calls m' =
         M.calls m ++ [Call_va2pa (Q.virtAddress L) (Ins.pc ins) true Read;
                       Call_Add_IOWB pa entry None (Q.len L')]
    /\ M.instrs m' = M.instrs m1.
Proof.
  intros He HL Hd Hset Hva Hpa Hio.
  destruct (set_load_len_spec m entry L ins HL Hd)
    as (m1' & L1 & ins1 & Hset' & Hc & HL1 & Eva & Est & Ein & Hd1 & Epc & Eop & Ead).
  rewrite Hset in Hset'. injection Hset' as <-.
  unfold AXP_21264_Mbox_LQ_Init. rewrite (u8_small entry He).
  rewrite HL. simpl. rewrite Hd. simpl. rewrite Hset. simpl.
  rewrite HL1. simpl. rewrite Ein, Hd1. simpl.
  rewrite Eva, Epc, Hva.
  destruct (Z.eqb_spec pa 0) as [E | _]; [contradiction |]. simpl.
  rewrite Hio. simpl.
  eexists _, (Q.set_state LQReadPending (Q.set_IOflag true (Q.set_physAddress pa L1))).
  split; [reflexivity |].
  split.
  { apply (get_lq_upd_lq _ entry (Q.set_state LQReadPending)).
    apply (get_lq_upd_lq _ entry (Q.set_IOflag true)).
    apply (get_lq_upd_lq _ entry (Q.set_physAddress pa)). exact HL1. }
  repeat (split; [reflexivity |]).
  split; [| reflexivity].
  simpl. rewrite Hc, <- app_assoc. reflexivity.
Qed.

(** The exact machine after a faulting translation. *)
Lemma LQ_Init_fault_eq m entry L ins m1 asm fault :
  0 <= entry < 256 ->
  get_lq m entry = Some L ->
  deref m (Q.instr L) = Some ins ->
  set_load_len m entry L ins = Some m1 ->
  AXP_va2pa m1 (Q.virtAddress L) (Ins.pc ins) true Read = (0, asm, fault) ->
  AXP_21264_Mbox_LQ_Init m entry =
    Some (M.call (Call_Ibox_Event fault (Ins.pc ins) (Q.virtAddress L)
                    (Ins.opcode ins) (Ins.aDest ins) false false)
            (upd_lq entry (Q.set_physAddress 0)
               (M.call (Call_va2pa (Q.virtAddress L) (Ins.pc ins) true Read) m1))).
Proof.
  intros He HL Hd Hset Hva.
  destruct (set_load_len_spec m entry L ins HL Hd)
    as (m1' & L1 & ins1 & Hset' & Hc & HL1 & Eva & Est & Ein & Hd1 & Epc & Eop & Ead).
  rewrite Hset in Hset'. injection Hset' as <-.
  unfold AXP_21264_Mbox_LQ_Init. rewrite (u8_small entry He).
  rewrite HL. simpl. rewrite Hd. simpl. rewrite Hset. simpl.
  rewrite HL1. simpl. rewrite Ein, Hd1. simpl.
  rewrite Eva, Epc, Hva. simpl. rewrite Eop, Ead. reflexivity.
Qed.

(** A faulting load is translated again on every pass.  The entry is
    still [Initial] after the fault, so each further call of
    [AXP_21264_Mbox_LQ_Init] for it repeats the translation: while the
    translation of its address keeps returning 0, [n] calls make [n]
    translations and raise [n] Ibox events, and the entry keeps its
    state. *)
Theorem LQ_Init_fault_every_pass (n : nat) : forall m entry L ins asm fault,
  0 <= entry < 256 ->
  get_lq m entry = Some L ->
  deref m (Q.instr L) = Some ins ->
  (forall mc, AXP_va2pa mc (Q.virtAddress L) (Ins.pc ins) true Read = (0, asm, fault)) ->
  exists m',
    LQ_Init_times n m entry = Some m'
    /\ M.calls m' =
         M.calls m ++
           concat (replicate n
                     [Call_va2pa (Q.virtAddress L) (Ins.pc ins) true Read;
                      Call_Ibox_Event fault (Ins.pc ins) (Q.virtAddress L)
                        (Ins.opcode ins) (Ins.aDest ins) false false])
    /\ Q.state <$> get_lq m' entry = Some (Q.state L).
Proof.
  induction n as [| n IH]; intros m entry L ins asm fault He HL Hd Hva.
  - exists m. simpl. rewrite app_nil_r, HL. auto.
  - destruct (set_load_len_spec m entry L ins HL Hd)
      as (m1 & L1 & ins1 & Hset & Hc & HL1 & Eva & Est & Ein & Hd1 & Epc & Eop & Ead).
    simpl LQ_Init_times.
    rewrite (LQ_Init_fault_eq m entry L ins m1 asm fault He HL Hd Hset (Hva m1)).
    simpl.
    set (m2 := M.call _ (upd_lq entry (Q.set_physAddress 0) (M.call _ m1))).
    assert (HL2 : get_lq m2 entry = Some (Q.set_physAddress 0 L1)).
    { subst m2. apply (get_lq_upd_lq _ entry (Q.set_physAddress 0)). exact HL1. }
    assert (Hd2 : deref m2 (Q.instr (Q.set_physAddress 0 L1)) = Some ins1).
    { simpl. rewrite Ein. exact Hd1. }
    destruct (IH m2 entry (Q.set_physAddress 0 L1) ins1 asm fault He HL2 Hd2)
      as (m' & Hrun & Hcalls & Hst).
    { intros mc. simpl. rewrite Eva, Epc. apply Hva. }
    exists m'. split; [exact Hrun |]. split.
    + rewrite Hcalls. simpl. rewrite Eva, Epc, Eop, Ead, Hc.
      rewrite <- !app_assoc. reflexivity.
    + rewrite Hst. simpl. rewrite Est. reflexivity.
Qed.

End LQ_Init_more.

(** ** More on [AXP_21264_Mbox_Init] *)

Section Init_more.

Context {K : Constants}.

Lemma init_array_idem {A : Type} (lo hi : Z) (f : A -> A) (a : list A) :
  0 <= lo -> (forall x, f (f x) = f x) ->
  init_array lo hi f (init_array lo hi f a) = init_array lo hi f a.
Proof.
  intros Hlo Hf. apply list_eq. intros i.
  rewrite !init_array_lookup by exact Hlo.
  destruct (decide _); [| reflexivity].
  destruct (a !! i); simpl; [rewrite Hf |]; reflexivity.
Qed.

Lemma init_array2_idem {A : Type} (lo hi ways : Z) (f : A -> A) (a : list (list A)) :
  0 <= lo -> (forall x, f (f x) = f x) ->
  init_array2 lo hi ways f (init_array2 lo hi ways f a) = init_array2 lo hi ways f a.
Proof.
  intros Hlo Hf. apply list_eq. intros i.
  rewrite !init_array2_lookup by exact Hlo.
  destruct (decide _); [| reflexivity].
  destruct (a !! i); simpl; [| reflexivity].
  rewrite init_array_idem by (exact Hf || lia). reflexivity.
Qed.

Lemma init_dcache_blk_idem b : init_dcache_blk (init_dcache_blk b) = init_dcache_blk b.
Proof.
  unfold init_dcache_blk. simpl. f_equal. f_equal.
  rewrite drop_app_length'; [reflexivity | symmetry; apply length_replicate].
Qed.

(** Resetting twice is resetting once: a second
    [AXP_21264_Mbox_Init] changes nothing. *)
Theorem Mbox_Init_idempotent (cpu : CPU.t) :
  AXP_21264_Mbox_Init (snd (AXP_21264_Mbox_Init cpu)) = AXP_21264_Mbox_Init cpu.
Proof.
  unfold AXP_21264_Mbox_Init. simpl.
  rewrite (init_array2_idem 1 _ _ init_dcache_blk) by (lia || apply init_dcache_blk_idem).
  rewrite (init_array2_idem 1 _ _ init_dtag_blk) by (lia || reflexivity).
  rewrite !(init_array_idem 0 _ init_queue_entry) by (lia || reflexivity).
  rewrite (init_array_idem 0 _ init_tlb) by (lia || reflexivity).
  rewrite (init_array_idem 0 _ init_maf) by (lia || reflexivity).
  reflexivity.
Qed.

(** What a reset does not reset: the width and the physical address of
    every load- and store-queue slot survive
    [AXP_21264_Mbox_Init], which assigns the other six fields of each
    slot; the CPU's lock flag survives too. *)
Theorem Mbox_Init_keeps_len_physAddress (cpu : CPU.t) (ii : nat) :
  let cpu' := snd (AXP_21264_Mbox_Init cpu) in
  Q.len <$> CPU.lq cpu' !! ii = Q.len <$> CPU.lq cpu !! ii
  /\ Q.physAddress <$> CPU.lq cpu' !! ii = Q.physAddress <$> CPU.lq cpu !! ii
  /\ Q.len <$> CPU.sq cpu' !! ii = Q.len <$> CPU.sq cpu !! ii
  /\ Q.physAddress <$> CPU.sq cpu' !! ii = Q.physAddress <$> CPU.sq cpu !! ii
  /\ CPU.lockFlag cpu' = CPU.lockFlag cpu.
Proof.
  simpl. rewrite !init_array_lookup by lia.
  destruct (decide _); [| repeat split].
  destruct (CPU.lq cpu !! ii), (CPU.sq cpu !! ii); repeat split.
Qed.

End Init_more.

(** ** The Ebox load and store functions *)

Section Ebox_more.

Context {K : Constants} {E : Ebox_macros}.

(** An assignment through a valid descriptor pointer changes that
    descriptor and nothing else. *)
Lemma store_instr_frame m a i f :
  M.instrs m !! a = Some i ->
  exists m', store_instr m (Some a) f = Some m'
    /\ M.instrs m' !! a = Some (f i)
    /\ (forall b, b <> a -> M.instrs m' !! b = M.instrs m !! b)
    /\ M.cpu m' = M.cpu m /\ M.memory m' = M.memory m /\ M.calls m' = M.calls m.
Proof.
  intros H. eexists. split; [apply (store_instr_Some _ _ _ _ H) |].
  simpl. split; [apply lookup_insert_eq |].
  split; [| auto].
  intros b Hb. apply lookup_insert_ne. congruence.
Qed.

#[local] Arguments store_instr : simpl never.

Ltac step_store H :=
  match goal with
  | |- context [store_instr ?mm (Some ?a) ?f] =>
      let m' := fresh "m" in
      let Hs := fresh "Hs" in
      let Hi := fresh "Hi" in
      let Ho := fresh "Ho" in
      let Hc := fresh "Hc" in
      let Hm := fresh "Hm" in
      let Hl := fresh "Hl" in
      destruct (store_instr_frame mm a _ f H) as (m' & Hs & Hi & Ho & Hc & Hm & Hl);
      rewrite Hs; simpl
  end.

(** Clearing the three low bits of a 64-bit value. *)
Lemma land_not7 x :
  0 <= x < 2 ^ 64 -> Z.land x (u64 (Z.lnot 7)) = 8 * (x / 8).
Proof.
  intros Hx. unfold u64.
  rewrite <- (Z.land_ones (Z.lnot 7) 64) by lia.
  rewrite (Z.land_comm (Z.lnot 7)), Z.land_assoc.
  rewrite (Z.land_ones x 64) by lia. rewrite Z.mod_small by exact Hx.
  rewrite <- Z.ldiff_land.
  change 7 with (Z.ones 3). rewrite Z.ldiff_ones_r by lia.
  rewrite Z.shiftr_div_pow2, Z.shiftl_mul_pow2 by lia.
  change (2 ^ 3) with 8. lia.
Qed.

Lemma effective_va_range i : 0 <= effective_va i < 2 ^ 64.
Proof. unfold effective_va, u64. apply Z.mod_pos_bound. lia. Qed.

(** [AXP_LDQ_U] aligns.  The value it leaves in [destv] is the
    effective address with its three low bits cleared: a multiple of 8,
    at most the address and less than 8 below it. *)
Theorem LDQ_U_aligned m p i :
  deref m p = Some i ->
  exists m' i',
    AXP_LDQ_U m p = Some (NoException, m')
    /\ deref m' p = Some i'
    /\ Ins.destv i' mod 8 = 0
    /\ Ins.destv i' <= effective_va i < Ins.destv i' + 8
    /\ Ins.state i' = WaitingRetirement.
Proof.
  intros Hd. destruct (deref_Some _ _ _ Hd) as (a & -> & Ha).
  unfold AXP_LDQ_U, retire. rewrite Hd. simpl.
  step_store Ha. step_store Hi.
  eexists _, _. split; [reflexivity |].
  split; [exact Hi0 |]. simpl.
  rewrite (land_not7 _ (effective_va_range i)).
  pose proof (effective_va_range i).
  pose proof (Z.div_mod (effective_va i) 8).
  pose proof (Z.mod_pos_bound (effective_va i) 8).
  split; [rewrite Z.mul_comm; apply Z.mod_mul; lia |].
  split; [lia | reflexivity].
Qed.

(** The plain stores store nothing.  Each of [AXP_STB], [AXP_STW],
    [AXP_STL], [AXP_STQ] and [AXP_STQ_U] assigns the register value to
    a local and marks the instruction [WaitingRetirement]; the machine
    after the call is the machine before it with that one field
    changed, so no store-queue slot is written, memory and the call
    log are as before, and the five functions have the same effect. *)
Theorem plain_stores_only_retire m a i (s : plain_store) :
  M.instrs m !! a = Some i ->
  run_store s m (Some a) =
    Some (NoException,
          M.set_instrs (<[a := Ins.set_state WaitingRetirement i]> (M.instrs m)) m).
Proof.
  intros Ha.
  assert (Hd : deref m (Some a) = Some i) by exact Ha.
  destruct s; unfold run_store, AXP_STB, AXP_STW, AXP_STL, AXP_STQ, AXP_STQ_U,
    retire; rewrite Hd; simpl;
    rewrite (store_instr_Some m a i _ Ha); reflexivity.
Qed.

(** What the Ebox loads leave alone.  None of [AXP_LDA], [AXP_LDAH],
    [AXP_LDBU], [AXP_LDWU], [AXP_LDL], [AXP_LDQ], [AXP_LDQ_U],
    [AXP_LDL_L] and [AXP_LDQ_L] reaches the memory pipeline: on a valid
    descriptor each returns [NoException] and marks the instruction
    [WaitingRetirement], and the CPU aggregate (no load-queue slot is
    allocated or published, the lock flag is untouched), memory, the
    call log and every other descriptor are as before; the identity,
    opcode and operands of the instruction are unchanged. *)
Theorem loads_stay_in_descriptor m p i (l : ebox_load) :
  deref m p = Some i ->
  exists m' i',
    run_load l m p = Some (NoException, m')
    /\ deref m' p = Some i'
    /\ Ins.state i' = WaitingRetirement
    /\ Ins.uniqueID i' = Ins.uniqueID i /\ Ins.opcode i' = Ins.opcode i
    /\ Ins.src1v i' = Ins.src1v i /\ Ins.displacement i' = Ins.displacement i
    /\ M.cpu m' = M.cpu m /\ M.memory m' = M.memory m /\ M.calls m' = M.calls m
    /\ (forall q, q <> p -> deref m' q = deref m q).
Proof.
  intros Hd. destruct (deref_Some _ _ _ Hd) as (a & -> & Ha).
  assert (Hother : forall m', (forall b, b <> a -> M.instrs m' !! b = M.instrs m !! b) ->
                         forall q, q <> Some a -> deref m' q = deref m q).
  { intros m' Ho [b |] Hq; [| reflexivity]. unfold deref. simpl.
    apply Ho. congruence. }
  destruct l; unfold run_load, AXP_LDA, AXP_LDAH, AXP_LDBU, AXP_LDWU, AXP_LDL,
    AXP_LDQ, AXP_LDQ_U, AXP_LDL_L, AXP_LDQ_L, retire; rewrite Hd; simpl.
  1-7: step_store Ha; step_store Hi;
       eexists _, _; (split; [reflexivity |]); (split; [exact Hi0 |]);
       repeat (split; [reflexivity |]);
       (split; [congruence |]); (split; [congruence |]); (split; [congruence |]);
       apply Hother; intros b Hb; rewrite Ho0, Ho by exact Hb; reflexivity.
  1-2: step_store Ha; step_store Hi; step_store Hi0; step_store Hi1; step_store Hi2;
       eexists _, _; (split; [reflexivity |]); (split; [exact Hi3 |]);
       repeat (split; [reflexivity |]);
       (split; [congruence |]); (split; [congruence |]); (split; [congruence |]);
       apply Hother; intros b Hb;
       rewrite Ho3, Ho2, Ho1, Ho0, Ho by exact Hb; reflexivity.
Qed.

(** Load-locked, then store-conditional.  [AXP_LDL_L] and [AXP_LDQ_L]
    record the lock in their descriptor only ([lockFlagPending] true,
    and the virtual address as both the virtual and the physical lock
    address) and leave the CPU's [lockFlag] as it was; a
    store-conditional executed next therefore succeeds or fails by the
    [lockFlag] from before the load-locked, whatever the two
    addresses. *)
Theorem load_locked_then_store_conditional m a1 a2 i1 i2 :
  M.instrs m !! a1 = Some i1 ->
  M.instrs m !! a2 = Some i2 ->
  a1 <> a2 ->
  (exists m1 m2 j1 j2,
     AXP_LDL_L m (Some a1) = Some (NoException, m1)
     /\ AXP_STL_C m1 (Some a2) = Some (NoException, m2)
     /\ CPU.lockFlag (M.cpu m1) = CPU.lockFlag (M.cpu m)
     /\ M.instrs m2 !! a1 = Some j1
     /\ Ins.lockFlagPending j1 = true
     /\ Ins.lockPhysAddrPending j1 = effective_va i1
     /\ Ins.lockVirtAddrPending j1 = effective_va i1
     /\ M.instrs m2 !! a2 = Some j2
     /\ Ins.destv j2 = (if CPU.lockFlag (M.cpu m) then 1 else 0))
  /\ (exists m1 m2 j1 j2,
        AXP_LDQ_L m (Some a1) = Some (NoException, m1)
        /\ AXP_STQ_C m1 (Some a2) = Some (NoException, m2)
        /\ CPU.lockFlag (M.cpu m1) = CPU.lockFlag (M.cpu m)
        /\ M.instrs m2 !! a1 = Some j1
        /\ Ins.lockFlagPending j1 = true
        /\ Ins.lockPhysAddrPending j1 = effective_va i1
        /\ Ins.lockVirtAddrPending j1 = effective_va i1
        /\ M.instrs m2 !! a2 = Some j2
        /\ Ins.destv j2 = (if CPU.lockFlag (M.cpu m) then 1 else 0)).
Proof.
  intros H1 H2 Hne. split.
  - assert (Hd : deref m (Some a1) = Some i1) by exact H1.
    unfold AXP_LDL_L, retire. rewrite Hd. simpl.
    step_store H1. step_store Hi. step_store Hi0. step_store Hi1. step_store Hi2.
    assert (H2' : M.instrs m4 !! a2 = Some i2).
    { rewrite Ho3, Ho2, Ho1, Ho0, Ho by congruence. exact H2. }
    destruct (STx_C_eq m4 a2 i2 H2') as [HL _].
    eexists _, _, _, _. split; [reflexivity |]. split; [exact HL |].
    split; [congruence |]. simpl.
    split; [rewrite lookup_insert_ne by congruence; exact Hi3 |].
    repeat (split; [reflexivity |]).
    split; [apply lookup_insert_eq |].
    simpl. replace (CPU.lockFlag (M.cpu m4)) with (CPU.lockFlag (M.cpu m)) by congruence.
    reflexivity.
  - assert (Hd : deref m (Some a1) = Some i1) by exact H1.
    unfold AXP_LDQ_L, retire. rewrite Hd. simpl.
    step_store H1. step_store Hi. step_store Hi0. step_store Hi1. step_store Hi2.
    assert (H2' : M.instrs m4 !! a2 = Some i2).
    { rewrite Ho3, Ho2, Ho1, Ho0, Ho by congruence. exact H2. }
    destruct (STx_C_eq m4 a2 i2 H2') as [_ HQ].
    eexists _, _, _, _. split; [reflexivity |]. split; [exact HQ |].
    split; [congruence |]. simpl.
    split; [rewrite lookup_insert_ne by congruence; exact Hi3 |].
    repeat (split; [reflexivity |]).
    split; [apply lookup_insert_eq |].
    simpl. replace (CPU.lockFlag (M.cpu m4)) with (CPU.lockFlag (M.cpu m)) by congruence.
    reflexivity.
Qed.

End Ebox_more.

(** ** The scheduler pass *)

Section Scheduler_more.

Context {K : Constants} {X : Externals} {C : Scheduler_callees}.

Lemma get_lq_in_range m ii :
  length (CPU.lq (M.cpu m)) = Z.to_nat AXP_MBOX_QUEUE_LEN ->
  0 <= ii < AXP_MBOX_QUEUE_LEN -> is_Some (get_lq m ii).
Proof.
  intros Hlen Hii. unfold get_lq.
  destruct (Z.leb_spec 0 ii); [| lia].
  apply lookup_lt_is_Some_2. lia.
Qed.

(** An idle pass.  When no load-queue entry is [Initial] or
    [LQComplete] and no store-queue entry is in one of the three states
    the second loop matches ([Initial], [LQReadPending],
    [LQReadable]), [AXP_21264_Mbox_Process_Q] returns the machine it
    was given, whatever the functions it would call do.  In particular
    a load waiting in [LQReadPending] and a store in [SQWritePending]
    or [SQComplete] are not advanced by a pass. *)
Theorem Process_Q_idle m :
  queue_len_ok -> cpu_wf (M.cpu m) ->
  nothing_actionable m = true ->
  AXP_21264_Mbox_Process_Q m = Some m.
Proof.
  intros HK (Hlq & Hsq & _ & _) Hidle.
  pose proof HK as HK'. unfold queue_len_ok in HK'.
  unfold nothing_actionable in Hidle. apply andb_true_iff in Hidle.
  destruct Hidle as [Hl Hs]. rewrite forallb_forall in Hl, Hs.
  unfold AXP_21264_Mbox_Process_Q, for_rangeM.
  rewrite (u32_queue_len HK).
  rewrite iterate_fromM_fixed.
  - simpl. apply iterate_fromM_fixed. intros j Hj. unfold Process_Q_sq.
    destruct (get_sq_in_range m j Hsq) as [e He]; [lia |].
    rewrite He. simpl. specialize (Hs e (get_sq_elem m j e He)).
    destruct (Q.state e); simpl in Hs; try discriminate; reflexivity.
  - intros j Hj. unfold Process_Q_lq, AXP_21264_Mbox_LQ_Pending.
    destruct (get_lq_in_range m j Hlq) as [e He]; [lia |].
    rewrite He. simpl. specialize (Hl e (get_lq_elem m j e He)).
    destruct (Q.state e) eqn:Est; simpl in Hl; try discriminate; simpl;
      rewrite He; simpl; rewrite Est; reflexivity.
Qed.

End Scheduler_more.

(** ** Reset and the main path of a load *)

Section Reset_and_hit.

Context {K : Constants} {X : Externals}.

(** After a reset both queues are empty.  On a CPU whose queue arrays
    have [AXP_MBOX_QUEUE_LEN] slots, every load- and store-queue slot
    is [QNotInUse] after [AXP_21264_Mbox_Init], with a NULL descriptor
    pointer, value and virtual address 0 and both flags false; so on
    any machine built on the reset CPU no store is in process for the
    forwarding loop and no entry is actionable for the scheduler. *)
Theorem Mbox_Init_queues_empty (cpu : CPU.t) :
  length (CPU.lq cpu) = Z.to_nat AXP_MBOX_QUEUE_LEN ->
  length (CPU.sq cpu) = Z.to_nat AXP_MBOX_QUEUE_LEN ->
  let cpu' := snd (AXP_21264_Mbox_Init cpu) in
  (forall (ii : nat) (e : Q.t),
     CPU.lq cpu' !! ii = Some e \/ CPU.sq cpu' !! ii = Some e ->
     Q.state e = QNotInUse /\ Q.instr e = None /\ Q.value e = 0
     /\ Q.virtAddress e = 0 /\ Q.IOflag e = false /\ Q.lockCond e = false)
  /\ forall m, M.cpu m = cpu' ->
       no_store_in_process m = true /\ nothing_actionable m = true.
Proof.
  intros Hlq Hsq cpu'.
  assert (Hslot : forall (q : list Q.t) (ii : nat) (e : Q.t),
             length q = Z.to_nat AXP_MBOX_QUEUE_LEN ->
             init_array 0 AXP_MBOX_QUEUE_LEN init_queue_entry q !! ii = Some e ->
             exists e0, e = init_queue_entry e0).
  { intros q ii e Hlen Hlook. rewrite init_array_lookup in Hlook by lia.
    destruct (decide _) as [Hin | Hout].
    - destruct (q !! ii) as [e0 |]; [| discriminate].
      injection Hlook as <-. exists e0. reflexivity.
    - apply lookup_lt_Some in Hlook. lia. }
  assert (Hall : forall (ii : nat) (e : Q.t),
             CPU.lq cpu' !! ii = Some e \/ CPU.sq cpu' !! ii = Some e ->
             exists e0, e = init_queue_entry e0).
  { intros ii e [H | H]; [apply (Hslot (CPU.lq cpu) ii) | apply (Hslot (CPU.sq cpu) ii)];
      assumption. }
  split.
  - intros ii e H. destruct (Hall ii e H) as [e0 ->]. repeat split.
  - intros m Hm. unfold no_store_in_process, nothing_actionable.
    rewrite Hm. rewrite andb_true_iff, !forallb_forall.
    split; [| split]; intros e Hin; apply list_elem_of_In in Hin;
      apply list_elem_of_lookup_1 in Hin; destruct Hin as [ii Hii];
      (destruct (Hall ii e) as [e0 ->]; [auto | reflexivity]).
Qed.

Lemma set_load_len_same_sq m entry L ins m1 :
  set_load_len m entry L ins = Some m1 ->
  CPU.sq (M.cpu m1) = CPU.sq (M.cpu m).
Proof.
  unfold set_load_len.
  destruct (Ins.opcode ins); try (intros [= <-]; reflexivity).
  unfold store_instr. destruct (Q.instr L) as [a |]; simpl; [| discriminate].
  destruct (M.instrs m !! a); simpl; [| discriminate].
  destruct (negb _); intros [= <-]; reflexivity.
Qed.

(** A load that hits completes in one call.  For a published load whose
    translation gives a physical address that is not 0 and not an I/O
    address, with no store in process and a Dcache whose status, as the
    [u8] local holds it, is hit,
    [AXP_21264_Mbox_LQ_Init] takes the entry from [Initial] to
    [LQComplete] in the same call: it translates, probes the Dcache,
    reads the load's width, and [destv] holds what the read delivered
    (the Bcache is not asked and no MAF entry is made). *)
Theorem LQ_Init_hit_completes m entry L ins pa asm fault rv v :
  queue_len_ok ->
  length (CPU.sq (M.cpu m)) = Z.to_nat AXP_MBOX_QUEUE_LEN ->
  no_store_in_process m = true ->
  0 <= entry < 256 ->
  get_lq m entry = Some L ->
  deref m (Q.instr L) = Some ins ->
  (forall mc, AXP_va2pa mc (Q.virtAddress L) (Ins.pc ins) true Read = (pa, asm, fault)) ->
  pa <> 0 ->
  AXP_21264_IS_IO_ADDR pa = false ->
  (forall mc, u8 (AXP_Dcache_Status mc (Q.virtAddress L) pa) = AXP_21264_CACHE_HIT) ->
  (forall mc w, AXP_DcacheRead mc (Q.virtAddress L) pa w = (rv, v)) ->
  exists m' L' i',
    AXP_21264_Mbox_LQ_Init m entry = Some m'
    /\ get_lq m' entry = Some L'
    /\ Q.state L' = LQComplete
    /\ Q.physAddress L' = pa
    /\ deref m' (Q.instr L) = Some i'
    /\ Ins.destv i' = v
    /\ M.calls m' =
         M.calls m ++ [Call_va2pa (Q.virtAddress L) (Ins.pc ins) true Read;
                       Call_Dcache_Status (Q.virtAddress L) pa;
                       Call_DcacheRead (Q.virtAddress L) pa (Q.len L')].
Proof.
  intros HK Hlen Hno He HL Hd Hva Hpa Hio Hds Hrd.
  pose proof HK as HK'. unfold queue_len_ok in HK'.
  destruct (set_load_len_spec m entry L ins HL Hd)
    as (m1 & L1 & ins1 & Hset & Hc & HL1 & Eva & Est & Ein & Hd1 & Epc & Eop & Ead).
  pose proof (set_load_len_same_sq _ _ _ _ _ Hset) as Hsq1.
  unfold AXP_21264_Mbox_LQ_Init. rewrite (u8_small entry He).
  rewrite HL. simpl. rewrite Hd. simpl. rewrite Hset. simpl.
  rewrite HL1. simpl. rewrite Ein, Hd1. simpl.
  rewrite Eva, Epc, Hva.
  destruct (Z.eqb_spec pa 0) as [E | _]; [contradiction |]. simpl.
  rewrite Hio. simpl.
  set (m3 := upd_lq entry (Q.set_state LQReadPending)
               (upd_lq entry (Q.set_IOflag false)
                  (upd_lq entry (Q.set_physAddress pa)
                     (M.call (Call_va2pa (Q.virtAddress L) (Ins.pc ins) true Read) m1)))).
  set (L3 := Q.set_state LQReadPending (Q.set_IOflag false (Q.set_physAddress pa L1))).
  assert (HL3 : get_lq m3 entry = Some L3).
  { subst m3 L3. apply get_lq_upd_lq, get_lq_upd_lq, get_lq_upd_lq. exact HL1. }
  assert (Hd3 : deref m3 (Q.instr L3) = Some ins1).
  { subst L3. simpl. rewrite Ein. exact Hd1. }
  assert (Hscan : scan_sq m3 L3 = Some (false, 0)).
  { unfold scan_sq, for_rangeM. apply iterate_fromM_fixed.
    intros j Hj. apply scan_body_skip; [| | lia].
    - change (CPU.sq (M.cpu m3)) with (CPU.sq (M.cpu m1)). rewrite Hsq1. exact Hlen.
    - unfold no_store_in_process.
      change (CPU.sq (M.cpu m3)) with (CPU.sq (M.cpu m1)). rewrite Hsq1. exact Hno. }
  destruct (read_path m3 (M.call (Call_Dcache_Status (Q.virtAddress L3) (Q.physAddress L3)) m3)
              entry L3 ins1 HL3 eq_refl eq_refl Hd3)
    as (m' & Hrun & m0 & _ & Hcalls & Hdestv & Hstate).
  assert (Htry : AXP_21264_Mbox_TryCaches m3 entry = Some m').
  { unfold AXP_21264_Mbox_TryCaches. rewrite (u8_small entry He).
    rewrite HL3. simpl. rewrite Hscan. simpl.
    rewrite Eva, Hds, Z.eqb_refl. simpl.
    subst L3. simpl in Hrun. rewrite Eva in Hrun. exact Hrun. }
  rewrite Htry.
  destruct (TryCaches_normal_form _ _ _ Htry) as (L3' & cs & G3 & Hm').
  rewrite (u8_small entry He), HL3 in G3. injection G3 as <-.
  assert (HL' : exists L', get_lq m' entry = Some L' /\ Q.state L' = LQComplete
                           /\ Q.physAddress L' = pa /\ Q.len L' = Q.len L3).
  { destruct (get_lq m' entry) as [L' |] eqn:G; [| discriminate].
    simpl in Hstate. injection Hstate as Hst.
    exists L'. split; [reflexivity |]. split; [exact Hst |].
    rewrite (u8_small entry He) in Hm'.
    destruct Hm' as [-> | (a & i & v' & _ & _ & ->)].
    - change (get_lq m3 entry = Some L') in G. rewrite HL3 in G.
      injection G as <-. split; reflexivity.
    - rewrite (get_lq_upd_lq _ entry (Q.set_state LQComplete) L3) in G by exact HL3.
      injection G as <-. split; reflexivity. }
  destruct HL' as (L' & G & Hst & Hpa' & Hlen').
  destruct (deref m' (Q.instr L3)) as [i' |] eqn:Hd'; [| discriminate].
  simpl in Hdestv. injection Hdestv as Hdv.
  exists m', L', i'. split; [reflexivity |]. split; [exact G |].
  split; [exact Hst |]. split; [exact Hpa' |].
  split; [rewrite <- Ein; exact Hd' |].
  split.
  - rewrite Hdv. subst L3. simpl. rewrite Eva, Hrd. reflexivity.
  - rewrite Hcalls. simpl. rewrite Hc, Hlen'. subst L3. simpl. rewrite Eva.
    rewrite <- !app_assoc. reflexivity.
Qed.

End Reset_and_hit.

(** * The further properties at concrete machines *)

Lemma alloc_n_in_order_witness :
  length (fst (alloc_n (K := K21264) AllocLQ 31 cpu_room)) = 31%nat
  /\ (forall k : nat, (k < 31)%nat ->
        fst (alloc_n (K := K21264) AllocLQ 31 cpu_room) !! k =
          Some (Z.min (3 + Z.of_nat k) 32))
  /\ CPU.lqNext (snd (alloc_n (K := K21264) AllocLQ 31 cpu_room)) = Z.min (3 + 31) 32.
Proof.
  apply (alloc_n_in_order (K := K21264) AllocLQ 31 cpu_room).
  - unfold queue_len_ok. simpl. lia.
  - simpl. lia.
Defined.

Lemma alloc_ret_frame_witness :
  CPU.set_sq (CPU.sq cpu_room)
    (CPU.set_sqNext (CPU.sqNext cpu_room)
       (snd (alloc_ret (K := K21264) AllocSQ cpu_room))) = cpu_room
  /\ forall (j : nat) (e' : Q.t),
       CPU.sq (snd (alloc_ret (K := K21264) AllocSQ cpu_room)) !! j = Some e' ->
       exists e, CPU.sq cpu_room !! j = Some e
                 /\ e' = Q.set_state (Q.state e') e
                 /\ (j <> Z.to_nat (fst (alloc_ret (K := K21264) AllocSQ cpu_room)) ->
                     e' = e).
Proof.
  apply (alloc_ret_frame (K := K21264) AllocSQ cpu_room).
  unfold queue_len_ok. simpl. lia.
Defined.

(** A reset of a CPU with one load and three stores in its queues,
    then two calls of the load allocator around one of the store
    allocator. *)
Lemma allocated_prefix_invariant_witness :
  let c := alloc_run (K := K21264) [AllocLQ; AllocSQ; AllocLQ]
             (snd (AXP_21264_Mbox_Init (K := K21264) (M.cpu m_three))) in
  (next_of_op AllocLQ c = Z.min (calls_of AllocLQ [AllocLQ; AllocSQ; AllocLQ]) 32
   /\ allocated_prefix (K := K21264) (queue_of_op AllocLQ c) (next_of_op AllocLQ c))
  /\ (next_of_op AllocSQ c = Z.min (calls_of AllocSQ [AllocLQ; AllocSQ; AllocLQ]) 32
      /\ allocated_prefix (K := K21264) (queue_of_op AllocSQ c) (next_of_op AllocSQ c)).
Proof.
  split.
  - apply (allocated_prefix_invariant (K := K21264) (M.cpu m_three)
             [AllocLQ; AllocSQ; AllocLQ] AllocLQ).
    + unfold queue_len_ok. simpl. lia.
    + reflexivity.
    + reflexivity.
  - apply (allocated_prefix_invariant (K := K21264) (M.cpu m_three)
             [AllocLQ; AllocSQ; AllocLQ] AllocSQ).
    + unfold queue_len_ok. simpl. lia.
    + reflexivity.
    + reflexivity.
Defined.

Lemma allocate_then_publish_witness :
  (CPU.lqNext (M.cpu m_room) < 32 ->
   let '(r, cpu') := AXP_21264_Mbox_GetLQSlot (K := K21264) (M.cpu m_room) in
   exists m' e,
     AXP_21264_Mbox_ReadMem (M.set_cpu cpu' m_room) (Some 256) r 4099 = Some m'
     /\ get_lq m' r = Some e
     /\ Q.state e = Initial /\ Q.virtAddress e = 4099 /\ Q.instr e = Some 256
     /\ (forall j, j <> r -> get_lq m' j = get_lq m_room j)
     /\ CPU.lqNext (M.cpu m') = CPU.lqNext (M.cpu m_room) + 1)
  /\ (CPU.sqNext (M.cpu m_room) < 32 ->
      let '(r, cpu') := AXP_21264_Mbox_GetSQSlot (K := K21264) (M.cpu m_room) in
      exists m' e,
        AXP_21264_Mbox_WriteMem (M.set_cpu cpu' m_room) (Some 256) r 4099 77 = Some m'
        /\ get_sq m' r = Some e
        /\ Q.state e = Initial /\ Q.virtAddress e = 4099 /\ Q.instr e = Some 256
        /\ Q.value e = 77
        /\ (forall j, j <> r -> get_sq m' j = get_sq m_room j)
        /\ CPU.sqNext (M.cpu m') = CPU.sqNext (M.cpu m_room) + 1).
Proof.
  apply (allocate_then_publish (K := K21264) m_room (Some 256) 4099 77).
  - unfold queue_len_ok. simpl. lia.
  - unfold cpu_wf. simpl. repeat split; lia.
Defined.

Lemma publish_at_sentinel_out_of_bounds_witness :
  (lq_full (K := K21264) (M.cpu m_full) ->
   AXP_21264_Mbox_ReadMem m_full (Some 256)
     (fst (AXP_21264_Mbox_GetLQSlot (K := K21264) (M.cpu m_full))) 4099 = None)
  /\ (sq_full (K := K21264) (M.cpu m_full) ->
      AXP_21264_Mbox_WriteMem m_full (Some 256)
        (fst (AXP_21264_Mbox_GetSQSlot (K := K21264) (M.cpu m_full))) 4099 77 = None).
Proof.
  apply (publish_at_sentinel_out_of_bounds (K := K21264) m_full (Some 256) 4099 77).
  - unfold queue_len_ok. simpl. lia.
  - unfold cpu_wf. simpl. repeat split; lia.
Defined.

Lemma scan_sq_nothing_in_process_witness :
  scan_sq (K := K21264) m_miss (Q.mk 0 24576 24576 8 None LQReadPending false false)
    = Some (false, 0).
Proof.
  apply (scan_sq_nothing_in_process (K := K21264) m_miss).
  - unfold queue_len_ok. simpl. lia.
  - reflexivity.
  - vm_compute. reflexivity.
Defined.

(** [AXP_21264_Mbox_TryCaches] on each path: a forwarded byte, a read
    after a Bcache hit, and a MAF entry after a miss in both caches. *)
Lemma TryCaches_effect_witness :
  load_entry_frame (u8 0) (m_pair 12) m_pair_done
  /\ load_entry_frame (u8 0) m_miss m_miss_read
  /\ load_entry_frame (u8 0) m_miss m_miss_maf.
Proof.
  split; [| split].
  - apply (TryCaches_effect (K := K21264) (X := X_hit) (m_pair 12) 0 m_pair_done).
    vm_compute. reflexivity.
  - apply (TryCaches_effect (K := K21264) (X := X_bhit) m_miss 0 m_miss_read).
    vm_compute. reflexivity.
  - apply (TryCaches_effect (K := K21264) (X := X_miss) m_miss 0 m_miss_maf).
    vm_compute. reflexivity.
Defined.

Lemma scan_selects_greatest_passing_witness :
  exists found nx,
    scan_sq (K := K21264) m_three_younger
      (Q.mk 0 8192 8192 1 (Some 256) LQReadPending false false) = Some (found, nx)
    /\ (found = true ->
        exists un,
          code_forwards_from m_three_younger
            (Q.mk 0 8192 8192 1 (Some 256) LQReadPending false false) nx un
          /\ forall j uj, 0 <= j < 32 ->
               code_forwards_from m_three_younger
                 (Q.mk 0 8192 8192 1 (Some 256) LQReadPending false false) j uj ->
               uj <= un)
    /\ (found = false <->
        forall j uj, 0 <= j < 32 ->
          ~ code_forwards_from m_three_younger
              (Q.mk 0 8192 8192 1 (Some 256) LQReadPending false false) j uj).
Proof.
  apply (scan_selects_greatest_passing (K := K21264) m_three_younger
           (Q.mk 0 8192 8192 1 (Some 256) LQReadPending false false)
           (ins_of 4 LDBU 8192 8192)).
  - unfold queue_len_ok. simpl. lia.
  - reflexivity.
  - vm_compute. reflexivity.
  - reflexivity.
Defined.

Lemma TryCaches_forward_calls_nothing_witness :
  M.calls m_pair_done = M.calls (m_pair 12)
  /\ Q.state <$> get_lq m_pair_done (u8 0) = Some LQComplete.
Proof.
  apply (TryCaches_forward_calls_nothing (K := K21264) (X := X_hit) (m_pair 12) 0
           (Q.mk 0 4096 4096 1 (Some 256) LQReadPending false false) 0 m_pair_done).
  - reflexivity.
  - vm_compute. reflexivity.
  - vm_compute. reflexivity.
Defined.

Lemma LQ_Init_width_witness :
  exists L',
    get_lq m_fault_done 0 = Some L'
    /\ ((forall n, Ins.opcode (ins_of 4 LDQ 8192 20480) <> OtherOpcode n) ->
        load_width_ok (Q.len L'))
    /\ (forall n, Ins.opcode (ins_of 4 LDQ 8192 20480) = OtherOpcode n ->
        Q.len L' = Q.len (Q.mk 0 20480 0 0 (Some 256) Initial false false)).
Proof.
  apply (LQ_Init_width (K := K21264) (X := X_fault) m_fault 0
           (Q.mk 0 20480 0 0 (Some 256) Initial false false)
           (ins_of 4 LDQ 8192 20480) m_fault_done).
  - lia.
  - reflexivity.
  - reflexivity.
  - vm_compute. reflexivity.
Defined.

Lemma LQ_Init_HW_LD_width_witness :
  exists L' ins',
    get_lq m_hw_done 0 = Some L'
    /\ deref m_hw_done (Some 256) = Some ins'
    /\ Q.len L' = 8
    /\ Ins.len_stall ins' = 0.
Proof.
  apply (LQ_Init_HW_LD_width (K := K21264) (X := X_hit) m_hw 0
           (Q.mk 0 20480 0 2 (Some 256) Initial false false) ins_hw m_hw_done).
  - lia.
  - reflexivity.
  - reflexivity.
  - reflexivity.
  - vm_compute. reflexivity.
Defined.

Lemma LQ_Init_io_load_witness :
  exists m' L',
    AXP_21264_Mbox_LQ_Init (K := K21264) (X := X_io) m_fault 0 = Some m'
    /\ get_lq m' 0 = Some L'
    /\ Q.state L' = LQReadPending
    /\ Q.IOflag L' = true
    /\ Q.physAddress L' = 20480 + 2 ^ 43
    /\ M.calls m' =
         M.calls m_fault ++ [Call_va2pa 20480 8192 true Read;
                             Call_Add_IOWB (20480 + 2 ^ 43) 0 None (Q.len L')]
    /\ M.instrs m' = M.instrs (upd_lq 0 (Q.set_len 8) m_fault).
Proof.
  apply (LQ_Init_io_load (K := K21264) (X := X_io) m_fault 0
           (Q.mk 0 20480 0 0 (Some 256) Initial false false)
           (ins_of 4 LDQ 8192 20480)
           (upd_lq 0 (Q.set_len 8) m_fault) (20480 + 2 ^ 43) false 0).
  - lia.
  - reflexivity.
  - reflexivity.
  - reflexivity.
  - reflexivity.
  - lia.
  - vm_compute. reflexivity.
Defined.

Lemma LQ_Init_fault_every_pass_witness :
  exists m',
    LQ_Init_times (K := K21264) (X := X_fault) 3 m_fault 0 = Some m'
    /\ M.calls m' =
         M.calls m_fault ++
           concat (replicate 3
                     [Call_va2pa 20480 8192 true Read;
                      Call_Ibox_Event 3 8192 20480 LDQ 1 false false])
    /\ Q.state <$> get_lq m' 0 = Some Initial.
Proof.
  apply (LQ_Init_fault_every_pass (K := K21264) (X := X_fault) 3 m_fault 0
           (Q.mk 0 20480 0 0 (Some 256) Initial false false)
           (ins_of 4 LDQ 8192 20480) false 3).
  - lia.
  - reflexivity.
  - reflexivity.
  - intros mc. reflexivity.
Defined.

Lemma LDQ_U_aligned_witness :
  exists m' i',
    AXP_LDQ_U m_room (Some 256) = Some (NoException, m')
    /\ deref m' (Some 256) = Some i'
    /\ Ins.destv i' mod 8 = 0
    /\ Ins.destv i' <= effective_va (ins_of 21 LDQ 8192 4099) < Ins.destv i' + 8
    /\ Ins.state i' = WaitingRetirement.
Proof.
  apply (LDQ_U_aligned m_room (Some 256) (ins_of 21 LDQ 8192 4099)).
  reflexivity.
Defined.

Lemma plain_stores_only_retire_witness :
  run_store (K := K21264) (E := E21264) STW m_room (Some 256) =
    Some (NoException,
          M.set_instrs
            (<[256 := Ins.set_state WaitingRetirement (ins_of 21 LDQ 8192 4099)]>
               (M.instrs m_room)) m_room).
Proof.
  apply (plain_stores_only_retire (K := K21264) (E := E21264) m_room 256
           (ins_of 21 LDQ 8192 4099) STW).
  reflexivity.
Defined.

Lemma loads_stay_in_descriptor_witness :
  exists m' i',
    run_load (K := K21264) (E := E21264) E_LDL_L m_room (Some 256)
      = Some (NoException, m')
    /\ deref m' (Some 256) = Some i'
    /\ Ins.state i' = WaitingRetirement
    /\ Ins.uniqueID i' = 21 /\ Ins.opcode i' = LDQ
    /\ Ins.src1v i' = 4099 /\ Ins.displacement i' = 0
    /\ M.cpu m' = M.cpu m_room /\ M.memory m' = M.memory m_room
    /\ M.calls m' = M.calls m_room
    /\ (forall q, q <> Some 256 -> deref m' q = deref m_room q).
Proof.
  apply (loads_stay_in_descriptor (K := K21264) (E := E21264) m_room (Some 256)
           (ins_of 21 LDQ 8192 4099) E_LDL_L).
  reflexivity.
Defined.

Lemma load_locked_then_store_conditional_witness :
  (exists m1 m2 j1 j2,
     AXP_LDL_L (K := K21264) (E := E21264) m_three (Some 256) = Some (NoException, m1)
     /\ AXP_STL_C (K := K21264) m1 (Some 512) = Some (NoException, m2)
     /\ CPU.lockFlag (M.cpu m1) = CPU.lockFlag (M.cpu m_three)
     /\ M.instrs m2 !! 256 = Some j1
     /\ Ins.lockFlagPending j1 = true
     /\ Ins.lockPhysAddrPending j1 = effective_va (ins_of 10 LDBU 8192 8192)
     /\ Ins.lockVirtAddrPending j1 = effective_va (ins_of 10 LDBU 8192 8192)
     /\ M.instrs m2 !! 512 = Some j2
     /\ Ins.destv j2 = (if CPU.lockFlag (M.cpu m_three) then 1 else 0))
  /\ (exists m1 m2 j1 j2,
        AXP_LDQ_L (E := E21264) m_three (Some 256) = Some (NoException, m1)
        /\ AXP_STQ_C m1 (Some 512) = Some (NoException, m2)
        /\ CPU.lockFlag (M.cpu m1) = CPU.lockFlag (M.cpu m_three)
        /\ M.instrs m2 !! 256 = Some j1
        /\ Ins.lockFlagPending j1 = true
        /\ Ins.lockPhysAddrPending j1 = effective_va (ins_of 10 LDBU 8192 8192)
        /\ Ins.lockVirtAddrPending j1 = effective_va (ins_of 10 LDBU 8192 8192)
        /\ M.instrs m2 !! 512 = Some j2
        /\ Ins.destv j2 = (if CPU.lockFlag (M.cpu m_three) then 1 else 0)).
Proof.
  apply (load_locked_then_store_conditional (K := K21264) (E := E21264) m_three
           256 512 (ins_of 10 LDBU 8192 8192) (ins_of 5 (OtherOpcode 14) 8180 8192)).
  - reflexivity.
  - reflexivity.
  - lia.
Defined.

Lemma Process_Q_idle_witness :
  AXP_21264_Mbox_Process_Q (K := K21264) (X := X_miss) (C := C_free) m_miss
    = Some m_miss.
Proof.
  apply (Process_Q_idle (K := K21264) (X := X_miss) (C := C_free) m_miss).
  - unfold queue_len_ok. simpl. lia.
  - unfold cpu_wf. simpl. repeat split; lia.
  - vm_compute. reflexivity.
Defined.

Lemma Mbox_Init_queues_empty_witness :
  let cpu' := snd (AXP_21264_Mbox_Init (K := K21264) cpu_stale) in
  (forall (ii : nat) (e : Q.t),
     CPU.lq cpu' !! ii = Some e \/ CPU.sq cpu' !! ii = Some e ->
     Q.state e = QNotInUse /\ Q.instr e = None /\ Q.value e = 0
     /\ Q.virtAddress e = 0 /\ Q.IOflag e = false /\ Q.lockCond e = false)
  /\ forall m, M.cpu m = cpu' ->
       no_store_in_process m = true /\ nothing_actionable m = true.
Proof.
  apply (Mbox_Init_queues_empty (K := K21264) cpu_stale).
  - reflexivity.
  - reflexivity.
Defined.

Lemma LQ_Init_hit_completes_witness :
  exists m' L' i',
    AXP_21264_Mbox_LQ_Init (K := K21264) (X := X_hit) m_fault 0 = Some m'
    /\ get_lq m' 0 = Some L'
    /\ Q.state L' = LQComplete
    /\ Q.physAddress L' = 20480
    /\ deref m' (Some 256) = Some i'
    /\ Ins.destv i' = 119
    /\ M.calls m' =
         M.calls m_fault ++ [Call_va2pa 20480 8192 true Read;
                             Call_Dcache_Status 20480 20480;
                             Call_DcacheRead 20480 20480 (Q.len L')].
Proof.
  apply (LQ_Init_hit_completes (K := K21264) (X := X_hit) m_fault 0
           (Q.mk 0 20480 0 0 (Some 256) Initial false false)
           (ins_of 4 LDQ 8192 20480) 20480 false 0 true 119).
  - unfold queue_len_ok. simpl. lia.
  - reflexivity.
  - vm_compute. reflexivity.
  - lia.
  - reflexivity.
  - reflexivity.
  - intros mc. reflexivity.
  - lia.
  - vm_compute. reflexivity.
  - intros mc. reflexivity.
  - intros mc w. reflexivity.
Defined.

Lemma TryCaches_forward_byte_witness :
  exists m',
    AXP_21264_Mbox_TryCaches (K := K21264) (X := X_hit) (m_pair 12) 0 = Some m'
    /\ Ins.destv <$> deref m' (Some 256) = Some (171 mod 256)
    /\ Q.state <$> get_lq m' 0 = Some LQComplete.
Proof.
  apply (TryCaches_forward_byte (K := K21264) (X := X_hit) (m_pair 12) 0
           (Q.mk 0 4096 4096 1 (Some 256) LQReadPending false false)
           (ins_of 11 LDBU 8192 4096) 0
           (Q.mk 171 4096 4096 1 (Some 512) Initial false false)).
  - lia.
  - reflexivity.
  - reflexivity.
  - vm_compute. reflexivity.
  - reflexivity.
  - reflexivity.
Defined.
